(** * Field grounding and multi-pass refinement engine: a shallow embedding

    The Python services under [backend/app/services] are embedded as
    executable Rocq functions that keep the names of the source.

    - Python [float] confidences and fractional coordinates are idealised as
      exact rationals ([Q]); equalities between computed confidences are
      stated up to [Qeq] where a computation is involved.  The amounts of
      the invoice check are IEEE doubles (primitive floats): its tolerance
      test depends on the rounding of every operation.
    - Text is a string of bytes; case mapping and the character classes of
      the regular expressions are those of ASCII.
    - A Python [dict] is an insertion-ordered association list (module
      [PyDict]); the order matters to [_add_spatial_coordinates].
    - Field values are the textual values the extraction oracle is asked
      for; [str(value)] is then the identity.  The validation stage of the
      production service is also given on values of any kind (module
      [ProductionValues]), where a value that is not a text matters.
    - Exceptions are values of [Result]; the sessions of the production
      service run in the monad [M], which also logs the calls of the oracle.
    - The extraction oracle, the OCR service, [hash] and
      [difflib.SequenceMatcher.ratio] are parameters. *)

From Stdlib Require Import Bool List Ascii String ZArith QArith Qabs Qround Lia Lqa.
From Stdlib Require PrimFloat SpecFloat FloatOps.
Import ListNotations.

Open Scope string_scope.
Open Scope Q_scope.

(** ** Python strings *)

Module PyStr.

Definition is_upper (c : ascii) : bool :=
  let n := nat_of_ascii c in (65 <=? n)%nat && (n <=? 90)%nat.

Definition is_lower (c : ascii) : bool :=
  let n := nat_of_ascii c in (97 <=? n)%nat && (n <=? 122)%nat.

Definition is_digit (c : ascii) : bool :=
  let n := nat_of_ascii c in (48 <=? n)%nat && (n <=? 57)%nat.

Definition is_alpha (c : ascii) : bool := is_upper c || is_lower c.

(** Whitespace for [str.strip], [str.split] and [\s]: tab to carriage
    return, the four separators 28 to 31, and space. *)
Definition is_space (c : ascii) : bool :=
  let n := nat_of_ascii c in
  ((9 <=? n)%nat && (n <=? 13)%nat) || ((28 <=? n)%nat && (n <=? 31)%nat)
  || (n =? 32)%nat.

(** [\w] on ASCII text. *)
Definition is_word (c : ascii) : bool :=
  is_alpha c || is_digit c || (nat_of_ascii c =? 95)%nat.

Definition lower_char (c : ascii) : ascii :=
  if is_upper c then ascii_of_nat (nat_of_ascii c + 32) else c.

Definition upper_char (c : ascii) : ascii :=
  if is_lower c then ascii_of_nat (nat_of_ascii c - 32) else c.

(** [s.lower()] *)
Fixpoint lower (s : string) : string :=
  match s with
  | EmptyString => EmptyString
  | String c s' => String (lower_char c) (lower s')
  end.

(** [needle in hay] *)
Fixpoint contains (needle hay : string) : bool :=
  String.prefix needle hay
  || match hay with
     | EmptyString => false
     | String _ hay' => contains needle hay'
     end.

(** [any(p in s for p in patterns)] *)
Definition any_in (patterns : list string) (s : string) : bool :=
  existsb (fun p => contains p s) patterns.

(** [x in xs] for a list of strings *)
Definition mem (x : string) (xs : list string) : bool :=
  existsb (String.eqb x) xs.

Fixpoint lstrip (s : string) : string :=
  match s with
  | String c s' => if is_space c then lstrip s' else s
  | EmptyString => EmptyString
  end.

Fixpoint rev_acc (s acc : string) : string :=
  match s with
  | EmptyString => acc
  | String c s' => rev_acc s' (String c acc)
  end.

Definition rev (s : string) : string := rev_acc s EmptyString.

Definition rstrip (s : string) : string := rev (lstrip (rev s)).

(** [s.strip()] *)
Definition strip (s : string) : string := rstrip (lstrip s).

(** [re.sub(cls, '', s)] for a one-character class [cls]: the characters
    of the class are dropped. *)
Fixpoint remove_chars (cls : ascii -> bool) (s : string) : string :=
  match s with
  | EmptyString => EmptyString
  | String c s' =>
      if cls c then remove_chars cls s' else String c (remove_chars cls s')
  end.

(** [s.replace(a, b)] for one-character [a] and [b]. *)
Fixpoint replace_char (a b : ascii) (s : string) : string :=
  match s with
  | EmptyString => EmptyString
  | String c s' =>
      String (if Ascii.eqb c a then b else c) (replace_char a b s')
  end.

(** [s.split()]: the maximal runs of non-whitespace characters.  [cur]
    holds the current run, reversed. *)
Fixpoint split_ws_aux (s cur : string) : list string :=
  match s with
  | EmptyString =>
      match cur with EmptyString => [] | _ => [rev cur] end
  | String c s' =>
      if is_space c
      then match cur with
           | EmptyString => split_ws_aux s' EmptyString
           | _ => rev cur :: split_ws_aux s' EmptyString
           end
      else split_ws_aux s' (String c cur)
  end.

Definition split_ws (s : string) : list string := split_ws_aux s EmptyString.

(** [sep.join(words)] *)
Fixpoint join (sep : string) (words : list string) : string :=
  match words with
  | [] => EmptyString
  | [w] => w
  | w :: ws => w ++ sep ++ join sep ws
  end.

(** [word.capitalize()] *)
Definition capitalize (w : string) : string :=
  match w with
  | EmptyString => EmptyString
  | String c w' => String (upper_char c) (lower w')
  end.

(** [s.replace(old, new)] for a non-empty [old]: occurrences are replaced
    from the left and do not overlap.  [skip] counts the characters of a
    replaced occurrence still to drop. *)
Fixpoint replace_aux (old new : string) (skip : nat) (s : string) : string :=
  match s with
  | EmptyString => EmptyString
  | String c s' =>
      match skip with
      | S n => replace_aux old new n s'
      | O =>
          if String.prefix old s
          then new ++ replace_aux old new (String.length old - 1) s'
          else String c (replace_aux old new O s')
      end
  end.

Definition replace (old new : string) (s : string) : string :=
  replace_aux old new O s.

(** The longest prefix of [s] made of characters of [cls]. *)
Fixpoint take_while (cls : ascii -> bool) (s : string) : string :=
  match s with
  | EmptyString => EmptyString
  | String c s' => if cls c then String c (take_while cls s') else EmptyString
  end.

(** [re.search(r'[cls]+', s)]: the first maximal run of characters of
    [cls], if any. *)
Fixpoint first_run (cls : ascii -> bool) (s : string) : option string :=
  match s with
  | EmptyString => None
  | String c s' => if cls c then Some (take_while cls s) else first_run cls s'
  end.

(** Python truthiness of a string: [not s] holds exactly for [""]. *)
Definition truthy (s : string) : bool :=
  match s with EmptyString => false | _ => true end.

End PyStr.

(** ** Exceptions *)

Inductive Result (A : Type) :=
| Ok (a : A)
| Raise (exc : string).

Arguments Ok {A} a.
Arguments Raise {A} exc.

Definition bind {A B : Type} (m : Result A) (k : A -> Result B) : Result B :=
  match m with
  | Ok a => k a
  | Raise e => Raise e
  end.

Notation "x <- m ;; k" := (bind m (fun x => k))
  (at level 61, m at next level, right associativity).

(** [try: m  except Exception: handler] *)
Definition try_except {A : Type} (m : Result A) (handler : A) : A :=
  match m with
  | Ok a => a
  | Raise _ => handler
  end.

(** ** Regular expressions ([re.search], [re.match]) *)

Module Re.

(** A pattern over character classes. *)
Inductive regex :=
| Void
| Eps
| Chr (cls : ascii -> bool)
| Cat (r s : regex)
| Alt (r s : regex)
| Star (r : regex).

Fixpoint nullable (r : regex) : bool :=
  match r with
  | Void => false
  | Eps => true
  | Chr _ => false
  | Cat r s => nullable r && nullable s
  | Alt r s => nullable r || nullable s
  | Star _ => true
  end.

Definition cat (r s : regex) : regex :=
  match r, s with
  | Void, _ => Void
  | _, Void => Void
  | Eps, _ => s
  | _, Eps => r
  | _, _ => Cat r s
  end.

Definition alt (r s : regex) : regex :=
  match r, s with
  | Void, _ => s
  | _, Void => r
  | _, _ => Alt r s
  end.

(** The derivative of [r] by the character [c]. *)
Fixpoint deriv (c : ascii) (r : regex) : regex :=
  match r with
  | Void => Void
  | Eps => Void
  | Chr cls => if cls c then Eps else Void
  | Cat r s =>
      if nullable r
      then alt (cat (deriv c r) s) (deriv c s)
      else cat (deriv c r) s
  | Alt r s => alt (deriv c r) (deriv c s)
  | Star r => cat (deriv c r) (Star r)
  end.

(** [re.fullmatch(r, s) is not None] *)
Fixpoint fullmatch (r : regex) (s : string) : bool :=
  match s with
  | EmptyString => nullable r
  | String c s' => fullmatch (deriv c r) s'
  end.

Definition any_char : regex := Chr (fun _ => true).

(** [re.search(r, s) is not None]: some substring of [s] matches [r]. *)
Definition search (r : regex) (s : string) : bool :=
  fullmatch (Cat (Star any_char) (Cat r (Star any_char))) s.

(** [r+], [r?], [r{n}], [r{m,n}] and [r{m,}] *)
Definition plus (r : regex) : regex := Cat r (Star r).
Definition opt (r : regex) : regex := Alt Eps r.

Fixpoint rep (n : nat) (r : regex) : regex :=
  match n with
  | O => Eps
  | S n' => Cat r (rep n' r)
  end.

Fixpoint rep_upto (n : nat) (r : regex) : regex :=
  match n with
  | O => Eps
  | S n' => opt (Cat r (rep_upto n' r))
  end.

Definition rep_range (m n : nat) (r : regex) : regex :=
  Cat (rep m r) (rep_upto (n - m) r).

Definition rep_atleast (m : nat) (r : regex) : regex :=
  Cat (rep m r) (Star r).

Definition lit (c : ascii) : regex := Chr (Ascii.eqb c).

Definition one_of (chars : string) : ascii -> bool :=
  fun c => PyStr.contains (String c EmptyString) chars.

(** Character classes of the patterns in the services. *)
Definition digit : regex := Chr PyStr.is_digit.
Definition alpha : regex := Chr PyStr.is_alpha.
Definition date_sep : regex := Chr (one_of "-/").

End Re.

(** ** [float(s)] on decimal text *)

Module PyFloat.

Definition digit_value (c : ascii) : Z := Z.of_nat (nat_of_ascii c - 48).

(** The digits of [s] read as a number in base ten, or [None] when [s] has
    another character. *)
Fixpoint digits_value (s : string) (acc : Z) : option Z :=
  match s with
  | EmptyString => Some acc
  | String c s' =>
      if PyStr.is_digit c then digits_value s' (10 * acc + digit_value c)%Z
      else None
  end.

(** [s.partition('.')]: the text before the first dot, and the text after
    it when there is a dot. *)
Fixpoint split_dot (s : string) : string * option string :=
  match s with
  | EmptyString => (EmptyString, None)
  | String c s' =>
      if Ascii.eqb c "." then (EmptyString, Some s')
      else let '(a, b) := split_dot s' in (String c a, b)
  end.

(** An unsigned decimal: digits, an optional dot, digits, with at least one
    digit. *)
Definition parse_unsigned (s : string) : option Q :=
  let '(int_part, frac) := split_dot s in
  let frac_part := match frac with Some f => f | None => EmptyString end in
  match int_part, frac_part with
  | EmptyString, EmptyString => None
  | _, _ =>
      match digits_value int_part 0, digits_value frac_part 0 with
      | Some i, Some f =>
          let scale := (10 ^ Z.of_nat (String.length frac_part))%Z in
          Some (Qred (Qmake (i * scale + f) (Z.to_pos scale)))
      | _, _ => None
      end
  end.

(** [float(s)] for a text over the characters [-0-9.]; [None] stands for
    [ValueError]. *)
Definition parse (s : string) : option Q :=
  match s with
  | String "-" s' => option_map Qopp (parse_unsigned s')
  | _ => parse_unsigned s
  end.

(** The double nearest to a rational, ties to even.  The magnitude is
    scaled by a power of two to an integer of more than 64 bits, the
    remainder of the division is kept as a sticky last bit, and the result
    is rounded once to 53 bits. *)
Definition round (q : Q) : PrimFloat.float :=
  let n := Qnum q in
  let d := Zpos (Qden q) in
  let s := Z.max 0 (66 + Z.log2 d - Z.log2 (Z.abs n)) in
  let scaled := (Z.abs n * 2 ^ s)%Z in
  let quotient := (scaled / d)%Z in
  let sticky := if (scaled mod d =? 0)%Z then 0%Z else 1%Z in
  let mantissa := (2 * quotient + sticky)%Z in
  FloatOps.SF2Prim
    (SpecFloat.binary_normalize FloatOps.prec FloatOps.emax
       (if (n <? 0)%Z then (- mantissa)%Z else mantissa) (- s - 1) false).

(** [float(s)] as the double it returns: the decimal is rounded to the
    nearest double, and a leading minus sign negates it. *)
Definition to_double (s : string) : option PrimFloat.float :=
  match s with
  | String "-" s' => option_map (fun q => PrimFloat.opp (round q)) (parse_unsigned s')
  | _ => option_map round (parse_unsigned s)
  end.

End PyFloat.

(** ** Insertion-ordered dictionaries *)

Module PyDict.

Section Dict.
Context {V : Type}.

Definition dict := list (string * V).

(** [d.get(k)] *)
Fixpoint get (k : string) (d : dict) : option V :=
  match d with
  | [] => None
  | (k', v) :: d' => if String.eqb k k' then Some v else get k d'
  end.

(** [d[k] = v]: an existing key keeps its position, a new key goes
    last. *)
Fixpoint set (k : string) (v : V) (d : dict) : dict :=
  match d with
  | [] => [(k, v)]
  | (k', v') :: d' =>
      if String.eqb k k' then (k', v) :: d' else (k', v') :: set k v d'
  end.

(** [d.update(e)], also [{**d, **e}] *)
Definition update (d e : dict) : dict :=
  fold_left (fun acc kv => set (fst kv) (snd kv) acc) e d.

Definition keys (d : dict) : list string := map fst d.

(** Dictionaries built by the services have pairwise distinct keys. *)
Definition wf (d : dict) : Prop := NoDup (keys d).

End Dict.

Arguments dict : clear implicits.

(** [{k: f(k, v) for k, v in d.items()}] *)
Definition map_items {V W : Type} (f : string -> V -> W) (d : dict V) : dict W :=
  List.map (fun kv => (fst kv, f (fst kv) (snd kv))) d.

End PyDict.

(** ** Data model ([app/models/schemas.py]) *)

Inductive DocumentType :=
| INVOICE | RECEIPT | BUSINESS_CARD | FORM | CONTRACT | CUSTOM.

Inductive ConfidenceLevel := HIGH | MEDIUM | LOW.

Record FieldLocation := mkLocation {
  loc_x : Q;
  loc_y : Q;
  loc_width : Q;
  loc_height : Q
}.

(** A validation message.  Messages built with an f-string over floats keep
    the numbers instead of their printed form. *)
Inductive ValidationError :=
| ErrText (msg : string)
| ErrTotalMismatch (total_val calculated_total : PrimFloat.float).

(** [value] is declared [Any]; it is a text here, and module
    [ProductionValues] has the field with a value of any kind. *)
Record ExtractedField := mkField {
  value : string;
  confidence : Q;
  confidence_level : ConfidenceLevel;
  location : option FieldLocation;
  original_text : option string;
  validation_errors : list ValidationError
}.

Record BoundingBox := mkBBox { x1 : Z; y1 : Z; x2 : Z; y2 : Z }.

Record TextBlock := mkBlock {
  text : string;
  block_confidence : Q;
  bounding_box : BoundingBox;
  font_size : Z;
  line_number : Z
}.

Definition Fields := PyDict.dict ExtractedField.

(** The dict returned by the OCR service, through the two keys the
    services read; [{}] reads as no block and the default dimensions. *)
Record OcrResults := mkOcr {
  text_blocks : list TextBlock;
  image_dimensions : Z * Z
}.

Definition empty_ocr : OcrResults := mkOcr [] (1%Z, 1%Z).

(** Comparisons of floats as booleans. *)
Definition Qleb (a b : Q) : bool := Qle_bool a b.
Definition Qltb (a b : Q) : bool := negb (Qle_bool b a).

(** [min(a, b)] and [max(a, b)] *)
Definition Qmin (a b : Q) : Q := if Qleb a b then a else b.
Definition Qmax (a b : Q) : Q := if Qleb a b then b else a.

(** [_get_confidence_level], identical in every service. *)
Definition _get_confidence_level (c : Q) : ConfidenceLevel :=
  if Qleb 0.9 c then HIGH
  else if Qleb 0.7 c then MEDIUM
  else LOW.

(** [ExtractedField(...)]: the model validates [0 <= confidence <= 1]. *)
Definition new_ExtractedField (v : string) (c : Q) (lvl : ConfidenceLevel)
    (loc : option FieldLocation) (orig : option string)
    (errs : list ValidationError) : Result ExtractedField :=
  if Qleb 0 c && Qleb c 1 then Ok (mkField v c lvl loc orig errs)
  else Raise "ValidationError".

(** ** The extraction oracle *)

(** What the oracle's reply holds under the key [confidence]. *)
Inductive RawConfidence :=
| ConfAbsent
| ConfNumber (q : Q)
| ConfInvalid.

(** One entry of the JSON object of a reply: a dict with its [value],
    [confidence] and [original_text] keys, or anything else, kept as its
    [str()]. *)
Inductive RawEntry :=
| EntryDict (v : option string) (c : RawConfidence) (orig : option string)
| EntryOther (as_str : string).

(** A reply as the parser of its call reads it: the JSON object found in
    the text; a text in which no JSON is found; or a JSON value that is
    not an object, through its truth value.  Only [_parse_json_response]
    can read the last one, from a text without braces or from a fenced
    block: [json.loads] succeeds there on a number, a list, a string,
    [true], [false] or [null]. *)
Inductive Reply :=
| ReplyJson (data : PyDict.dict RawEntry)
| ReplyText (body : string)
| ReplyValue (truthy : bool).

(** [float(field_data.get('confidence', 0.5))] *)
Definition float_of_confidence (c : RawConfidence) : Result Q :=
  match c with
  | ConfAbsent => Ok 0.5
  | ConfNumber q => Ok q
  | ConfInvalid => Raise "ValueError"
  end.

Definition dq : string := String (ascii_of_nat 34) EmptyString.
Definition nl : string := String (ascii_of_nat 10) EmptyString.

(** The prompts sent through [_get_gemini_response_simple]. *)
Inductive SimplePrompt :=
| GeneralPrompt (t : DocumentType)
| FocusedPrompt (missing_fields : list string)
| CustomPrompt (custom_fields : list string).

Definition invoice_general_prompt : string :=
  "You are an expert invoice analyzer. Extract ALL visible information with perfect accuracy.

CRITICAL REQUIREMENTS:
1. Extract EXACTLY what you see - do not interpret or modify
2. For amounts: keep original formatting (e.g., " ++ dq ++ "$1,234.56" ++ dq ++ " not " ++ dq ++ "1234.56" ++ dq ++ ")
3. For dates: extract in original format (e.g., " ++ dq ++ "01/15/2024" ++ dq ++ " not " ++ dq ++ "January 15, 2024" ++ dq ++ ")
4. For addresses: extract complete address as one field
5. Confidence must reflect actual certainty (be conservative)

REQUIRED FIELDS:
- vendor_name: Company/business name issuing invoice
- vendor_address: Complete vendor address
- invoice_number: Invoice/reference number
- invoice_date: Date invoice was issued
- due_date: Payment due date (if visible)
- customer_name: Bill-to customer name
- customer_address: Customer billing address
- subtotal: Amount before tax
- tax_amount: Tax amount charged
- total_amount: Final total amount
- currency: Currency symbol/code
- line_items: Individual items/services (as array)

OPTIONAL FIELDS:
- payment_terms: Payment conditions
- purchase_order: PO number if referenced
- phone: Vendor phone number
- email: Vendor email
- website: Vendor website

Return JSON with exact format:
{
  " ++ dq ++ "field_name" ++ dq ++ ": {
    " ++ dq ++ "value" ++ dq ++ ": " ++ dq ++ "exact_extracted_text" ++ dq ++ ",
    " ++ dq ++ "confidence" ++ dq ++ ": 0.95,
    " ++ dq ++ "original_text" ++ dq ++ ": " ++ dq ++ "text_as_seen_in_document" ++ dq ++ "
  }
}

Extract ALL visible relevant data:".

Definition receipt_general_prompt : string :=
  "Extract all information from this receipt with perfect accuracy:

REQUIRED FIELDS:
- merchant_name: Store/business name
- merchant_address: Store address
- transaction_date: Date of purchase
- transaction_time: Time of purchase
- total_amount: Final total paid
- subtotal: Subtotal before tax
- tax_amount: Tax charged
- payment_method: How payment was made
- items: List of purchased items

OPTIONAL FIELDS:
- cashier: Cashier name/ID
- register: Register number
- transaction_id: Receipt/transaction number

Extract exactly as shown on receipt.".

Definition default_general_prompt : string :=
  "Extract all relevant data from this document.".

Definition prompt_text (p : SimplePrompt) : string :=
  match p with
  | GeneralPrompt INVOICE => invoice_general_prompt
  | GeneralPrompt RECEIPT => receipt_general_prompt
  | GeneralPrompt _ => default_general_prompt
  | FocusedPrompt missing_fields =>
      "Focus on finding these specific fields that were missed:" ++ nl
      ++ PyStr.join ", " missing_fields ++ nl ++ nl
      ++ "Look carefully at the document and extract ONLY these fields." ++ nl
      ++ "Return JSON format with exact values as they appear."
  | CustomPrompt custom_fields =>
      "Extract these specific custom fields from the document:" ++ nl
      ++ PyStr.join ", " custom_fields ++ nl ++ nl
      ++ "Look carefully for any information related to these field names." ++ nl
      ++ "Return JSON format with the exact field names provided."
  end.

Inductive OracleCall :=
| SimpleCall (p : SimplePrompt)
| ExtractFieldsCall (t : DocumentType).

(** What a session does, in order: calls of the oracle and the two
    rule-based stages. *)
Inductive Event :=
| EvOracle (c : OracleCall)
| EvRefine
| EvValidate.

Definition Log := list Event.

(** The collaborators of one session.  [generate_content n c] is the
    outcome of [model.generate_content] when [n] events precede the call;
    [detected_type] is what [_detect_document_type_advanced] returns, which
    catches every exception. *)
Record World := mkWorld {
  use_real_api : bool;
  image_opens : bool;
  generate_content : nat -> OracleCall -> Result Reply;
  py_hash : string -> Z;
  detected_type : DocumentType * Q
}.

(** Computations that may raise and that append to the log. *)
Definition M (A : Type) : Type := Log -> Result A * Log.

Definition ret {A : Type} (a : A) : M A := fun log => (Ok a, log).

Definition raise {A : Type} (e : string) : M A := fun log => (Raise e, log).

Definition bindM {A B : Type} (m : M A) (k : A -> M B) : M B :=
  fun log =>
    match m log with
    | (Ok a, log') => k a log'
    | (Raise e, log') => (Raise e, log')
    end.

Notation "x <~ m ;; k" := (bindM m (fun x => k))
  (at level 61, m at next level, right associativity).

Definition emit (e : Event) : M unit := fun log => (Ok tt, (log ++ [e])%list).

Definition lift {A : Type} (r : Result A) : M A := fun log => (r, log).

(** [try: m  except Exception: handler] *)
Definition try_M {A : Type} (m handler : M A) : M A :=
  fun log =>
    match m log with
    | (Ok a, log') => (Ok a, log')
    | (Raise _, log') => handler log'
    end.

(** [Image.open(io.BytesIO(image_data))] *)
Definition image_open (w : World) : M unit :=
  if image_opens w then ret tt else raise "UnidentifiedImageError".

(** The e-mail pattern, the same in every service. *)

(** [r'^[a-zA-Z0-9._%+-]+@[a-zA-Z0-9.-]+\.[a-zA-Z]{2,}$'] *)
Definition email_re : Re.regex :=
  Re.Cat
    (Re.plus (Re.Chr (fun c => PyStr.is_alpha c || PyStr.is_digit c || Re.one_of "._%+-" c)))
    (Re.Cat (Re.lit "@")
       (Re.Cat
          (Re.plus (Re.Chr (fun c => PyStr.is_alpha c || PyStr.is_digit c || Re.one_of ".-" c)))
          (Re.Cat (Re.lit ".") (Re.rep_atleast 2 Re.alpha)))).

(** [re.match] of the anchored pattern: [$] also matches before one final
    newline. *)
Definition email_match (s : string) : bool :=
  Re.fullmatch (Re.Cat email_re (Re.opt (Re.lit (ascii_of_nat 10)))) s.

(** ** [GeminiService] *)

Module Gemini.

Definition mock_simple_json : PyDict.dict RawEntry :=
  [ ("vendor_name",
     EntryDict (Some "ACME Corporation") (ConfNumber 0.95) (Some "ACME Corporation"));
    ("invoice_number",
     EntryDict (Some "INV-2025-001") (ConfNumber 0.92) (Some "INV-2025-001"));
    ("total_amount",
     EntryDict (Some "$1,234.56") (ConfNumber 0.98) (Some "$1,234.56"));
    ("invoice_date",
     EntryDict (Some "2025-06-18") (ConfNumber 0.90) (Some "18/06/2025")) ].

(** [_get_mock_simple_response].  The last branch echoes the prompt; no
    prompt of the production service reaches it. *)
Definition _get_mock_simple_response (prompt : string) : Reply :=
  if PyStr.contains "document type" (PyStr.lower prompt) then
    ReplyText "INVOICE|0.95"
  else if PyStr.contains "extract" (PyStr.lower prompt) then
    ReplyJson mock_simple_json
  else
    ReplyText ("Mock response for: " ++ String.substring 0 50 prompt ++ "...").

(** [_get_gemini_response_simple]: a failure of the call is caught and
    answered with the mock response. *)
Definition _get_gemini_response_simple (w : World) (p : SimplePrompt) : M Reply :=
  fun log =>
    let log' := (log ++ [EvOracle (SimpleCall p)])%list in
    if use_real_api w then
      match generate_content w (List.length log) (SimpleCall p) with
      | Ok r => (Ok r, log')
      | Raise _ => (Ok (_get_mock_simple_response (prompt_text p)), log')
      end
    else (Ok (_get_mock_simple_response (prompt_text p)), log').

Definition _get_mock_extraction (t : DocumentType) : list (string * (string * Q)) :=
  match t with
  | INVOICE =>
      [ ("vendor_name", ("ACME Corporation", 0.95));
        ("invoice_number", ("INV-2024-001", 0.90));
        ("invoice_date", ("2024-01-15", 0.92));
        ("total_amount", ("1,234.56", 0.95));
        ("currency", ("USD", 0.88));
        ("vendor_address", ("123 Business St, City, State 12345", 0.85));
        ("subtotal", ("1,134.56", 0.90));
        ("tax_amount", ("100.00", 0.88)) ]
  | RECEIPT =>
      [ ("merchant_name", ("Coffee Shop", 0.92));
        ("transaction_date", ("2024-01-15", 0.90));
        ("total_amount", ("15.50", 0.95));
        ("payment_method", ("Credit Card", 0.85)) ]
  | BUSINESS_CARD =>
      [ ("full_name", ("John Smith", 0.95));
        ("company", ("Tech Solutions Inc", 0.90));
        ("title", ("Software Engineer", 0.88));
        ("email", ("john.smith@techsolutions.com", 0.92));
        ("phone", ("+1 (555) 123-4567", 0.90)) ]
  | _ =>
      [ ("document_content", ("Sample extracted content", 0.75)) ]
  end.

(** [_convert_to_extracted_fields] *)
Definition convert_entry (acc : Result Fields) (item : string * RawEntry) : Result Fields :=
  d <- acc ;;
  vc <- match snd item with
        | EntryDict v c _ =>
            conf <- float_of_confidence c ;;
            Ok (match v with Some s => s | None => EmptyString end, conf)
        | EntryOther s => Ok (s, 0.7)
        end ;;
  f <- new_ExtractedField (fst vc) (snd vc) (_get_confidence_level (snd vc))
         None (Some (fst vc)) [] ;;
  Ok (PyDict.set (fst item) f d).

Definition _convert_to_extracted_fields (result : PyDict.dict RawEntry) : Result Fields :=
  fold_left convert_entry result (Ok []).

Definition mock_fields (t : DocumentType) : Fields :=
  fold_left
    (fun acc item =>
       PyDict.set (fst item)
         (mkField (fst (snd item)) (snd (snd item))
                  (_get_confidence_level (snd (snd item))) None
                  (Some (fst (snd item))) [])
         acc)
    (_get_mock_extraction t) [].

(** [extract_fields(image_data, document_type)]: every exception is caught
    and gives the empty dict; without the real API, or when
    [_parse_json_response] returns [None] or another falsy value, the mock
    extraction is returned.  A truthy value that is not an object reaches
    [_convert_to_extracted_fields], whose [result.items()] raises. *)
Definition extract_fields (w : World) (t : DocumentType) : M Fields :=
  fun log =>
    let log' := (log ++ [EvOracle (ExtractFieldsCall t)])%list in
    if use_real_api w then
      if image_opens w then
        match generate_content w (List.length log) (ExtractFieldsCall t) with
        | Raise _ => (Ok [], log')
        | Ok (ReplyJson (item :: data)) =>
            (Ok (try_except (_convert_to_extracted_fields (item :: data)) []), log')
        | Ok (ReplyValue true) => (Ok [], log')
        | Ok _ => (Ok (mock_fields t), log')
        end
      else (Ok [], log')
    else (Ok (mock_fields t), log').

(** The text of the euro sign in UTF-8. *)
Definition euro : string :=
  String (ascii_of_nat 226) (String (ascii_of_nat 130) (String (ascii_of_nat 172) EmptyString)).

Definition set_confidence (c : Q) (field : ExtractedField) : ExtractedField :=
  mkField (value field) c (confidence_level field) (location field)
    (original_text field) (validation_errors field).

Definition add_error (e : ValidationError) (field : ExtractedField) : ExtractedField :=
  mkField (value field) (confidence field) (confidence_level field) (location field)
    (original_text field) (validation_errors field ++ [e]).

(** [field.confidence = min(field.confidence + 0.05, 1.0)] *)
Definition award_bonus (field : ExtractedField) : ExtractedField :=
  set_confidence (Qmin (confidence field + 0.05) 1) field.

(** [errors.append(msg); field.confidence = max(field.confidence - d, 0.0)] *)
Definition penalise (msg : string) (d : Q) (field : ExtractedField) : ExtractedField :=
  set_confidence (Qmax (confidence field - d) 0) (add_error (ErrText msg) field).

(** [_validate_date_field].  [date_parses s] tells whether
    [datetime.strptime] accepts [s] in one of the formats [%Y-%m-%d],
    [%m/%d/%Y], [%d/%m/%Y], [%B %d, %Y]. *)
Definition _validate_date_field (date_parses : string -> bool)
    (field : ExtractedField) : ExtractedField :=
  if negb (PyStr.truthy (value field)) then field
  else if date_parses (value field) then award_bonus field
  else penalise "Invalid date format" 0.1 field.

(** [_validate_amount_field] *)
Definition _validate_amount_field (field : ExtractedField) : ExtractedField :=
  if negb (PyStr.truthy (value field)) then field
  else
    let amount_str :=
      PyStr.replace euro "" (PyStr.replace "$" "" (PyStr.replace "," "" (value field))) in
    match PyStr.first_run (fun c => PyStr.is_digit c || Ascii.eqb c ".") amount_str with
    | Some run =>
        match PyFloat.parse run with
        | Some numeric_value =>
            if Qleb 0 numeric_value then award_bonus field
            else add_error (ErrText "Negative amount detected") field
        | None =>
            penalise
              ("Amount validation error: could not convert string to float: '"
                 ++ run ++ "'")
              0.1 field
        end
    | None => penalise "No numeric value found" 0.1 field
    end.

(** [_validate_email_field] *)
Definition _validate_email_field (field : ExtractedField) : ExtractedField :=
  if negb (PyStr.truthy (value field)) then field
  else if email_match (value field) then award_bonus field
  else penalise "Invalid email format" 0.1 field.

(** [_validate_phone_field] *)
Definition _validate_phone_field (field : ExtractedField) : ExtractedField :=
  if negb (PyStr.truthy (value field)) then field
  else
    let digits_only := PyStr.remove_chars (fun c => negb (PyStr.is_digit c)) (value field) in
    if (10 <=? String.length digits_only)%nat then award_bonus field
    else penalise "Phone number too short" 0.05 field.

(** The body of the loop of [validate_extraction] for one field. *)
Definition validate_extraction_field (date_parses : string -> bool)
    (field_name : string) (field : ExtractedField) : ExtractedField :=
  let name := PyStr.lower field_name in
  let field' :=
    if PyStr.contains "date" name then _validate_date_field date_parses field
    else if PyStr.any_in ["amount"; "total"; "price"] name then _validate_amount_field field
    else if PyStr.contains "email" name then _validate_email_field field
    else if PyStr.contains "phone" name then _validate_phone_field field
    else field in
  mkField (value field') (confidence field')
    (_get_confidence_level (confidence field'))
    (location field') (original_text field') (validation_errors field').

(** [validate_extraction]: the fields are updated in place. *)
Definition validate_extraction (date_parses : string -> bool)
    (extracted_fields : Fields) (t : DocumentType) : Fields :=
  PyDict.map_items (validate_extraction_field date_parses) extracted_fields.

End Gemini.

(** ** [ProductionDocumentService] *)

Module Production.

(** The feature switches set by [__init__]. *)
Definition validation_enabled : bool := true.
Definition spatial_analysis : bool := true.
Definition multi_pass_extraction : bool := true.

(** [_parse_enhanced_response]: entries that are dicts with a [value] key
    become fields; any exception gives the empty dict, and so does a reply
    in which [re.search(r'\{.*\}', ...)] finds no object. *)
Definition parse_entry (acc : Result Fields) (item : string * RawEntry) : Result Fields :=
  d <- acc ;;
  match snd item with
  | EntryDict (Some v) c orig =>
      conf <- float_of_confidence c ;;
      f <- new_ExtractedField v conf (_get_confidence_level conf) None
             (Some (match orig with Some o => o | None => v end)) [] ;;
      Ok (PyDict.set (fst item) f d)
  | _ => Ok d
  end.

Definition _parse_enhanced_response (response : Reply) : Fields :=
  match response with
  | ReplyText _ => []
  | ReplyValue _ => []
  | ReplyJson data => try_except (fold_left parse_entry data (Ok [])) []
  end.

(** [_extract_with_enhanced_prompt(image_data, document_type, "general")] *)
Definition _extract_with_enhanced_prompt (w : World) (t : DocumentType) : M Fields :=
  _ <~ image_open w ;;
  response <~ Gemini._get_gemini_response_simple w (GeneralPrompt t) ;;
  ret (_parse_enhanced_response response).

Definition critical_fields (t : DocumentType) : list string :=
  match t with
  | INVOICE => ["vendor_name"; "invoice_number"; "total_amount"; "invoice_date"]
  | RECEIPT => ["merchant_name"; "total_amount"; "transaction_date"]
  | BUSINESS_CARD => ["full_name"; "company"]
  | _ => []
  end.

(** [field not in existing_fields or not existing_fields[field].value] *)
Definition is_missing (existing_fields : Fields) (field : string) : bool :=
  match PyDict.get field existing_fields with
  | None => true
  | Some f => negb (PyStr.truthy (value f))
  end.

Definition missing_fields (t : DocumentType) (existing_fields : Fields) : list string :=
  filter (is_missing existing_fields) (critical_fields t).

(** [_extract_missing_fields] *)
Definition _extract_missing_fields (w : World) (t : DocumentType)
    (existing_fields : Fields) : M Fields :=
  match missing_fields t existing_fields with
  | [] => ret []
  | missing =>
      _ <~ image_open w ;;
      response <~ Gemini._get_gemini_response_simple w (FocusedPrompt missing) ;;
      ret (_parse_enhanced_response response)
  end.

(** [_extract_custom_fields] *)
Definition _extract_custom_fields (w : World) (custom_fields : list string) : M Fields :=
  match custom_fields with
  | [] => ret []
  | _ =>
      _ <~ image_open w ;;
      response <~ Gemini._get_gemini_response_simple w (CustomPrompt custom_fields) ;;
      ret (_parse_enhanced_response response)
  end.

Definition currency_terms : list string := ["amount"; "total"; "price"; "cost"; "subtotal"].
Definition date_terms : list string := ["date"; "due"].
Definition name_terms : list string := ["name"; "vendor"; "customer"; "merchant"].

(** [re.sub(r'\s+', ' ', s)]; [in_run] tells that the previous character
    was whitespace. *)
Fixpoint collapse_ws_aux (in_run : bool) (s : string) : string :=
  match s with
  | EmptyString => EmptyString
  | String c s' =>
      if PyStr.is_space c
      then if in_run then collapse_ws_aux true s'
           else String " " (collapse_ws_aux true s')
      else String c (collapse_ws_aux false s')
  end.

Definition collapse_ws (s : string) : string := collapse_ws_aux false s.

(** [_clean_field_value] *)
Definition _clean_field_value (field_name : string) (v : string) : string :=
  if negb (PyStr.truthy v) then EmptyString
  else
    let cleaned := PyStr.strip v in
    let name := PyStr.lower field_name in
    if PyStr.any_in currency_terms name then collapse_ws cleaned
    else if PyStr.any_in date_terms name then
      PyStr.replace_char "." "-" (PyStr.replace_char "/" "-" cleaned)
    else if PyStr.any_in name_terms name then
      PyStr.join " " (map PyStr.capitalize (PyStr.split_ws cleaned))
    else cleaned.

(** [r'[\d,]+\.?\d*'] *)
Definition amount_re : Re.regex :=
  Re.Cat (Re.plus (Re.Chr (fun c => PyStr.is_digit c || Ascii.eqb c ",")))
    (Re.Cat (Re.opt (Re.lit ".")) (Re.Star Re.digit)).

(** The four patterns of [_is_valid_date_format]. *)
Definition date_patterns : list Re.regex :=
  [ (* \d{1,2}[-/]\d{1,2}[-/]\d{2,4} *)
    Re.Cat (Re.rep_range 1 2 Re.digit)
      (Re.Cat Re.date_sep
         (Re.Cat (Re.rep_range 1 2 Re.digit)
            (Re.Cat Re.date_sep (Re.rep_range 2 4 Re.digit))));
    (* \d{4}[-/]\d{1,2}[-/]\d{1,2} *)
    Re.Cat (Re.rep 4 Re.digit)
      (Re.Cat Re.date_sep
         (Re.Cat (Re.rep_range 1 2 Re.digit)
            (Re.Cat Re.date_sep (Re.rep_range 1 2 Re.digit))));
    (* [A-Za-z]+ \d{1,2}, \d{4} *)
    Re.Cat (Re.plus Re.alpha)
      (Re.Cat (Re.lit " ")
         (Re.Cat (Re.rep_range 1 2 Re.digit)
            (Re.Cat (Re.lit ",") (Re.Cat (Re.lit " ") (Re.rep 4 Re.digit)))));
    (* \d{1,2} [A-Za-z]+ \d{4} *)
    Re.Cat (Re.rep_range 1 2 Re.digit)
      (Re.Cat (Re.lit " ")
         (Re.Cat (Re.plus Re.alpha) (Re.Cat (Re.lit " ") (Re.rep 4 Re.digit)))) ].

Definition _is_valid_date_format (date_str : string) : bool :=
  existsb (fun pattern => Re.search pattern date_str) date_patterns.

Definition err_amount : ValidationError := ErrText "Invalid amount format".
Definition err_date : ValidationError := ErrText "Invalid date format".
Definition err_email : ValidationError := ErrText "Invalid email format".

(** [_validate_field_content] *)
Definition _validate_field_content (field_name : string) (v : string)
    (t : DocumentType) : list ValidationError :=
  if negb (PyStr.truthy v) then []
  else
    let value_str := PyStr.strip v in
    let name := PyStr.lower field_name in
    if PyStr.any_in currency_terms name then
      if negb (Re.search amount_re value_str) then [err_amount] else []
    else if PyStr.any_in date_terms name then
      if negb (_is_valid_date_format value_str) then [err_date] else []
    else if PyStr.contains "email" name then
      if negb (email_match value_str) then [err_email] else []
    else [].

(** [re.sub] of a digit, one character of [cls], a digit: the middle
    character is replaced by [repl]; matches do not overlap. *)
Fixpoint sub_between_digits (cls : ascii -> bool) (repl : string) (s : string) : string :=
  match s with
  | EmptyString => EmptyString
  | String a t =>
      match t with
      | String b (String c rest) =>
          if PyStr.is_digit a && cls b && PyStr.is_digit c
          then String a (repl ++ String c (sub_between_digits cls repl rest))
          else String a (sub_between_digits cls repl t)
      | _ => String a (sub_between_digits cls repl t)
      end
  end.

Definition error_eqb (a b : ValidationError) : bool :=
  match a, b with
  | ErrText x, ErrText y => String.eqb x y
  | ErrTotalMismatch t c, ErrTotalMismatch t' c' =>
      PrimFloat.Leibniz.eqb t t' && PrimFloat.Leibniz.eqb c c'
  | _, _ => false
  end.

Definition error_in (e : ValidationError) (errs : list ValidationError) : bool :=
  existsb (error_eqb e) errs.

(** [_auto_correct_field], on a text: [str(value)] is the value. *)
Definition _auto_correct_field (field_name : string) (v : string)
    (validation_errors : list ValidationError) : string :=
  match validation_errors with
  | [] => v
  | _ =>
      if negb (PyStr.truthy v) then v
      else
        let corrected := PyStr.strip v in
        if error_in err_amount validation_errors then
          sub_between_digits (Ascii.eqb "l") ".1"
            (sub_between_digits (Ascii.eqb "o") ".0" corrected)
        else if error_in err_date validation_errors then
          sub_between_digits (Re.one_of ".o") "/" corrected
        else corrected
  end.

(** One field of [_refine_extracted_fields]. *)
Definition refine_field (t : DocumentType) (field_name : string)
    (field : ExtractedField) : ExtractedField :=
  let cleaned_value := _clean_field_value field_name (value field) in
  let validation_errors := _validate_field_content field_name cleaned_value t in
  let adjusted_confidence :=
    match validation_errors with
    | [] => confidence field
    | _ => confidence field * 0.7
    end in
  mkField cleaned_value adjusted_confidence
    (_get_confidence_level adjusted_confidence)
    (location field) (original_text field) validation_errors.

Definition _refine_extracted_fields (t : DocumentType) (fields : Fields) : M Fields :=
  _ <~ emit EvRefine ;;
  ret (PyDict.map_items (refine_field t) fields).

(** One field of [_validate_and_correct_fields], for a value that is a
    text. *)
Definition validate_field (t : DocumentType) (field_name : string)
    (field : ExtractedField) : ExtractedField :=
  let validation_errors := _validate_field_content field_name (value field) t in
  let corrected_value := _auto_correct_field field_name (value field) validation_errors in
  let confidence1 :=
    match validation_errors with
    | [] => confidence field
    | _ => confidence field * 0.8
    end in
  let confidence2 :=
    if negb (String.eqb corrected_value (value field))
    then confidence1 * 0.9 else confidence1 in
  mkField corrected_value confidence2 (_get_confidence_level confidence2)
    (location field) (original_text field) validation_errors.

Definition _validate_and_correct_fields (t : DocumentType) (extracted_data : Fields) : M Fields :=
  _ <~ emit EvValidate ;;
  ret (PyDict.map_items (validate_field t) extracted_data).

(** [_multi_pass_extraction] *)
Definition _multi_pass_extraction (w : World) (t : DocumentType)
    (custom_fields : option (list string)) : M Fields :=
  general_fields <~ _extract_with_enhanced_prompt w t ;;
  focused_fields <~ _extract_missing_fields w t general_fields ;;
  let combined_fields := PyDict.update general_fields focused_fields in
  refined_fields <~ _refine_extracted_fields t combined_fields ;;
  match custom_fields with
  | Some (c :: cs) =>
      custom_extracted <~ _extract_custom_fields w (c :: cs) ;;
      ret (PyDict.update refined_fields custom_extracted)
  | _ => ret refined_fields
  end.

(** [_single_pass_extraction] *)
Definition _single_pass_extraction (w : World) (t : DocumentType)
    (custom_fields : option (list string)) : M Fields :=
  fields <~ Gemini.extract_fields w t ;;
  match custom_fields with
  | Some (c :: cs) =>
      custom_extracted <~ _extract_custom_fields w (c :: cs) ;;
      ret (PyDict.update fields custom_extracted)
  | _ => ret fields
  end.

Definition critical_field_patterns : list string :=
  ["amount"; "total"; "number"; "date"; "name"].

(** The loop body of [_calculate_weighted_confidence]; the state is
    [(total_weight, weighted_sum)]. *)
Definition weight_of (field_name : string) : Q :=
  if PyStr.any_in critical_field_patterns (PyStr.lower field_name)
  then 2 else 1.

Definition weighted_step (st : Q * Q) (item : string * ExtractedField) : Q * Q :=
  let '(total_weight, weighted_sum) := st in
  let w := weight_of (fst item) in
  (total_weight + w, weighted_sum + confidence (snd item) * w).

Definition _calculate_weighted_confidence (extracted_data : Fields) : Q :=
  match extracted_data with
  | [] => 0
  | _ =>
      let '(total_weight, weighted_sum) :=
        fold_left weighted_step extracted_data (0, 0) in
      if Qltb 0 total_weight then weighted_sum / total_weight else 0
  end.

(** [a % b] on floats, for [b > 0]. *)
Definition Qfmod (a b : Q) : Q := a - b * inject_Z (Qfloor (a / b)).

Definition Q_of_nat (n : nat) : Q := inject_Z (Z.of_nat n).

(** The location simulated for the [i]-th of [field_count] fields. *)
Definition simulated_location (w : World) (i field_count : nat)
    (field_name : string) : FieldLocation :=
  let x := 0.1 + 0.8 * Q_of_nat (i mod 2) in
  let y := 0.1 + 0.8 * Q_of_nat i / Q_of_nat field_count in
  let width := 0.3 + Qfmod (0.2 * inject_Z (py_hash w field_name)) 3 / 3 in
  let height := 0.05 in
  mkLocation x y width height.

(** [enumerate(d.items())] *)
Definition enumerate {A : Type} (l : list A) : list (nat * A) :=
  combine (seq 0 (List.length l)) l.

(** [_add_spatial_coordinates] *)
Definition _add_spatial_coordinates (w : World) (extracted_data : Fields) : Fields :=
  let field_count := List.length extracted_data in
  map (fun entry =>
         let '(i, (field_name, field)) := entry in
         (field_name,
          mkField (value field) (confidence field) (confidence_level field)
            (Some (simulated_location w i field_count field_name))
            (original_text field) (validation_errors field)))
      (enumerate extracted_data).

Definition boosted_fields : list string :=
  ["total_amount"; "invoice_number"; "vendor_name"].

(** One field of [_calibrate_confidence]. *)
Definition calibrate_field (accuracy_mode : string) (field_name : string)
    (field : ExtractedField) : ExtractedField :=
  let base_confidence := confidence field in
  let scaled :=
    if String.eqb accuracy_mode "high" then base_confidence * 0.95
    else if String.eqb accuracy_mode "fast" then base_confidence * 0.9
    else base_confidence in
  let boosted :=
    if PyStr.mem field_name boosted_fields then
      if Qltb 0.8 base_confidence then Qmin 0.98 (scaled * 1.05) else scaled
    else scaled in
  let penalised :=
    match validation_errors field with
    | [] => boosted
    | _ => boosted * 0.7
    end in
  let calibrated_confidence := Qmax 0 (Qmin 1 penalised) in
  mkField (value field) calibrated_confidence
    (_get_confidence_level calibrated_confidence)
    (location field) (original_text field) (validation_errors field).

Definition _calibrate_confidence (extracted_data : Fields) (t : DocumentType)
    (accuracy_mode : string) : Fields :=
  PyDict.map_items (calibrate_field accuracy_mode) extracted_data.

Inductive ProcessingStatus := COMPLETED | FAILED.

Record DocumentProcessingResult := mkResult {
  status : ProcessingStatus;
  document_type : DocumentType;
  document_type_confidence : Q;
  extracted_data : Fields;
  overall_confidence : Q;
  error_message : option string
}.

(** Steps 3 to 6 of [process_document_production]. *)
Definition extraction_steps (w : World) (t : DocumentType)
    (custom_fields : option (list string)) (accuracy_mode : string) : M Fields :=
  extracted <~ (if String.eqb accuracy_mode "high" && multi_pass_extraction
                then _multi_pass_extraction w t custom_fields
                else _single_pass_extraction w t custom_fields) ;;
  validated <~ (if validation_enabled
                then _validate_and_correct_fields t extracted
                else ret extracted) ;;
  let located :=
    if spatial_analysis then _add_spatial_coordinates w validated else validated in
  ret (_calibrate_confidence located t accuracy_mode).

(** [process_document_production].  Image enhancement catches its own
    exceptions and only changes the bytes that [image_opens] speaks of; an
    exception of a later step gives the failed result. *)
Definition process_document_production (w : World)
    (requested_type : option DocumentType)
    (custom_fields : option (list string)) (accuracy_mode : string)
    : DocumentProcessingResult * Log :=
  let '(t, type_confidence) :=
    match requested_type with
    | Some t => (t, 0.95)
    | None => detected_type w
    end in
  match extraction_steps w t custom_fields accuracy_mode [] with
  | (Ok data, log) =>
      (mkResult COMPLETED t type_confidence data
         (_calculate_weighted_confidence data) None, log)
  | (Raise e, log) =>
      (mkResult FAILED t 0 [] 0 (Some e), log)
  end.

End Production.

(** ** [ProductionDocumentService]: validation of values of any kind

    [ExtractedField.value] is declared [Any], and the parsers store the
    JSON value of a reply as it is: a text, but also a number, [null], a
    list.  [_validate_and_correct_fields] is the stage that tells a text
    from another value, since it compares the corrected text with the
    value it was given; it is embedded here on values of any kind. *)

Module ProductionValues.
Import Production.

(** A Python value as the validation stage reads it: a text, or another
    value through its [str()] and its truth value. *)
Inductive PyValue :=
| VStr (s : string)
| VOther (as_str : string) (truth : bool).

(** [None] *)
Definition VNone : PyValue := VOther "None" false.

(** [str(v)] *)
Definition str (v : PyValue) : string :=
  match v with
  | VStr s => s
  | VOther as_str _ => as_str
  end.

(** [bool(v)] *)
Definition truthy (v : PyValue) : bool :=
  match v with
  | VStr s => PyStr.truthy s
  | VOther _ truth => truth
  end.

Definition is_text (v : PyValue) : bool :=
  match v with
  | VStr _ => true
  | VOther _ _ => false
  end.

(** [text != v], for a text: a text differs from every value that is not
    a text. *)
Definition differs (text : string) (v : PyValue) : bool :=
  match v with
  | VStr s => negb (String.eqb text s)
  | VOther _ _ => true
  end.

(** An [ExtractedField] with a value of any kind. *)
Record ValueField := mkValueField {
  field_value : PyValue;
  field_confidence : Q;
  field_confidence_level : ConfidenceLevel;
  field_location : option FieldLocation;
  field_original_text : option string;
  field_validation_errors : list ValidationError
}.

(** A field whose value is a text. *)
Definition of_text (f : ExtractedField) : ValueField :=
  mkValueField (VStr (value f)) (confidence f) (confidence_level f) (location f)
    (original_text f) (validation_errors f).

(** [_validate_field_content] *)
Definition _validate_field_content (field_name : string) (v : PyValue)
    (t : DocumentType) : list ValidationError :=
  if negb (truthy v) then []
  else
    let value_str := PyStr.strip (str v) in
    let name := PyStr.lower field_name in
    if PyStr.any_in currency_terms name then
      if negb (Re.search amount_re value_str) then [err_amount] else []
    else if PyStr.any_in date_terms name then
      if negb (_is_valid_date_format value_str) then [err_date] else []
    else if PyStr.contains "email" name then
      if negb (email_match value_str) then [err_email] else []
    else [].

(** [_auto_correct_field]: [str(value)] when there is no error or the
    value is falsy. *)
Definition _auto_correct_field (field_name : string) (v : PyValue)
    (validation_errors : list ValidationError) : string :=
  match validation_errors with
  | [] => str v
  | _ =>
      if negb (truthy v) then str v
      else
        let corrected := PyStr.strip (str v) in
        if error_in err_amount validation_errors then
          sub_between_digits (Ascii.eqb "l") ".1"
            (sub_between_digits (Ascii.eqb "o") ".0" corrected)
        else if error_in err_date validation_errors then
          sub_between_digits (Re.one_of ".o") "/" corrected
        else corrected
  end.

(** One field of [_validate_and_correct_fields]; the field it builds has
    a text for value. *)
Definition validate_field (t : DocumentType) (field_name : string)
    (field : ValueField) : ExtractedField :=
  let validation_errors := _validate_field_content field_name (field_value field) t in
  let corrected_value :=
    _auto_correct_field field_name (field_value field) validation_errors in
  let confidence1 :=
    match validation_errors with
    | [] => field_confidence field
    | _ => field_confidence field * 0.8
    end in
  let confidence2 :=
    if differs corrected_value (field_value field)
    then confidence1 * 0.9 else confidence1 in
  mkField corrected_value confidence2 (_get_confidence_level confidence2)
    (field_location field) (field_original_text field) validation_errors.

Definition _validate_and_correct_fields (t : DocumentType)
    (extracted_data : PyDict.dict ValueField) : M Fields :=
  _ <~ emit EvValidate ;;
  ret (PyDict.map_items (validate_field t) extracted_data).

End ProductionValues.

(** ** [EnhancedGeminiService]: cross-field checks *)

Module EnhancedGemini.

(** The characters [re.sub(r'[^\d.-]', '', s)] keeps. *)
Definition numeric_char (c : ascii) : bool :=
  PyStr.is_digit c || Ascii.eqb c "." || Ascii.eqb c "-".

(** [numeric_str = re.sub(r'[^\d.-]', '', str(field.value))] *)
Definition numeric_str (f : ExtractedField) : string :=
  PyStr.remove_chars (fun c => negb (numeric_char c)) (value f).

(** [_extract_numeric_value]: [None] for a missing field, an empty value,
    and a text that [float] rejects. *)
Definition _extract_numeric_value (field : option ExtractedField)
    : option PrimFloat.float :=
  match field with
  | None => None
  | Some f =>
      if negb (PyStr.truthy (value f)) then None
      else PyFloat.to_double (numeric_str f)
  end.

(** [x or 0.0]: a zero of either sign is falsy. *)
Definition or_zero (x : PrimFloat.float) : PrimFloat.float :=
  if PrimFloat.eqb x PrimFloat.zero then PrimFloat.zero else x.

(** The double of the literal [0.01]. *)
Definition tolerance : PrimFloat.float := PyFloat.round 0.01.

(** The update of [total_amount] on a mismatch: one more validation error,
    confidence times 0.8. *)
Definition flag_total (total_val calculated_total : PrimFloat.float)
    (f : ExtractedField) : ExtractedField :=
  mkField (value f) (confidence f * 0.8) (confidence_level f) (location f)
    (original_text f)
    (validation_errors f ++ [ErrTotalMismatch total_val calculated_total]).

(** [_validate_invoice_math]; the dict is updated in place. *)
Definition _validate_invoice_math (fields : Fields) : Fields :=
  match _extract_numeric_value (PyDict.get "subtotal" fields),
        _extract_numeric_value (PyDict.get "tax_amount" fields),
        _extract_numeric_value (PyDict.get "total_amount" fields) with
  | Some subtotal, Some tax_amount, Some total =>
      let calculated_total := PrimFloat.add (or_zero subtotal) (or_zero tax_amount) in
      let total_val := or_zero total in
      if PrimFloat.ltb tolerance
           (PrimFloat.abs (PrimFloat.sub calculated_total total_val)) then
        match PyDict.get "total_amount" fields with
        | Some f =>
            PyDict.set "total_amount" (flag_total total_val calculated_total f) fields
        | None => fields
        end
      else fields
  | _, _, _ => fields
  end.

(** [_validate_date_consistency] returns its argument. *)
Definition _validate_date_consistency (fields : Fields) : Fields := fields.

(** [_cross_validate_fields] *)
Definition _cross_validate_fields (extracted_fields : Fields) (t : DocumentType) : Fields :=
  let checked :=
    match t with
    | INVOICE => _validate_invoice_math extracted_fields
    | _ => extracted_fields
    end in
  _validate_date_consistency checked.

End EnhancedGemini.

(** ** [UniversalExtractionService]: spatial grounding *)

Module Universal.

Definition Qz (z : Z) : Q := inject_Z z.

(** [FieldLocation(x=bbox.x1 / w, y=bbox.y1 / h, width=(bbox.x2 - bbox.x1) / w,
    height=(bbox.y2 - bbox.y1) / h)]; a zero dimension raises
    [ZeroDivisionError]. *)
Definition block_location (block : TextBlock) (dims : Z * Z) : Result FieldLocation :=
  let bbox := bounding_box block in
  if (fst dims =? 0)%Z || (snd dims =? 0)%Z then Raise "ZeroDivisionError"
  else Ok (mkLocation (Qz (x1 bbox) / Qz (fst dims))
                      (Qz (y1 bbox) / Qz (snd dims))
                      (Qz (x2 bbox - x1 bbox) / Qz (fst dims))
                      (Qz (y2 bbox - y1 bbox) / Qz (snd dims))).

(** A loop that returns the location of the first block satisfying [p]. *)
Definition locate_first (p : TextBlock -> bool) (blocks : list TextBlock)
    (dims : Z * Z) : Result (option FieldLocation) :=
  match find p blocks with
  | Some block => loc <- block_location block dims ;; Ok (Some loc)
  | None => Ok None
  end.

Definition block_text_lower (block : TextBlock) : string :=
  PyStr.lower (PyStr.strip (text block)).

(** [_find_exact_match] *)
Definition _find_exact_match (v : string) (blocks : list TextBlock)
    (dims : Z * Z) : Result (option FieldLocation) :=
  let value_lower := PyStr.lower v in
  locate_first (fun block => String.eqb value_lower (block_text_lower block))
    blocks dims.

(** [_find_partial_match] *)
Definition _find_partial_match (v : string) (blocks : list TextBlock)
    (dims : Z * Z) : Result (option FieldLocation) :=
  let value_lower := PyStr.lower v in
  let substring_pass :=
    locate_first
      (fun block =>
         let b := block_text_lower block in
         ((5 <? String.length v)%nat && PyStr.contains value_lower b)
         || ((5 <? String.length b)%nat && PyStr.contains b value_lower))
      blocks dims in
  if (20 <? String.length v)%nat then
    let words :=
      filter (fun w => (3 <? String.length w)%nat) (PyStr.split_ws value_lower) in
    let enough (block : TextBlock) : bool :=
      let word_matches :=
        List.length (filter (fun word => PyStr.contains word (block_text_lower block)) words) in
      (Nat.min 2 (List.length words / 2) <=? word_matches)%nat in
    match find enough blocks with
    | Some block => loc <- block_location block dims ;; Ok (Some loc)
    | None => substring_pass
    end
  else substring_pass.

(** The patterns of [_find_pattern_match], in the order of the dict; they
    are searched with [re.IGNORECASE]. *)
Definition shape_patterns : list (string * Re.regex) :=
  [ ("amount", Production.amount_re);
    ("date",
     Re.Cat (Re.rep_range 1 2 Re.digit)
       (Re.Cat Re.date_sep
          (Re.Cat (Re.rep_range 1 2 Re.digit)
             (Re.Cat Re.date_sep (Re.rep_range 2 4 Re.digit)))));
    ("phone",
     Re.plus (Re.Chr (fun c => PyStr.is_digit c || PyStr.is_space c
                               || Re.one_of "-+()" c)));
    ("id_number", Re.plus (Re.Chr (fun c => PyStr.is_alpha c || PyStr.is_digit c)));
    ("percentage", Re.Cat (Re.plus Re.digit) (Re.lit "%")) ].

(** [re.sub(r'[^\w\d\.\-/]', '', s)] *)
Definition clean_symbols (s : string) : string :=
  PyStr.remove_chars
    (fun c => negb (PyStr.is_word c || PyStr.is_digit c || Re.one_of ".-/" c)) s.

(** The first pattern of [patterns] that matches the value and has a hit
    gives the result. *)
Fixpoint pattern_loop (patterns : list (string * Re.regex)) (v : string)
    (blocks : list TextBlock) (dims : Z * Z) : Result (option FieldLocation) :=
  match patterns with
  | [] => Ok None
  | (_, pattern) :: rest =>
      if Re.search pattern v then
        let value_clean := clean_symbols v in
        let hit (block : TextBlock) : bool :=
          let block_text := PyStr.strip (text block) in
          let block_clean := clean_symbols block_text in
          Re.search pattern block_text
          && (PyStr.contains value_clean block_clean
              || PyStr.contains block_clean value_clean) in
        match find hit blocks with
        | Some block => loc <- block_location block dims ;; Ok (Some loc)
        | None => pattern_loop rest v blocks dims
        end
      else pattern_loop rest v blocks dims
  end.

(** [_find_pattern_match] *)
Definition _find_pattern_match (v : string) (blocks : list TextBlock)
    (dims : Z * Z) : Result (option FieldLocation) :=
  pattern_loop shape_patterns v blocks dims.

(** [sorted(blocks, key=key)]: a stable insertion sort on a key ordered by
    [leb]. *)
Section Sorting.
Context {A : Type} (leb : A -> A -> bool).

Fixpoint insert_sorted (x : A) (l : list A) : list A :=
  match l with
  | [] => [x]
  | y :: l' => if leb y x then y :: insert_sorted x l' else x :: l
  end.

Definition sorted (l : list A) : list A :=
  fold_left (fun acc x => insert_sorted x acc) l [].

End Sorting.

(** The order of the key [(b.bounding_box.y1, b.bounding_box.x1)]. *)
Definition reading_order_leb (a b : TextBlock) : bool :=
  let ba := bounding_box a in
  let bb := bounding_box b in
  (y1 ba <? y1 bb)%Z || ((y1 ba =? y1 bb)%Z && (x1 ba <=? x1 bb)%Z).

Definition label_keywords : list string :=
  ["total"; "amount"; "date"; "number"; "name"; "address"].

(** The outer loop of [_find_contextual_match] over the sorted blocks:
    behind a label, the next four blocks are searched for the value. *)
Fixpoint contextual_loop (value_lower : string) (sorted_blocks : list TextBlock)
    (dims : Z * Z) : Result (option FieldLocation) :=
  match sorted_blocks with
  | [] => Ok None
  | block :: rest =>
      if PyStr.any_in label_keywords (block_text_lower block) then
        match find (fun nearby_block =>
                      let nearby_text := block_text_lower nearby_block in
                      PyStr.contains value_lower nearby_text
                      || PyStr.contains nearby_text value_lower)
                   (firstn 4 rest) with
        | Some nearby_block =>
            loc <- block_location nearby_block dims ;; Ok (Some loc)
        | None => contextual_loop value_lower rest dims
        end
      else contextual_loop value_lower rest dims
  end.

(** [_find_contextual_match] *)
Definition _find_contextual_match (v : string) (blocks : list TextBlock)
    (dims : Z * Z) : Result (option FieldLocation) :=
  contextual_loop (PyStr.lower v) (sorted reading_order_leb blocks) dims.

(** [_validate_location] *)
Definition _validate_location (loc : FieldLocation) (field_name field_value : string) : bool :=
  if negb (Qleb 0 (loc_x loc) && Qleb (loc_x loc) 1
           && Qleb 0 (loc_y loc) && Qleb (loc_y loc) 1) then false
  else if negb (Qeq_bool (loc_width loc) 0) && negb (Qeq_bool (loc_height loc) 0) then
    if Qltb 0.8 (loc_width loc) || Qltb 0.5 (loc_height loc) then false
    else if Qltb (loc_width loc) 0.01 || Qltb (loc_height loc) 0.005 then false
    else true
  else true.

(** [_refine_bounding_box] *)
Definition _refine_bounding_box (loc : FieldLocation) (field_value : string)
    : FieldLocation :=
  if negb (Qeq_bool (loc_width loc) 0) && negb (Qeq_bool (loc_height loc) 0) then
    let min_width :=
      Qmax 0.02 (Production.Q_of_nat (String.length field_value) * 0.008) in
    let min_height := 0.015 in
    let adjusted_width := Qmax (loc_width loc) min_width in
    let adjusted_height := Qmax (loc_height loc) min_height in
    let max_x := 1 - adjusted_width in
    let max_y := 1 - adjusted_height in
    let adjusted_x := Qmin (loc_x loc) max_x in
    let adjusted_y := Qmin (loc_y loc) max_y in
    mkLocation adjusted_x adjusted_y adjusted_width adjusted_height
  else loc.

(** [_extract_field_keywords] *)
Definition keyword_variations (part : string) : list string :=
  let p := PyStr.lower part in
  if PyStr.mem p ["amt"; "amount"] then ["total"; "sum"; "value"]
  else if PyStr.mem p ["num"; "number"; "no"] then ["id"; "reference"; "ref"]
  else if PyStr.mem p ["addr"; "address"] then ["location"; "place"]
  else [].

Definition _extract_field_keywords (field_name : string) : list string :=
  flat_map (fun part => part :: keyword_variations part)
    (PyStr.split_ws (PyStr.replace_char "_" " " field_name)).

Definition bbox_eqb (a b : BoundingBox) : bool :=
  (x1 a =? x1 b)%Z && (y1 a =? y1 b)%Z && (x2 a =? x2 b)%Z && (y2 a =? y2 b)%Z.

(** [block == reference_block] on models: field by field. *)
Definition block_eqb (a b : TextBlock) : bool :=
  String.eqb (text a) (text b)
  && Qeq_bool (block_confidence a) (block_confidence b)
  && bbox_eqb (bounding_box a) (bounding_box b)
  && (font_size a =? font_size b)%Z
  && (line_number a =? line_number b)%Z.

Definition center_x (b : TextBlock) : Q :=
  Qz (x1 (bounding_box b) + x2 (bounding_box b)) / 2.

Definition center_y (b : TextBlock) : Q :=
  Qz (y1 (bounding_box b) + y2 (bounding_box b)) / 2.

(** The square of the distance between the centres. *)
Definition distance2 (a b : TextBlock) : Q :=
  (center_x a - center_x b) * (center_x a - center_x b)
  + (center_y a - center_y b) * (center_y a - center_y b).

(** [_find_spatially_close_blocks]: the blocks other than the reference
    within [max_distance] of it, nearest first.  The distance is compared
    through its square. *)
Definition _find_spatially_close_blocks (reference_block : TextBlock)
    (blocks : list TextBlock) (max_distance : Q) : list TextBlock :=
  let close_blocks :=
    filter (fun block =>
              negb (block_eqb block reference_block)
              && Qleb (distance2 block reference_block) (max_distance * max_distance))
           blocks in
  sorted (fun a b => Qleb (distance2 a reference_block) (distance2 b reference_block))
    close_blocks.

Section WithRatio.

(** [difflib.SequenceMatcher(None, a, b).ratio()] *)
Variable ratio : string -> string -> Q.

(** The loop of [_find_fuzzy_match]; the state is [(best_match,
    best_ratio)]. *)
Definition fuzzy_step (value_lower : string) (st : option TextBlock * Q)
    (block : TextBlock) : option TextBlock * Q :=
  let r := ratio value_lower (block_text_lower block) in
  if Qltb 0.8 r && Qltb (snd st) r then (Some block, r) else st.

(** [_find_fuzzy_match] *)
Definition _find_fuzzy_match (v : string) (blocks : list TextBlock)
    (dims : Z * Z) : Result (option FieldLocation) :=
  match fst (fold_left (fuzzy_step (PyStr.lower v)) blocks (None, 0)) with
  | Some best_match => loc <- block_location best_match dims ;; Ok (Some loc)
  | None => Ok None
  end.

(** [_is_value_match] *)
Definition _is_value_match (expected_value block_text : string) : bool :=
  let expected_clean := PyStr.lower (PyStr.strip expected_value) in
  let block_clean := PyStr.lower (PyStr.strip block_text) in
  if String.eqb expected_clean block_clean then true
  else if (10 <? String.length expected_clean)%nat
          && PyStr.contains expected_clean block_clean then true
  else Qltb 0.85 (ratio expected_clean block_clean).

(** The loops of [_find_improved_location]: for each keyword, for each
    block that holds it, the first close block that matches the value. *)
Fixpoint improved_in_blocks (keyword field_value : string)
    (candidates all_blocks : list TextBlock) : option TextBlock :=
  match candidates with
  | [] => None
  | block :: rest =>
      if PyStr.contains (PyStr.lower keyword) (PyStr.lower (text block)) then
        match find (fun nearby_block => _is_value_match field_value (text nearby_block))
                   (_find_spatially_close_blocks block all_blocks 100) with
        | Some nearby_block => Some nearby_block
        | None => improved_in_blocks keyword field_value rest all_blocks
        end
      else improved_in_blocks keyword field_value rest all_blocks
  end.

Fixpoint improved_in_keywords (keywords : list string) (field_value : string)
    (blocks : list TextBlock) : option TextBlock :=
  match keywords with
  | [] => None
  | keyword :: rest =>
      match improved_in_blocks keyword field_value blocks blocks with
      | Some nearby_block => Some nearby_block
      | None => improved_in_keywords rest field_value blocks
      end
  end.

(** [_find_improved_location] *)
Definition _find_improved_location (field_name field_value : string)
    (blocks : list TextBlock) (dims : Z * Z) : Result (option FieldLocation) :=
  match improved_in_keywords (_extract_field_keywords field_name) field_value blocks with
  | Some nearby_block => loc <- block_location nearby_block dims ;; Ok (Some loc)
  | None => Ok None
  end.

(** [_improve_location_accuracy]: an implausible location is replaced
    when a better one is found, and refined otherwise; an exception gives
    the location back. *)
Definition _improve_location_accuracy (field_name field_value : string)
    (loc : FieldLocation) (ocr_results : OcrResults) : FieldLocation :=
  try_except
    (improved <-
       (if negb (_validate_location loc field_name field_value)
        then _find_improved_location field_name field_value
               (text_blocks ocr_results) (image_dimensions ocr_results)
        else Ok None) ;;
     match improved with
     | Some improved_location => Ok improved_location
     | None => Ok (_refine_bounding_box loc field_value)
     end)
    loc.

(** The five strategies, in the order of the cascade. *)
Definition strategies
    : list (string -> list TextBlock -> Z * Z -> Result (option FieldLocation)) :=
  [ _find_exact_match; _find_fuzzy_match; _find_partial_match;
    _find_pattern_match; _find_contextual_match ].

(** The body of the [try] of [_find_field_location]. *)
Definition find_field_location_body (v : string) (ocr_results : OcrResults)
    : Result (option FieldLocation) :=
  let blocks := text_blocks ocr_results in
  let dims := image_dimensions ocr_results in
  match blocks with
  | [] => Ok None
  | _ =>
      if negb (PyStr.truthy v) then Ok None
      else
        let value_clean := PyStr.strip v in
        let improve loc :=
          Ok (Some (_improve_location_accuracy "" value_clean loc ocr_results)) in
        location <- _find_exact_match value_clean blocks dims ;;
        match location with
        | Some loc => improve loc
        | None =>
        location <- _find_fuzzy_match value_clean blocks dims ;;
        match location with
        | Some loc => improve loc
        | None =>
        location <- _find_partial_match value_clean blocks dims ;;
        match location with
        | Some loc => improve loc
        | None =>
        location <- _find_pattern_match value_clean blocks dims ;;
        match location with
        | Some loc => improve loc
        | None =>
        location <- _find_contextual_match value_clean blocks dims ;;
        match location with
        | Some loc => improve loc
        | None => Ok None
        end end end end end
  end.

(** [_find_field_location] *)
Definition _find_field_location (v : string) (ocr_results : OcrResults)
    : option FieldLocation :=
  try_except (find_field_location_body v ocr_results) None.

End WithRatio.

End Universal.

(** ** Calling a Python function *)

Module PyCall.

(** The parameters of a function after [self], and how many of them have
    no default. *)
Record Signature := mkSignature {
  params : list string;
  n_required : nat
}.

Fixpoint no_duplicates (xs : list string) : bool :=
  match xs with
  | [] => true
  | x :: xs' => negb (PyStr.mem x xs') && no_duplicates xs'
  end.

(** Whether a call with [n_positional] positional arguments and the
    keyword arguments [keywords] binds to the signature. *)
Definition binds (sig : Signature) (n_positional : nat) (keywords : list string) : bool :=
  (n_positional <=? List.length (params sig))%nat
  && forallb (fun k => PyStr.mem k (skipn n_positional (params sig))) keywords
  && no_duplicates keywords
  && forallb (fun p => PyStr.mem p (firstn n_positional (params sig))
                       || PyStr.mem p keywords)
       (firstn (n_required sig) (params sig)).

(** The call: [TypeError] when the arguments do not bind, the body
    otherwise. *)
Definition call {A : Type} (sig : Signature) (n_positional : nat)
    (keywords : list string) (body : M A) : M A :=
  if binds sig n_positional keywords then body else raise "TypeError".

End PyCall.

(** ** [EnterpriseDocumentService] *)

Module Enterprise.

(** The services built by [__init__]; both are [None] when the import
    fails. *)
Record Service := mkService {
  enhanced_ocr : bool;
  enhanced_gemini : bool
}.

(** The collaborators of the enhanced pipeline: the outcome of
    [extract_text_with_layout], and the body of
    [EnhancedGeminiService.process_document_enhanced] as a computation of
    its [extracted_data]. *)
Record Collaborators := mkCollaborators {
  extract_text_with_layout : Result OcrResults;
  process_document_enhanced_body : DocumentType -> OcrResults -> M Fields
}.

(** [process_document_enhanced(self, image_data, document_type,
    ocr_results=None)] *)
Definition process_document_enhanced_signature : PyCall.Signature :=
  PyCall.mkSignature ["image_data"; "document_type"; "ocr_results"] 2.

(** [_process_with_standard_pipeline] *)
Definition _process_with_standard_pipeline (w : World) (t : DocumentType) : M Fields :=
  Gemini.extract_fields w t.

(** The [try] block of [_process_with_enhanced_pipeline]. *)
Definition enhanced_attempt (s : Service) (c : Collaborators) (w : World)
    (t : DocumentType) (quality_mode : string) : M (Fields * OcrResults) :=
  ocr_results <~ (if enhanced_ocr s then lift (extract_text_with_layout c)
                  else ret empty_ocr) ;;
  if enhanced_gemini s then
    extracted_data <~ PyCall.call process_document_enhanced_signature
                        3 ["accuracy_mode"]
                        (process_document_enhanced_body c t ocr_results) ;;
    ret (extracted_data, ocr_results)
  else
    extracted_data <~ _process_with_standard_pipeline w t ;;
    ret (extracted_data, ocr_results).

(** [_process_with_enhanced_pipeline] *)
Definition _process_with_enhanced_pipeline (s : Service) (c : Collaborators)
    (w : World) (t : DocumentType) (quality_mode : string) : M (Fields * OcrResults) :=
  try_M (enhanced_attempt s c w t quality_mode)
        (extracted_data <~ _process_with_standard_pipeline w t ;;
         ret (extracted_data, empty_ocr)).

End Enterprise.

(** ** The statistics of [ProductionDocumentService] *)

Module ProductionStats.

(** [document_type.value] *)
Definition document_type_value (t : DocumentType) : string :=
  match t with
  | INVOICE => "invoice"
  | RECEIPT => "receipt"
  | BUSINESS_CARD => "business_card"
  | FORM => "form"
  | CONTRACT => "contract"
  | CUSTOM => "custom"
  end.

(** [stats["confidence_distribution"]], a dict with the three keys
    [high], [medium] and [low]. *)
Record ConfidenceDistribution := mkDistribution {
  high : nat;
  medium : nat;
  low : nat
}.

(** [self.processing_stats] *)
Record ProcessingStats := mkStats {
  total_processed : nat;
  successful : nat;
  failed : nat;
  avg_confidence : Q;
  avg_processing_time : Q;
  by_type : PyDict.dict nat;
  confidence_distribution : ConfidenceDistribution
}.

(** The statistics set by [__init__]. *)
Definition initial_stats : ProcessingStats :=
  mkStats 0 0 0 0 0 [] (mkDistribution 0 0 0).

(** [(avg * (total - 1) + x) / total] *)
Definition running_average (avg : Q) (total : nat) (x : Q) : Q :=
  (avg * inject_Z (Z.of_nat total - 1) + x) / inject_Z (Z.of_nat total).

(** [d[k] = d.get(k, 0) + 1] *)
Definition count_one (k : string) (d : PyDict.dict nat) : PyDict.dict nat :=
  PyDict.set k (match PyDict.get k d with Some n => n | None => O end + 1)%nat d.

(** [_update_stats(result)]; [processing_time] is
    [result.metadata.processing_time]. *)
Definition _update_stats (stats : ProcessingStats)
    (result : Production.DocumentProcessingResult) (processing_time : Q)
    : ProcessingStats :=
  let total := S (total_processed stats) in
  match Production.status result with
  | Production.COMPLETED =>
      let c := Production.overall_confidence result in
      let dist := confidence_distribution stats in
      mkStats total (S (successful stats)) (failed stats)
        (running_average (avg_confidence stats) total c)
        (if Qeq_bool processing_time 0 then avg_processing_time stats
         else running_average (avg_processing_time stats) total processing_time)
        (count_one (document_type_value (Production.document_type result))
           (by_type stats))
        (if Qleb 0.9 c then mkDistribution (S (high dist)) (medium dist) (low dist)
         else if Qleb 0.7 c then mkDistribution (high dist) (S (medium dist)) (low dist)
         else mkDistribution (high dist) (medium dist) (S (low dist)))
  | Production.FAILED =>
      mkStats total (successful stats) (S (failed stats))
        (avg_confidence stats) (avg_processing_time stats)
        (by_type stats) (confidence_distribution stats)
  end.

(** The state of the service: the stored results and the statistics. *)
Record ServiceState := mkState {
  documents : PyDict.dict Production.DocumentProcessingResult;
  processing_stats : ProcessingStats
}.

Definition initial_state : ServiceState := mkState [] initial_stats.

(** A call of [process_document_production]: the world it meets, the id
    drawn by [uuid.uuid4()], the time it takes and its arguments. *)
Record Request := mkRequest {
  world : World;
  document_id : string;
  processing_time : Q;
  requested_type : option DocumentType;
  custom_fields : option (list string);
  accuracy_mode : string
}.

(** [process_document_production] with its last two steps: on both paths
    the result is stored under its id and counted. *)
Definition process_document_production (st : ServiceState) (req : Request)
    : Production.DocumentProcessingResult * ServiceState :=
  let result :=
    fst (Production.process_document_production (world req) (requested_type req)
           (custom_fields req) (accuracy_mode req)) in
  (result,
   mkState (PyDict.set (document_id req) result (documents st))
           (_update_stats (processing_stats st) result (processing_time req))).

(** The service after a sequence of calls. *)
Definition serve (requests : list Request) (st : ServiceState) : ServiceState :=
  fold_left (fun st req => snd (process_document_production st req)) requests st.

End ProductionStats.

(** ** The document sessions of [EnterpriseDocumentService] *)

Module EnterpriseService.

Definition currency_terms : list string := ["amount"; "total"; "price"; "cost"].
Definition date_terms : list string := ["date"; "due"; "created"].
Definition name_terms : list string := ["name"; "vendor"; "customer"; "company"].

(** [re.sub(r'(\d),(\d{3})', r'\1,\2', s)]: the matches are taken from the
    left and do not overlap; each is replaced by its first group, a comma
    and its second group.  [skip] counts the characters of a match still
    to drop. *)
Fixpoint regroup_aux (skip : nat) (s : string) : string :=
  match s with
  | EmptyString => EmptyString
  | String c s' =>
      match skip with
      | S n => regroup_aux n s'
      | O =>
          match s' with
          | String c1 (String d1 (String d2 (String d3 _))) =>
              if PyStr.is_digit c && Ascii.eqb c1 ","
                 && PyStr.is_digit d1 && PyStr.is_digit d2 && PyStr.is_digit d3
              then String c (String "," (String d1 (String d2 (String d3
                     (regroup_aux 4 s')))))
              else String c (regroup_aux O s')
          | _ => String c (regroup_aux O s')
          end
      end
  end.

Definition regroup (s : string) : string := regroup_aux O s.

(** [_clean_field_value] *)
Definition _clean_field_value (field_name : string) (v : string) : string :=
  if negb (PyStr.truthy v) then v
  else
    let name := PyStr.lower field_name in
    let value_str := PyStr.strip v in
    let value_str :=
      if PyStr.any_in currency_terms name
      then regroup (PyStr.join " " (PyStr.split_ws value_str))
      else value_str in
    let value_str :=
      if PyStr.any_in date_terms name
      then PyStr.replace_char "." "-" (PyStr.replace_char "/" "-" value_str)
      else value_str in
    let value_str :=
      if PyStr.any_in name_terms name
      then PyStr.join " " (map PyStr.capitalize (PyStr.split_ws value_str))
      else value_str in
    value_str.

(** [_validate_field_format] *)
Definition _validate_field_format (field_name : string) (v : string)
    (document_type : DocumentType) : list ValidationError :=
  if negb (PyStr.truthy v) then []
  else
    let name := PyStr.lower field_name in
    let value_str := PyStr.strip v in
    let digits_only := PyStr.remove_chars (fun c => negb (PyStr.is_digit c)) value_str in
    ((if PyStr.any_in currency_terms name
         && negb (Re.search Production.amount_re value_str)
      then [ErrText "Invalid currency format"] else [])
     ++ (if PyStr.contains "email" name && negb (email_match value_str)
         then [ErrText "Invalid email format"] else [])
     ++ (if PyStr.contains "phone" name
            && ((String.length digits_only <? 7)%nat
                || (15 <? String.length digits_only)%nat)
         then [ErrText "Invalid phone number length"] else []))%list.

(** The body of the loop of [_post_process_fields]. *)
Definition post_process_field (document_type : DocumentType) (field_name : string)
    (field : ExtractedField) : Result ExtractedField :=
  let cleaned_value := _clean_field_value field_name (value field) in
  let validation_errors := _validate_field_format field_name cleaned_value document_type in
  let adjusted_confidence :=
    match validation_errors with
    | [] => confidence field
    | _ => confidence field * 0.8
    end in
  new_ExtractedField cleaned_value adjusted_confidence
    (_get_confidence_level adjusted_confidence)
    (location field) (original_text field) validation_errors.

(** [_post_process_fields] *)
Definition _post_process_fields (extracted_data : Fields) (document_type : DocumentType)
    : Result Fields :=
  fold_left
    (fun acc item =>
       processed_fields <- acc ;;
       f <- post_process_field document_type (fst item) (snd item) ;;
       Ok (PyDict.set (fst item) f processed_fields))
    extracted_data (Ok []).

(** [_calculate_overall_confidence]: the plain mean. *)
Definition _calculate_overall_confidence (extracted_data : Fields) : Q :=
  match extracted_data with
  | [] => 0
  | _ =>
      fold_left Qplus (map (fun item => confidence (snd item)) extracted_data) 0
      / Production.Q_of_nat (List.length extracted_data)
  end.

(** [self.processing_stats] *)
Record ProcessingStats := mkStats {
  total_processed : nat;
  successful : nat;
  failed : nat;
  avg_confidence : Q;
  avg_processing_time : Q
}.

Definition initial_stats : ProcessingStats := mkStats 0 0 0 0 0.

(** [_update_processing_stats(result)]; [processing_time] is
    [result.metadata.processing_time]. *)
Definition _update_processing_stats (stats : ProcessingStats)
    (result : Production.DocumentProcessingResult) (processing_time : Q)
    : ProcessingStats :=
  let total := S (total_processed stats) in
  match Production.status result with
  | Production.COMPLETED =>
      mkStats total (S (successful stats)) (failed stats)
        (ProductionStats.running_average (avg_confidence stats) total
           (Production.overall_confidence result))
        (if Qeq_bool processing_time 0 then avg_processing_time stats
         else ProductionStats.running_average (avg_processing_time stats) total
                processing_time)
  | Production.FAILED =>
      mkStats total (successful stats) (S (failed stats))
        (avg_confidence stats) (avg_processing_time stats)
  end.

(** The two rates that [get_processing_stats_enterprise] adds. *)
Definition success_rate (stats : ProcessingStats) : Q :=
  if (0 <? total_processed stats)%nat
  then Production.Q_of_nat (successful stats)
       / Production.Q_of_nat (total_processed stats) * 100
  else 0.

Definition failure_rate (stats : ProcessingStats) : Q :=
  if (0 <? total_processed stats)%nat
  then Production.Q_of_nat (failed stats)
       / Production.Q_of_nat (total_processed stats) * 100
  else 0.

(** The state of the service. *)
Record ServiceState := mkState {
  documents : PyDict.dict Production.DocumentProcessingResult;
  processing_stats : ProcessingStats
}.

Definition initial_state : ServiceState := mkState [] initial_stats.

(** [self.use_enhanced]: set together with the two enhanced services. *)
Definition use_enhanced (s : Enterprise.Service) : bool :=
  Enterprise.enhanced_ocr s && Enterprise.enhanced_gemini s.

(** A call of [process_document_enterprise]: what it meets (the oracle,
    the collaborators, the outcome of [_detect_document_type_enterprise],
    which catches its exceptions), the id drawn by [uuid.uuid4()], the
    time it takes and its arguments. *)
Record Request := mkRequest {
  world : World;
  collaborators : Enterprise.Collaborators;
  detected : DocumentType * Q;
  document_id : string;
  processing_time : Q;
  document_type : option DocumentType;
  quality_mode : string
}.

(** Steps 3 and 4 of [process_document_enterprise]. *)
Definition extraction_steps (s : Enterprise.Service) (req : Request) (t : DocumentType)
    : M Fields :=
  extracted_data <~
    (if use_enhanced s && PyStr.mem (quality_mode req) ["balanced"; "high_accuracy"]
     then r <~ Enterprise._process_with_enhanced_pipeline s (collaborators req)
                 (world req) t (quality_mode req) ;;
          ret (fst r)
     else Enterprise._process_with_standard_pipeline (world req) t) ;;
  lift (_post_process_fields extracted_data t).

(** [process_document_enterprise].  Image enhancement and the metadata
    catch their own exceptions.  The completed result is stored and
    counted; the failed result is stored only. *)
Definition process_document_enterprise (s : Enterprise.Service) (st : ServiceState)
    (req : Request) : Production.DocumentProcessingResult * ServiceState :=
  let '(t, type_confidence) :=
    match document_type req with
    | Some t => (t, 0.95)
    | None => detected req
    end in
  match fst (extraction_steps s req t []) with
  | Ok extracted_data =>
      let result :=
        Production.mkResult Production.COMPLETED t type_confidence extracted_data
          (_calculate_overall_confidence extracted_data) None in
      (result,
       mkState (PyDict.set (document_id req) result (documents st))
               (_update_processing_stats (processing_stats st) result
                  (processing_time req)))
  | Raise e =>
      let result := Production.mkResult Production.FAILED t 0 [] 0 (Some e) in
      (result,
       mkState (PyDict.set (document_id req) result (documents st))
               (processing_stats st))
  end.

(** The service after a sequence of calls. *)
Definition serve (s : Enterprise.Service) (requests : list Request) (st : ServiceState)
    : ServiceState :=
  fold_left (fun st req => snd (process_document_enterprise s st req)) requests st.

End EnterpriseService.

(** ** [GeminiService.detect_document_type] *)

Module GeminiDetection.

(** [DocumentType(s)]: the member whose value is [s]. *)
Definition DocumentType_of_value (s : string) : Result DocumentType :=
  if String.eqb s "invoice" then Ok INVOICE
  else if String.eqb s "receipt" then Ok RECEIPT
  else if String.eqb s "business_card" then Ok BUSINESS_CARD
  else if String.eqb s "form" then Ok FORM
  else if String.eqb s "contract" then Ok CONTRACT
  else if String.eqb s "custom" then Ok CUSTOM
  else Raise "ValueError".

(** The JSON object of a reply to the detection prompt, through its two
    keys: [document_type] as its text when the key is there, and
    [confidence]. *)
Record TypeReply := mkTypeReply {
  reply_document_type : option string;
  reply_confidence : RawConfidence
}.

(** The types that the detection prompt lists. *)
Definition prompted_types : list string :=
  ["INVOICE"; "RECEIPT"; "BUSINESS_CARD"; "ID_CARD"; "CUSTOM"].

(** [detect_document_type].  [response] is the outcome of preparing the
    image, calling the model and parsing its reply: an exception, no JSON
    object or an empty one ([None]), or the object. *)
Definition detect_document_type (use_real_api : bool)
    (response : Result (option TypeReply)) : DocumentType * Q :=
  try_except
    (result <- (if use_real_api then response else Ok None) ;;
     match result with
     | Some result =>
         let doc_type_str :=
           match reply_document_type result with
           | Some s => s
           | None => "CUSTOM"
           end in
         confidence <- match reply_confidence result with
                       | ConfAbsent => Ok 0
                       | ConfNumber q => Ok q
                       | ConfInvalid => Raise "ValueError"
                       end ;;
         let doc_type := try_except (DocumentType_of_value doc_type_str) CUSTOM in
         Ok (doc_type, confidence)
     | None => Ok (INVOICE, 0.85)
     end)
    (CUSTOM, 0).

End GeminiDetection.

(** ** [EnhancedOCRService]: layout and locations *)

Module EnhancedOCR.

Record LayoutElement := mkElement {
  element_type : string;
  element_bounding_box : BoundingBox;
  element_text : string;
  element_confidence : Q;
  element_text_blocks : list TextBlock
}.

(** [LayoutElement(...)]: the model validates [0 <= confidence <= 1]. *)
Definition new_LayoutElement (ty : string) (box : BoundingBox) (txt : string) (c : Q)
    (blocks : list TextBlock) : Result LayoutElement :=
  if Qleb 0 c && Qleb c 1 then Ok (mkElement ty box txt c blocks)
  else Raise "ValidationError".

(** [min(...)] and [max(...)] of a sequence that starts with [x]. *)
Definition min_of (x : Z) (xs : list Z) : Z := fold_left Z.min xs x.
Definition max_of (x : Z) (xs : list Z) : Z := fold_left Z.max xs x.

(** [_create_layout_element] *)
Definition _create_layout_element (text_blocks : list TextBlock) : Result LayoutElement :=
  match text_blocks with
  | [] => new_LayoutElement "unknown" (mkBBox 0 0 0 0) EmptyString 0 []
  | block :: rest =>
      let coordinate (f : BoundingBox -> Z) := map (fun b => f (bounding_box b)) rest in
      let min_x := min_of (x1 (bounding_box block)) (coordinate x1) in
      let min_y := min_of (y1 (bounding_box block)) (coordinate y1) in
      let max_x := max_of (x2 (bounding_box block)) (coordinate x2) in
      let max_y := max_of (y2 (bounding_box block)) (coordinate y2) in
      let txt := PyStr.join " " (map text text_blocks) in
      let avg_confidence :=
        fold_left Qplus (map block_confidence text_blocks) 0
        / Production.Q_of_nat (List.length text_blocks) in
      new_LayoutElement "paragraph" (mkBBox min_x min_y max_x max_y) txt
        avg_confidence text_blocks
  end.

(** [any(char.isdigit() for char in s)] *)
Fixpoint has_digit (s : string) : bool :=
  match s with
  | EmptyString => false
  | String c s' => PyStr.is_digit c || has_digit s'
  end.

(** [_looks_like_table_row] *)
Definition _looks_like_table_row (txt : string) : bool :=
  let words := PyStr.split_ws txt in
  if (List.length words <? 2)%nat then false
  else
    let numeric_words := List.length (filter has_digit words) in
    (2 <=? numeric_words)%nat || (4 <=? List.length words)%nat.

(** [_looks_like_date]: the four patterns are those of
    [_is_valid_date_format]. *)
Definition _looks_like_date (txt : string) : bool :=
  existsb (fun pattern => Re.search pattern txt) Production.date_patterns.

(** The bullet, the pound sign and the yen sign in UTF-8. *)
Definition bullet : string :=
  String (ascii_of_nat 226) (String (ascii_of_nat 128) (String (ascii_of_nat 162) EmptyString)).
Definition pound : string :=
  String (ascii_of_nat 194) (String (ascii_of_nat 163) EmptyString).
Definition yen : string :=
  String (ascii_of_nat 194) (String (ascii_of_nat 165) EmptyString).

Definition list_markers : list string := [bullet; "-"; "*"; "1."; "2."; "3."].

(** [tuple(f'{i}.' for i in range(1, 20))] *)
Definition numbered_markers : list string :=
  ["1."; "2."; "3."; "4."; "5."; "6."; "7."; "8."; "9."; "10."; "11."; "12."; "13.";
   "14."; "15."; "16."; "17."; "18."; "19."].

(** [s.startswith(prefixes)] *)
Definition startswith_any (prefixes : list string) (s : string) : bool :=
  existsb (fun p => String.prefix p s) prefixes.

(** [_classify_layout_element]; the mean of the font sizes divides by the
    number of blocks. *)
Definition _classify_layout_element (element : LayoutElement) : Result string :=
  let txt := PyStr.strip (element_text element) in
  match element_text_blocks element with
  | [] => Raise "ZeroDivisionError"
  | blocks =>
      let avg_font_size :=
        inject_Z (fold_left Z.add (map font_size blocks) 0%Z)
        / Production.Q_of_nat (List.length blocks) in
      if Qltb 16 avg_font_size && (String.length txt <? 50)%nat then Ok "header"
      else if _looks_like_table_row txt then Ok "table_row"
      else if startswith_any list_markers txt || startswith_any numbered_markers txt
      then Ok "list_item"
      else if PyStr.any_in ["$"; Gemini.euro; pound; yen] txt && has_digit txt
      then Ok "amount"
      else if _looks_like_date txt then Ok "date"
      else Ok "paragraph"
  end.

Definition line_height_threshold : Z := 30.

(** The state of the grouping loop: [current_group], [current_y] and
    [layout_elements]. *)
Definition GroupState : Type := list TextBlock * Z * list LayoutElement.

(** The body of the grouping loop. *)
Definition group_step (acc : Result GroupState) (block : TextBlock) : Result GroupState :=
  st <- acc ;;
  let '(current_group, current_y, layout_elements) := st in
  closed <-
    (if (line_height_threshold <? y1 (bounding_box block) - current_y)%Z then
       match current_group with
       | [] => Ok (current_group, layout_elements)
       | _ =>
           element <- _create_layout_element current_group ;;
           Ok ([], (layout_elements ++ [element])%list)
       end
     else Ok (current_group, layout_elements)) ;;
  Ok ((fst closed ++ [block])%list, y1 (bounding_box block), snd closed).

(** [element.element_type = self._classify_layout_element(element)] for
    each element. *)
Fixpoint classify_all (elements : list LayoutElement) : Result (list LayoutElement) :=
  match elements with
  | [] => Ok []
  | element :: rest =>
      ty <- _classify_layout_element element ;;
      rest' <- classify_all rest ;;
      Ok (mkElement ty (element_bounding_box element) (element_text element)
            (element_confidence element) (element_text_blocks element) :: rest')
  end.

(** The key of [sorted(text_blocks, key=lambda b: b.bounding_box.y1)]. *)
Definition top_leb (a b : TextBlock) : bool :=
  (y1 (bounding_box a) <=? y1 (bounding_box b))%Z.

(** The [try] block of [_detect_layout_structure]. *)
Definition detect_layout_body (text_blocks : list TextBlock) : Result (list LayoutElement) :=
  let sorted_blocks := Universal.sorted top_leb text_blocks in
  let current_y :=
    match sorted_blocks with
    | block :: _ => y1 (bounding_box block)
    | [] => 0%Z
    end in
  st <- fold_left group_step sorted_blocks (Ok ([], current_y, [])) ;;
  let '(current_group, _, layout_elements) := st in
  layout_elements <-
    match current_group with
    | [] => Ok layout_elements
    | _ =>
        element <- _create_layout_element current_group ;;
        Ok (layout_elements ++ [element])%list
    end ;;
  classify_all layout_elements.

(** [_detect_layout_structure]: an exception gives the empty list. *)
Definition _detect_layout_structure (text_blocks : list TextBlock) : list LayoutElement :=
  match text_blocks with
  | [] => []
  | _ => try_except (detect_layout_body text_blocks) []
  end.

(** [_find_exact_match]: the box of the first block whose text holds the
    value. *)
Definition _find_exact_match (text_blocks : list TextBlock) (v : string)
    : option BoundingBox :=
  let value_clean := PyStr.lower (PyStr.strip v) in
  option_map bounding_box
    (find (fun block =>
             PyStr.contains value_clean (PyStr.lower (PyStr.strip (text block))))
          text_blocks).

Section WithRatio.

(** [difflib.SequenceMatcher(None, a, b).ratio()] *)
Variable ratio : string -> string -> Q.

(** The loop of [_find_fuzzy_match]; the state is [(best_match,
    best_ratio)]. *)
Definition fuzzy_step (value_clean : string) (st : option BoundingBox * Q)
    (block : TextBlock) : option BoundingBox * Q :=
  let r := ratio value_clean (PyStr.lower (PyStr.strip (text block))) in
  if Qltb (snd st) r && Qltb 0.7 r then (Some (bounding_box block), r) else st.

(** [_find_fuzzy_match] *)
Definition _find_fuzzy_match (text_blocks : list TextBlock) (v : string)
    : option BoundingBox :=
  fst (fold_left (fuzzy_step (PyStr.lower (PyStr.strip v))) text_blocks (None, 0)).

(** [find_field_locations]; no step of it raises on these data. *)
Definition find_field_locations (ocr_results : OcrResults)
    (field_values : PyDict.dict string) : PyDict.dict BoundingBox :=
  fold_left
    (fun field_locations item =>
       if negb (PyStr.truthy (snd item)) then field_locations
       else
         let location :=
           match _find_exact_match (text_blocks ocr_results) (snd item) with
           | Some location => Some location
           | None => _find_fuzzy_match (text_blocks ocr_results) (snd item)
           end in
         match location with
         | Some location => PyDict.set (fst item) location field_locations
         | None => field_locations
         end)
    field_values [].

End WithRatio.

End EnhancedOCR.

(** ** [EnhancedGeminiService]: the locations of the fields *)

Module EnhancedGeminiSpatial.

(** [_convert_bbox_to_location]: a zero dimension raises, and the
    exception gives [None]. *)
Definition _convert_bbox_to_location (bbox : BoundingBox) (ocr_results : OcrResults)
    : option FieldLocation :=
  let '(img_width, img_height) := image_dimensions ocr_results in
  if (img_width =? 0)%Z || (img_height =? 0)%Z then None
  else Some (mkLocation (Universal.Qz (x1 bbox) / Universal.Qz img_width)
                        (Universal.Qz (y1 bbox) / Universal.Qz img_height)
                        (Universal.Qz (x2 bbox - x1 bbox) / Universal.Qz img_width)
                        (Universal.Qz (y2 bbox - y1 bbox) / Universal.Qz img_height)).

(** [_assign_spatial_coordinates] *)
Definition _assign_spatial_coordinates (ratio : string -> string -> Q)
    (extracted_fields : Fields) (ocr_results : OcrResults) : Result Fields :=
  let field_values := PyDict.map_items (fun _ field => value field) extracted_fields in
  let field_locations :=
    EnhancedOCR.find_field_locations ratio ocr_results field_values in
  fold_left
    (fun acc item =>
       updated_fields <- acc ;;
       let field := snd item in
       f <- new_ExtractedField (value field) (confidence field) (confidence_level field)
              (match PyDict.get (fst item) field_locations with
               | Some location => _convert_bbox_to_location location ocr_results
               | None => None
               end)
              (original_text field) (validation_errors field) ;;
       Ok (PyDict.set (fst item) f updated_fields))
    extracted_fields (Ok []).

End EnhancedGeminiSpatial.
(** * Properties *)

(** ** Comparisons *)

Lemma Qleb_true (a b : Q) : Qleb a b = true <-> a <= b.
Proof. unfold Qleb. apply Qle_bool_iff. Qed.

Lemma Qleb_false (a b : Q) : Qleb a b = false <-> b < a.
Proof.
  unfold Qleb. split; intro H.
  - apply Qnot_le_lt. intro Hle. apply Qle_bool_iff in Hle. congruence.
  - destruct (Qle_bool a b) eqn:E; [|reflexivity].
    apply Qle_bool_iff in E. exfalso. apply (Qlt_not_le _ _ H E).
Qed.

Lemma Qltb_true (a b : Q) : Qltb a b = true <-> a < b.
Proof.
  unfold Qltb. rewrite negb_true_iff. apply (Qleb_false b a).
Qed.

Lemma Qltb_false (a b : Q) : Qltb a b = false <-> b <= a.
Proof.
  unfold Qltb. rewrite negb_false_iff. apply (Qleb_true b a).
Qed.

(** ** Document-level confidence *)

Section WeightedConfidence.
Import Production.

(** The weighted mean as the specification words it: the sum of
    [confidence * weight] over the sum of the weights. *)
Definition sum_weights (d : Fields) : Q :=
  fold_right (fun item acc => weight_of (fst item) + acc) 0 d.

Definition sum_weighted (d : Fields) : Q :=
  fold_right (fun item acc => confidence (snd item) * weight_of (fst item) + acc) 0 d.

Definition weighted_mean (d : Fields) : Q :=
  match d with
  | [] => 0
  | _ => sum_weighted d / sum_weights d
  end.

Lemma weight_of_cases (n : string) :
  (PyStr.any_in critical_field_patterns (PyStr.lower n) = true /\ weight_of n = 2)
  \/ (PyStr.any_in critical_field_patterns (PyStr.lower n) = false /\ weight_of n = 1).
Proof.
  unfold weight_of.
  destruct (PyStr.any_in critical_field_patterns (PyStr.lower n)); auto.
Qed.

Lemma weight_of_pos (n : string) : 1 <= weight_of n.
Proof.
  destruct (weight_of_cases n) as [[_ ->]|[_ ->]]; lra.
Qed.

Lemma sum_weights_nonneg (d : Fields) : 0 <= sum_weights d.
Proof.
  induction d as [|item d IH]; simpl; [lra|].
  pose proof (weight_of_pos (fst item)). lra.
Qed.

Lemma sum_weights_pos (d : Fields) : d <> [] -> 1 <= sum_weights d.
Proof.
  destruct d as [|item d]; [congruence|]. intros _. simpl.
  pose proof (weight_of_pos (fst item)).
  pose proof (sum_weights_nonneg d). lra.
Qed.

Lemma weighted_loop (d : Fields) (tw ws : Q) :
  fst (fold_left weighted_step d (tw, ws)) == tw + sum_weights d
  /\ snd (fold_left weighted_step d (tw, ws)) == ws + sum_weighted d.
Proof.
  revert tw ws. induction d as [|item d IH]; intros tw ws; simpl.
  - split; ring.
  - destruct (IH (tw + weight_of (fst item))
                 (ws + confidence (snd item) * weight_of (fst item)))
      as [Hw Hs].
    rewrite Hw, Hs. split; ring.
Qed.

Definition example_fields : Fields :=
  [ ("total_amount", mkField "1,234.56" 0.95 HIGH None None []);
    ("notes", mkField "paid" 0.80 MEDIUM None None []) ].

(** C7.  The document-level confidence is the weighted mean of the field
    confidences, weight 2 for a field whose (lower-cased) name contains
    one of amount, total, number, date, name and weight 1 otherwise; it
    is 0 for the empty field set; and {total_amount: 0.95, notes: 0.80}
    gives 0.9. *)
Theorem weighted_confidence_is_weighted_mean :
  (forall d : Fields, _calculate_weighted_confidence d == weighted_mean d)
  /\ _calculate_weighted_confidence [] == 0
  /\ (forall n : string,
        weight_of n ==
        if PyStr.any_in ["amount"; "total"; "number"; "date"; "name"] (PyStr.lower n)
        then 2 else 1)
  /\ _calculate_weighted_confidence example_fields == (0.95 * 2 + 0.80 * 1) / 3
  /\ _calculate_weighted_confidence example_fields == 0.9.
Proof.
  split; [|split; [|split; [|split]]].
  - intros d. destruct d as [|item d]; [reflexivity|].
    unfold _calculate_weighted_confidence, weighted_mean.
    remember (item :: d) as d' eqn:Ed'.
    assert (Hne : d' <> []) by (subst d'; congruence).
    pose proof (weighted_loop d' 0 0) as [Hw Hs].
    destruct (fold_left weighted_step d' (0, 0)) as [tw ws]. cbn [fst snd] in Hw, Hs.
    pose proof (sum_weights_pos d' Hne) as Hpos.
    assert (Hlt : Qltb 0 tw = true) by (apply Qltb_true; lra).
    rewrite Hlt, Hw, Hs.
    assert (E1 : 0 + sum_weighted d' == sum_weighted d') by ring.
    assert (E2 : 0 + sum_weights d' == sum_weights d') by ring.
    rewrite E1, E2. reflexivity.
  - reflexivity.
  - intros n. reflexivity.
  - vm_compute. reflexivity.
  - vm_compute. reflexivity.
Qed.

End WeightedConfidence.

(** ** Dictionaries *)

Section DictFacts.
Context {V : Type}.
Implicit Types (d e : PyDict.dict V) (k : string) (v : V).

Lemma get_set k k' v d :
  PyDict.get k (PyDict.set k' v d) = if String.eqb k k' then Some v else PyDict.get k d.
Proof.
  induction d as [|[k0 v0] d IH]; simpl.
  - reflexivity.
  - destruct (String.eqb k' k0) eqn:E; simpl.
    + apply String.eqb_eq in E. subst k0.
      destruct (String.eqb k k'); reflexivity.
    + rewrite IH. destruct (String.eqb k k0) eqn:E0; [|reflexivity].
      apply String.eqb_eq in E0. subst k0.
      destruct (String.eqb k k') eqn:E1; [|reflexivity].
      apply String.eqb_eq in E1. subst k'.
      rewrite String.eqb_refl in E. discriminate.
Qed.

Lemma get_none_not_key k d : ~ In k (PyDict.keys d) -> PyDict.get k d = None.
Proof.
  induction d as [|[k0 v0] d IH]; simpl; intros H; [reflexivity|].
  destruct (String.eqb k k0) eqn:E.
  - apply String.eqb_eq in E. subst. tauto.
  - apply IH. tauto.
Qed.

Lemma get_some_key k d v : PyDict.get k d = Some v -> In k (PyDict.keys d).
Proof.
  induction d as [|[k0 v0] d IH]; simpl; [discriminate|].
  destruct (String.eqb k k0) eqn:E.
  - apply String.eqb_eq in E. auto.
  - auto.
Qed.

(** [{**d, **e}] looks a key up in [e] first. *)
Lemma get_update k d e :
  PyDict.wf e ->
  PyDict.get k (PyDict.update d e) =
  match PyDict.get k e with
  | Some v => Some v
  | None => PyDict.get k d
  end.
Proof.
  unfold PyDict.update, PyDict.wf. revert d.
  induction e as [|[k0 v0] e IH]; intros d Hwf; simpl.
  - reflexivity.
  - simpl in Hwf. inversion Hwf as [|? ? Hnotin Hnodup]; subst.
    rewrite (IH _ Hnodup), get_set.
    destruct (String.eqb k k0) eqn:E.
    + apply String.eqb_eq in E. subst k0.
      rewrite (get_none_not_key _ _ Hnotin). reflexivity.
    + reflexivity.
Qed.

End DictFacts.

(** ** Dictionaries with unique keys *)

Section DictInvariants.
Context {V : Type}.
Implicit Types (d e : PyDict.dict V) (k : string) (v : V).

Lemma keys_set k v d :
  PyDict.keys (PyDict.set k v d)
  = if existsb (String.eqb k) (PyDict.keys d) then PyDict.keys d
    else (PyDict.keys d ++ [k])%list.
Proof.
  induction d as [|[k0 v0] d IH]; simpl; [reflexivity|].
  destruct (String.eqb k k0) eqn:E; simpl; [reflexivity|].
  rewrite IH. destruct (existsb (String.eqb k) (PyDict.keys d)); reflexivity.
Qed.

Lemma set_wf k v d : PyDict.wf d -> PyDict.wf (PyDict.set k v d).
Proof.
  unfold PyDict.wf. intros Hwf. rewrite keys_set.
  destruct (existsb (String.eqb k) (PyDict.keys d)) eqn:E; [exact Hwf|].
  apply NoDup_app; [exact Hwf|constructor; [simpl; tauto|constructor]|].
  intros x Hx [<-|[]].
  assert (Hex : existsb (String.eqb k) (PyDict.keys d) = true).
  { apply existsb_exists. exists k. split; [exact Hx|apply String.eqb_refl]. }
  congruence.
Qed.

Lemma update_wf d e : PyDict.wf d -> PyDict.wf (PyDict.update d e).
Proof.
  unfold PyDict.update. revert d.
  induction e as [|[k v] e IH]; intros d Hwf; simpl; [exact Hwf|].
  apply IH. apply set_wf. exact Hwf.
Qed.

Lemma in_set k v d k' v' :
  In (k', v') (PyDict.set k v d) -> (k' = k /\ v' = v) \/ In (k', v') d.
Proof.
  induction d as [|[k0 v0] d IH]; simpl.
  - intros [H|[]]. injection H as <- <-. auto.
  - destruct (String.eqb k k0) eqn:E; simpl.
    + apply String.eqb_eq in E. subst k0.
      intros [H|H]; [injection H as <- <-; auto|auto].
    + intros [H|H]; [auto|]. destruct (IH H); auto.
Qed.

Lemma get_in k d v : PyDict.get k d = Some v -> In (k, v) d.
Proof.
  induction d as [|[k0 v0] d IH]; simpl; [discriminate|].
  destruct (String.eqb k k0) eqn:E.
  - apply String.eqb_eq in E. subst k0. intros H. injection H as <-. auto.
  - auto.
Qed.

Lemma in_get k d v : PyDict.wf d -> In (k, v) d -> PyDict.get k d = Some v.
Proof.
  unfold PyDict.wf.
  induction d as [|[k0 v0] d IH]; simpl; [tauto|].
  intros Hwf [H|H].
  - injection H as -> ->. rewrite String.eqb_refl. reflexivity.
  - inversion Hwf as [|? ? Hnotin Hnodup]; subst.
    destruct (String.eqb k k0) eqn:E.
    + apply String.eqb_eq in E. subst k0.
      exfalso. apply Hnotin. apply (in_map fst) in H. exact H.
    + apply IH; assumption.
Qed.

End DictInvariants.

Lemma keys_map_items {V W : Type} (f : string -> V -> W) (d : PyDict.dict V) :
  PyDict.keys (PyDict.map_items f d) = PyDict.keys d.
Proof.
  unfold PyDict.keys, PyDict.map_items. rewrite map_map. reflexivity.
Qed.

Lemma in_map_items {V W : Type} (f : string -> V -> W) (d : PyDict.dict V)
    (k : string) (x : W) :
  In (k, x) (PyDict.map_items f d) -> exists v, In (k, v) d /\ x = f k v.
Proof.
  unfold PyDict.map_items. intros H. apply in_map_iff in H.
  destruct H as [[k0 v0] [Heq Hin]]. simpl in Heq. injection Heq as <- <-.
  exists v0. split; [exact Hin|reflexivity].
Qed.

Lemma map_items_wf {V W : Type} (f : string -> V -> W) (d : PyDict.dict V) :
  PyDict.wf d -> PyDict.wf (PyDict.map_items f d).
Proof. unfold PyDict.wf. rewrite keys_map_items. tauto. Qed.

Lemma get_map_items {V W : Type} (f : string -> V -> W) (d : PyDict.dict V)
    (k : string) :
  PyDict.get k (PyDict.map_items f d) = option_map (f k) (PyDict.get k d).
Proof.
  induction d as [|[k0 v0] d IH]; simpl; [reflexivity|].
  destruct (String.eqb k k0) eqn:E; [|exact IH].
  apply String.eqb_eq in E. subst k0. reflexivity.
Qed.

(** ** The chain of passes *)

Section PassChain.
Import Production.

(** The reply that [_get_gemini_response_simple] hands to the pass. *)
Definition reply_of (w : World) (p : SimplePrompt) (log : Log) : Reply :=
  if use_real_api w then
    match generate_content w (List.length log) (SimpleCall p) with
    | Ok r => r
    | Raise _ => Gemini._get_mock_simple_response (prompt_text p)
    end
  else Gemini._get_mock_simple_response (prompt_text p).

(** The call never raises and logs one oracle call. *)
Lemma simple_call_run (w : World) (p : SimplePrompt) (log : Log) :
  Gemini._get_gemini_response_simple w p log
  = (Ok (reply_of w p log), (log ++ [EvOracle (SimpleCall p)])%list).
Proof.
  unfold Gemini._get_gemini_response_simple, reply_of.
  destruct (use_real_api w); [|reflexivity].
  destruct (generate_content w (List.length log) (SimpleCall p)); reflexivity.
Qed.

Definition pass_fields (w : World) (p : SimplePrompt) (log : Log) : Fields :=
  _parse_enhanced_response (reply_of w p log).

Lemma general_pass_run (w : World) (t : DocumentType) (log : Log) :
  _extract_with_enhanced_prompt w t log =
  if image_opens w
  then (Ok (pass_fields w (GeneralPrompt t) log),
        (log ++ [EvOracle (SimpleCall (GeneralPrompt t))])%list)
  else (Raise "UnidentifiedImageError", log).
Proof.
  unfold _extract_with_enhanced_prompt, image_open, bindM.
  destruct (image_opens w); simpl; [|reflexivity].
  rewrite simple_call_run. reflexivity.
Qed.

Definition focused_events (missing : list string) : Log :=
  match missing with
  | [] => []
  | _ => [EvOracle (SimpleCall (FocusedPrompt missing))]
  end.

Definition requested (custom_fields : option (list string)) : list string :=
  match custom_fields with
  | Some cs => cs
  | None => []
  end.

Definition custom_events (custom_fields : option (list string)) : Log :=
  match requested custom_fields with
  | [] => []
  | cs => [EvOracle (SimpleCall (CustomPrompt cs))]
  end.

Lemma focused_pass_run (w : World) (t : DocumentType) (general : Fields) (log : Log) :
  image_opens w = true ->
  exists focused,
    _extract_missing_fields w t general log
    = (Ok focused, (log ++ focused_events (missing_fields t general))%list).
Proof.
  intros Himg. unfold _extract_missing_fields, focused_events.
  destruct (missing_fields t general) as [|m ms].
  - exists []. unfold ret. rewrite app_nil_r. reflexivity.
  - unfold image_open, bindM. rewrite Himg. simpl.
    rewrite simple_call_run. eexists. reflexivity.
Qed.

Lemma custom_pass_run (w : World) (custom_fields : option (list string))
    (base : Fields) (log : Log) :
  image_opens w = true ->
  exists data,
    match custom_fields with
    | Some (c :: cs) =>
        custom_extracted <~ _extract_custom_fields w (c :: cs) ;;
        ret (PyDict.update base custom_extracted)
    | _ => ret base
    end log
    = (Ok data, (log ++ custom_events custom_fields)%list).
Proof.
  intros Himg. unfold custom_events, requested.
  destruct custom_fields as [[|c cs]|].
  - exists base. unfold ret. rewrite app_nil_r. reflexivity.
  - unfold _extract_custom_fields, image_open, bindM. rewrite Himg. simpl.
    rewrite simple_call_run. eexists. reflexivity.
  - exists base. unfold ret. rewrite app_nil_r. reflexivity.
Qed.

Lemma extract_fields_run (w : World) (t : DocumentType) (log : Log) :
  exists fields,
    Gemini.extract_fields w t log
    = (Ok fields, (log ++ [EvOracle (ExtractFieldsCall t)])%list).
Proof.
  unfold Gemini.extract_fields.
  destruct (use_real_api w); [|eexists; reflexivity].
  destruct (image_opens w); [|eexists; reflexivity].
  destruct (generate_content w (List.length log) (ExtractFieldsCall t)) as [[[|item data]|body|[|]]|e];
    eexists; reflexivity.
Qed.

Definition session_log (w : World) (t : DocumentType)
    (custom_fields : option (list string)) (accuracy_mode : string) : Log :=
  snd (process_document_production w (Some t) custom_fields accuracy_mode).

Definition session_fields (w : World) (t : DocumentType)
    (custom_fields : option (list string)) (accuracy_mode : string) : Fields :=
  extracted_data (fst (process_document_production w (Some t) custom_fields accuracy_mode)).

Definition is_focused_call (e : Event) : bool :=
  match e with EvOracle (SimpleCall (FocusedPrompt _)) => true | _ => false end.

Definition is_custom_call (e : Event) : bool :=
  match e with EvOracle (SimpleCall (CustomPrompt _)) => true | _ => false end.

Definition runs_focused (log : Log) : bool := existsb is_focused_call log.
Definition runs_custom (log : Log) : bool := existsb is_custom_call log.

(** The chain as the specification words it: fast has neither a FOCUSED
    nor a CUSTOM pass; balanced, like high, runs FOCUSED when a critical
    field is still missing from what the session returns. *)
Definition claimed_pass_chain : Prop :=
  forall (w : World) (t : DocumentType) (custom_fields : option (list string)),
    image_opens w = true ->
    (runs_focused (session_log w t custom_fields "fast") = false
     /\ runs_custom (session_log w t custom_fields "fast") = false)
    /\ (missing_fields t (session_fields w t custom_fields "balanced") <> [] ->
        runs_focused (session_log w t custom_fields "balanced") = true).

Definition mock_world : World :=
  mkWorld false true (fun _ _ => Raise "unused") (fun _ => 0%Z) (INVOICE, 0.85).

(** An oracle that finds the total only. *)
Definition total_only_world : World :=
  mkWorld true true
    (fun _ _ => Ok (ReplyJson [("total_amount", EntryDict (Some "10.00") (ConfNumber 0.9) None)]))
    (fun _ => 0%Z) (INVOICE, 0.85).

(** C2, as stated, fails: fast runs the CUSTOM pass when custom fields
    are requested, and balanced runs no FOCUSED pass although the invoice
    number is missing. *)
Lemma fast_runs_custom_balanced_skips_focused :
  ~ claimed_pass_chain
  /\ session_log mock_world RECEIPT (Some ["po_number"]) "fast"
     = [ EvOracle (ExtractFieldsCall RECEIPT);
         EvOracle (SimpleCall (CustomPrompt ["po_number"]));
         EvValidate ]
  /\ session_log total_only_world INVOICE None "balanced"
     = [ EvOracle (ExtractFieldsCall INVOICE); EvValidate ]
  /\ is_missing (session_fields total_only_world INVOICE None "balanced")
       "invoice_number" = true.
Proof.
  split; [|split; [|split]].
  - intros H.
    destruct (H mock_world RECEIPT (Some ["po_number"]) eq_refl) as [[_ Hc] _].
    vm_compute in Hc. discriminate Hc.
  - vm_compute. reflexivity.
  - vm_compute. reflexivity.
  - vm_compute. reflexivity.
Qed.

Lemma bindM_ok {A B : Type} (m : M A) (k : A -> M B) (log log' : Log) (a : A) :
  m log = (Ok a, log') -> bindM m k log = k a log'.
Proof. intros H. unfold bindM. rewrite H. reflexivity. Qed.

Lemma bindM_raise {A B : Type} (m : M A) (k : A -> M B) (log log' : Log) (e : string) :
  m log = (Raise e, log') -> bindM m k log = (Raise e, log').
Proof. intros H. unfold bindM. rewrite H. reflexivity. Qed.

Lemma multi_pass_run (w : World) (t : DocumentType)
    (custom_fields : option (list string)) (log : Log) :
  image_opens w = true ->
  exists data,
    _multi_pass_extraction w t custom_fields log
    = (Ok data,
       (log ++ [EvOracle (SimpleCall (GeneralPrompt t))]
            ++ focused_events (missing_fields t (pass_fields w (GeneralPrompt t) log))
            ++ [EvRefine] ++ custom_events custom_fields)%list).
Proof.
  intros Himg. unfold _multi_pass_extraction.
  erewrite bindM_ok by (rewrite general_pass_run, Himg; reflexivity).
  destruct (focused_pass_run w t (pass_fields w (GeneralPrompt t) log)
              (log ++ [EvOracle (SimpleCall (GeneralPrompt t))])%list Himg)
    as [focused Hfocused].
  erewrite bindM_ok by exact Hfocused.
  unfold _refine_extracted_fields.
  erewrite bindM_ok by (erewrite bindM_ok by reflexivity; reflexivity).
  match goal with
  | |- context [PyDict.map_items ?f ?d] =>
      destruct (custom_pass_run w custom_fields (PyDict.map_items f d)
                  (((log ++ [EvOracle (SimpleCall (GeneralPrompt t))])
                    ++ focused_events (missing_fields t (pass_fields w (GeneralPrompt t) log)))
                   ++ [EvRefine])%list Himg) as [data Hdata]
  end.
  exists data. rewrite Hdata. rewrite <- !app_assoc. reflexivity.
Qed.

Lemma single_pass_run (w : World) (t : DocumentType)
    (custom_fields : option (list string)) (log : Log) :
  image_opens w = true ->
  exists data,
    _single_pass_extraction w t custom_fields log
    = (Ok data,
       (log ++ [EvOracle (ExtractFieldsCall t)] ++ custom_events custom_fields)%list).
Proof.
  intros Himg. unfold _single_pass_extraction.
  destruct (extract_fields_run w t log) as [fields Hfields].
  erewrite bindM_ok by exact Hfields.
  destruct (custom_pass_run w custom_fields fields
              (log ++ [EvOracle (ExtractFieldsCall t)])%list Himg) as [data Hdata].
  exists data. rewrite Hdata. rewrite <- !app_assoc. reflexivity.
Qed.

(** Steps 4 to 6 neither raise nor call the oracle. *)
Lemma later_steps_run (w : World) (t : DocumentType) (accuracy_mode : string)
    (extracted : Fields) (log : Log) :
  exists data,
    (validated <~ (if validation_enabled
                   then _validate_and_correct_fields t extracted
                   else ret extracted) ;;
     let located :=
       if spatial_analysis then _add_spatial_coordinates w validated else validated in
     ret (_calibrate_confidence located t accuracy_mode)) log
    = (Ok data, (log ++ [EvValidate])%list).
Proof.
  eexists. reflexivity.
Qed.

Lemma steps_run_high (w : World) (t : DocumentType)
    (custom_fields : option (list string)) :
  image_opens w = true ->
  exists data,
    extraction_steps w t custom_fields "high" []
    = (Ok data,
       ([EvOracle (SimpleCall (GeneralPrompt t))]
          ++ focused_events (missing_fields t (pass_fields w (GeneralPrompt t) []))
          ++ [EvRefine] ++ custom_events custom_fields ++ [EvValidate])%list).
Proof.
  intros Himg. unfold extraction_steps.
  change (String.eqb "high" "high" && multi_pass_extraction) with true. cbv iota.
  destruct (multi_pass_run w t custom_fields [] Himg) as [extracted Hextracted].
  erewrite bindM_ok by exact Hextracted.
  destruct (later_steps_run w t "high" extracted
              ([] ++ [EvOracle (SimpleCall (GeneralPrompt t))]
                  ++ focused_events (missing_fields t (pass_fields w (GeneralPrompt t) []))
                  ++ [EvRefine] ++ custom_events custom_fields)%list) as [data Hdata].
  exists data. etransitivity; [exact Hdata|].
  cbn [app]. rewrite <- ?app_assoc. reflexivity.
Qed.

Lemma steps_run_single (w : World) (t : DocumentType)
    (custom_fields : option (list string)) (accuracy_mode : string) :
  accuracy_mode <> "high" ->
  image_opens w = true ->
  exists data,
    extraction_steps w t custom_fields accuracy_mode []
    = (Ok data,
       ([EvOracle (ExtractFieldsCall t)]
          ++ custom_events custom_fields ++ [EvValidate])%list).
Proof.
  intros Hmode Himg. unfold extraction_steps.
  apply String.eqb_neq in Hmode. rewrite Hmode.
  change (false && multi_pass_extraction) with false. cbv iota.
  destruct (single_pass_run w t custom_fields [] Himg) as [extracted Hextracted].
  erewrite bindM_ok by exact Hextracted.
  destruct (later_steps_run w t accuracy_mode extracted
              ([] ++ [EvOracle (ExtractFieldsCall t)]
                  ++ custom_events custom_fields)%list) as [data Hdata].
  exists data. etransitivity; [exact Hdata|].
  cbn [app]. rewrite <- ?app_assoc. reflexivity.
Qed.

(** C2, amended.  When the image opens: mode high runs GENERAL, FOCUSED
    (only when a critical field is missing or empty after GENERAL),
    REFINEMENT, CUSTOM (only when custom fields are requested) and the
    validation stage; every other mode, fast and balanced alike, runs one
    GENERAL extraction call, CUSTOM when custom fields are requested, and
    the validation stage, with no FOCUSED pass and no refinement pass. *)
Theorem pass_chain_by_mode
    (w : World) (t : DocumentType) (custom_fields : option (list string))
    (accuracy_mode : string) :
  image_opens w = true ->
  (accuracy_mode = "high" ->
   session_log w t custom_fields accuracy_mode
   = ([EvOracle (SimpleCall (GeneralPrompt t))]
      ++ focused_events (missing_fields t (pass_fields w (GeneralPrompt t) []))
      ++ [EvRefine] ++ custom_events custom_fields ++ [EvValidate])%list)
  /\ (accuracy_mode <> "high" ->
      session_log w t custom_fields accuracy_mode
      = ([EvOracle (ExtractFieldsCall t)]
         ++ custom_events custom_fields ++ [EvValidate])%list
      /\ runs_focused (session_log w t custom_fields accuracy_mode) = false).
Proof.
  intros Himg. unfold session_log, process_document_production.
  split.
  - intros ->.
    destruct (steps_run_high w t custom_fields Himg) as [data ->]. reflexivity.
  - intros Hmode.
    destruct (steps_run_single w t custom_fields accuracy_mode Hmode Himg)
      as [data ->].
    split; [reflexivity|].
    unfold custom_events. destruct (requested custom_fields); reflexivity.
Qed.

Lemma pass_chain_by_mode_witness :
  session_log mock_world RECEIPT (Some ["po_number"]) "high"
  = [ EvOracle (SimpleCall (GeneralPrompt RECEIPT));
      EvOracle (SimpleCall (FocusedPrompt ["merchant_name"; "transaction_date"]));
      EvRefine;
      EvOracle (SimpleCall (CustomPrompt ["po_number"]));
      EvValidate ]
  /\ session_log mock_world RECEIPT None "balanced"
     = [ EvOracle (ExtractFieldsCall RECEIPT); EvValidate ].
Proof.
  split.
  - destruct (pass_chain_by_mode mock_world RECEIPT (Some ["po_number"]) "high" eq_refl)
      as [H _].
    rewrite (H eq_refl). vm_compute. reflexivity.
  - destruct (pass_chain_by_mode mock_world RECEIPT None "balanced" eq_refl)
      as [_ H].
    assert (Hne : "balanced" <> "high") by discriminate.
    destruct (H Hne) as [-> _]. reflexivity.
Defined.

End PassChain.

(** ** Merging the FOCUSED pass into the GENERAL pass *)

Section Merge.
Import Production.

(** [combined_fields = {**general_fields, **focused_fields}] *)
Definition merge_passes (general focused : Fields) : Fields :=
  PyDict.update general focused.

(** The policy as the specification words it: a non-empty GENERAL value is
    never replaced. *)
Definition keeps_nonempty_general (merge : Fields -> Fields -> Fields) : Prop :=
  forall (general focused : Fields) (k : string) (g : ExtractedField),
    PyDict.wf focused ->
    PyDict.get k general = Some g ->
    PyStr.truthy (value g) = true ->
    PyDict.get k (merge general focused) = Some g.

Definition globex : ExtractedField :=
  mkField "Globex Ltd" 0.9 HIGH None (Some "Globex Ltd") [].

Definition acme : ExtractedField :=
  mkField "ACME Corporation" 0.95 HIGH None (Some "ACME Corporation") [].

(** A session whose GENERAL reply has a vendor name and no invoice number,
    and whose FOCUSED reply repeats the vendor name with another value. *)
Definition overlapping_oracle (n : nat) (c : OracleCall) : Result Reply :=
  match c with
  | SimpleCall (GeneralPrompt _) =>
      Ok (ReplyJson
            [ ("vendor_name", EntryDict (Some "Globex Ltd") (ConfNumber 0.9) None);
              ("total_amount", EntryDict (Some "10.00") (ConfNumber 0.9) None);
              ("invoice_date", EntryDict (Some "2025-01-01") (ConfNumber 0.9) None) ])
  | SimpleCall (FocusedPrompt _) =>
      Ok (ReplyJson
            [ ("invoice_number", EntryDict (Some "INV-7") (ConfNumber 0.9) None);
              ("vendor_name", EntryDict (Some "Initech") (ConfNumber 0.95) None) ])
  | _ => Ok (ReplyText "")
  end.

Definition overlapping_world : World :=
  mkWorld true true overlapping_oracle (fun _ => 0%Z) (INVOICE, 0.95).

Definition field_value (k : string) (d : Fields) : option string :=
  option_map value (PyDict.get k d).

(** The fields a run returns, the empty dict standing for an exception. *)
Definition fields_of (run : Result Fields * Log) : Fields :=
  match fst run with
  | Ok d => d
  | Raise _ => []
  end.

Definition multi_pass_fields (w : World) (t : DocumentType)
    (custom_fields : option (list string)) : Fields :=
  fields_of (_multi_pass_extraction w t custom_fields []).

(** C1, as stated, fails: the merge replaces a non-empty GENERAL value by
    the FOCUSED value of the same name, and a multi-pass session reaches
    that merge when the FOCUSED reply repeats a field. *)
Lemma merge_replaces_nonempty_general :
  ~ keeps_nonempty_general merge_passes
  /\ field_value "vendor_name"
       (multi_pass_fields overlapping_world INVOICE None) = Some "Initech".
Proof.
  split.
  - intros H.
    specialize (H [("vendor_name", globex)] [("vendor_name", acme)]
                  "vendor_name" globex).
    assert (Hwf : PyDict.wf [("vendor_name", acme)]).
    { unfold PyDict.wf. simpl. constructor; [simpl; tauto|constructor]. }
    specialize (H Hwf eq_refl eq_refl).
    vm_compute in H. discriminate H.
  - vm_compute. reflexivity.
Qed.

Lemma missing_fields_spec (t : DocumentType) (general : Fields) (k : string) :
  In k (missing_fields t general) ->
  is_missing general k = true.
Proof.
  unfold missing_fields. intros H. apply filter_In in H. tauto.
Qed.

(** The candidate sets of a multi-pass session that starts at [log]: what
    the GENERAL pass returns, what the FOCUSED pass returns when it is
    given the GENERAL set, and what the CUSTOM pass returns after the
    refinement. *)
Definition general_pass (w : World) (t : DocumentType) (log : Log) : Fields :=
  fields_of (_extract_with_enhanced_prompt w t log).

Definition focused_pass (w : World) (t : DocumentType) (log : Log) : Fields :=
  fields_of
    (_extract_missing_fields w t (general_pass w t log)
       (log ++ [EvOracle (SimpleCall (GeneralPrompt t))])%list).

Definition custom_pass (w : World) (t : DocumentType) (custom_fields : list string)
    (log : Log) : Fields :=
  fields_of
    (_extract_custom_fields w custom_fields
       (log ++ [EvOracle (SimpleCall (GeneralPrompt t))]
            ++ focused_events (missing_fields t (general_pass w t log))
            ++ [EvRefine])%list).

Lemma parse_entry_raises (items : list (string * RawEntry)) (e : string) :
  fold_left parse_entry items (Raise e) = Raise e.
Proof. induction items as [|item items IH]; simpl; [reflexivity|exact IH]. Qed.

Lemma parse_loop_wf (items : list (string * RawEntry)) (d0 d : Fields) :
  PyDict.wf d0 -> fold_left parse_entry items (Ok d0) = Ok d -> PyDict.wf d.
Proof.
  revert d0. induction items as [|item items IH]; intros d0 Hwf; cbn [fold_left].
  - intros E. injection E as <-. exact Hwf.
  - destruct (parse_entry (Ok d0) item) as [d1|e] eqn:E1.
    + apply IH. unfold parse_entry in E1. cbn [bind] in E1.
      destruct (snd item) as [[v|] c orig|s]; try (injection E1 as <-; exact Hwf).
      destruct (float_of_confidence c) as [conf|e]; cbn [bind] in E1; [|discriminate].
      destruct (new_ExtractedField v conf (_get_confidence_level conf) None
                  (Some match orig with Some o => o | None => v end) [])
        as [f|e]; cbn [bind] in E1; [|discriminate].
      injection E1 as <-. apply set_wf. exact Hwf.
    + rewrite parse_entry_raises. discriminate.
Qed.

Lemma parse_wf (response : Reply) : PyDict.wf (_parse_enhanced_response response).
Proof.
  unfold _parse_enhanced_response.
  destruct response as [data|body|truthy]; [|constructor..].
  destruct (fold_left parse_entry data (Ok [])) as [d|e] eqn:E; [|constructor].
  cbn [try_except]. apply (parse_loop_wf data [] d); [constructor|exact E].
Qed.

Lemma general_pass_fields (w : World) (t : DocumentType) (log : Log) :
  image_opens w = true ->
  general_pass w t log = pass_fields w (GeneralPrompt t) log.
Proof.
  intros Himg. unfold general_pass, fields_of.
  rewrite general_pass_run, Himg. reflexivity.
Qed.

Lemma focused_pass_wf (w : World) (t : DocumentType) (log : Log) :
  PyDict.wf (focused_pass w t log).
Proof.
  unfold focused_pass, fields_of, _extract_missing_fields.
  destruct (missing_fields t (general_pass w t log)) as [|m ms]; [constructor|].
  unfold image_open, bindM.
  destruct (image_opens w); simpl; [|constructor].
  rewrite simple_call_run. simpl. apply parse_wf.
Qed.

Lemma custom_pass_wf (w : World) (t : DocumentType) (custom_fields : list string)
    (log : Log) :
  PyDict.wf (custom_pass w t custom_fields log).
Proof.
  unfold custom_pass, fields_of, _extract_custom_fields.
  destruct custom_fields as [|c cs]; [constructor|].
  unfold image_open, bindM.
  destruct (image_opens w); simpl; [|constructor].
  rewrite simple_call_run. simpl. apply parse_wf.
Qed.

(** What [_multi_pass_extraction] returns, from the candidate sets of its
    passes. *)
Lemma multi_pass_result (w : World) (t : DocumentType)
    (custom_fields : option (list string)) (log : Log) :
  image_opens w = true ->
  fst (_multi_pass_extraction w t custom_fields log)
  = Ok (let refined :=
          PyDict.map_items (refine_field t)
            (PyDict.update (general_pass w t log) (focused_pass w t log)) in
        match custom_fields with
        | Some (c :: cs) => PyDict.update refined (custom_pass w t (c :: cs) log)
        | _ => refined
        end).
Proof.
  intros Himg. cbv zeta.
  unfold custom_pass, focused_pass. rewrite (general_pass_fields w t log Himg).
  unfold _multi_pass_extraction.
  erewrite bindM_ok by (rewrite general_pass_run, Himg; reflexivity).
  destruct (focused_pass_run w t (pass_fields w (GeneralPrompt t) log)
              (log ++ [EvOracle (SimpleCall (GeneralPrompt t))])%list Himg)
    as [focused Hfocused].
  erewrite bindM_ok by exact Hfocused.
  unfold fields_of at 2 3. rewrite Hfocused. cbn [fst].
  unfold _refine_extracted_fields.
  erewrite bindM_ok by (erewrite bindM_ok by reflexivity; reflexivity).
  destruct custom_fields as [[|c cs]|]; try reflexivity.
  unfold _extract_custom_fields, image_open, bindM, fields_of.
  rewrite Himg. cbn [ret fst]. rewrite <- !app_assoc.
  rewrite !simple_call_run. reflexivity.
Qed.

(** C1, amended.  In a multi-pass session the merge gives every name of
    the FOCUSED candidate set the FOCUSED field, whether or not the
    GENERAL value was empty, keeps the GENERAL field of every other name,
    and so adds the fields absent from GENERAL; the merged fields are then
    refined.  When FOCUSED holds only names of the gap, no non-empty
    GENERAL value is replaced. *)
Theorem merge_focused_takes_precedence
    (w : World) (t : DocumentType) (log : Log) :
  image_opens w = true ->
  let general := general_pass w t log in
  let focused := focused_pass w t log in
  exists merged,
    fst (_multi_pass_extraction w t None log) = Ok merged
    /\ PyDict.keys merged = PyDict.keys (PyDict.update general focused)
    /\ (forall k,
          PyDict.get k merged
          = option_map (refine_field t k)
              match PyDict.get k focused with
              | Some f => Some f
              | None => PyDict.get k general
              end)
    /\ ((forall k', In k' (PyDict.keys focused) -> In k' (missing_fields t general)) ->
        forall k g,
          PyDict.get k general = Some g ->
          PyStr.truthy (value g) = true ->
          PyDict.get k merged = Some (refine_field t k g)).
Proof.
  intros Himg. cbv zeta. eexists.
  split; [apply (multi_pass_result w t None log Himg)|].
  cbv zeta.
  assert (Hget : forall k,
             PyDict.get k
               (PyDict.map_items (refine_field t)
                  (PyDict.update (general_pass w t log) (focused_pass w t log)))
             = option_map (refine_field t k)
                 match PyDict.get k (focused_pass w t log) with
                 | Some f => Some f
                 | None => PyDict.get k (general_pass w t log)
                 end).
  { intros k. rewrite get_map_items, get_update by apply focused_pass_wf.
    reflexivity. }
  split; [apply keys_map_items|]. split; [exact Hget|].
  intros Hgap k g Hg Htruthy. rewrite Hget.
  destruct (PyDict.get k (focused_pass w t log)) as [f|] eqn:Hf;
    [|rewrite Hg; reflexivity].
  exfalso.
  apply get_some_key in Hf. apply Hgap in Hf.
  apply missing_fields_spec in Hf.
  unfold is_missing in Hf. rewrite Hg, Htruthy in Hf. discriminate.
Qed.

(** A session whose GENERAL reply has a vendor name and an empty invoice
    number, and whose FOCUSED reply has the invoice number only. *)
Definition gap_oracle (n : nat) (c : OracleCall) : Result Reply :=
  match c with
  | SimpleCall (GeneralPrompt _) =>
      Ok (ReplyJson
            [ ("vendor_name", EntryDict (Some "Globex Ltd") (ConfNumber 0.9) None);
              ("invoice_number", EntryDict (Some "") (ConfNumber 0.5) None) ])
  | SimpleCall (FocusedPrompt _) =>
      Ok (ReplyJson
            [ ("invoice_number", EntryDict (Some "INV-2025-001") (ConfNumber 0.9) None) ])
  | _ => Ok (ReplyText "")
  end.

Definition gap_world : World :=
  mkWorld true true gap_oracle (fun _ => 0%Z) (INVOICE, 0.95).

Lemma merge_focused_takes_precedence_witness :
  exists merged,
    fst (_multi_pass_extraction gap_world INVOICE None []) = Ok merged
    /\ PyDict.get "invoice_number" merged
       = Some (mkField "INV-2025-001" 0.9 HIGH None (Some "INV-2025-001") [])
    /\ PyDict.get "vendor_name" merged = Some globex.
Proof.
  destruct (merge_focused_takes_precedence gap_world INVOICE [] eq_refl)
    as [merged [Hrun [_ [Hget Hgap]]]].
  assert (Hkeys : forall k',
             In k' (PyDict.keys (focused_pass gap_world INVOICE [])) ->
             In k' (missing_fields INVOICE (general_pass gap_world INVOICE []))).
  { intros k' Hk'. vm_compute in Hk'. destruct Hk' as [<-|[]]. vm_compute. tauto. }
  assert (Hgap' := Hgap Hkeys).
  exists merged. split; [exact Hrun|]. split.
  - rewrite Hget. vm_compute. reflexivity.
  - rewrite (Hgap' "vendor_name" globex); [|vm_compute; reflexivity..].
    vm_compute. reflexivity.
Defined.

End Merge.


(** ** Failures of the oracle and of the session *)

Section Failures.
Import Production.


















End Failures.

(** ** Confidence calibration *)

Section Calibration.
Import Production.

Lemma Qmin_cases (a b : Q) :
  (a <= b /\ Qmin a b = a) \/ (b < a /\ Qmin a b = b).
Proof.
  unfold Qmin. destruct (Qleb a b) eqn:E.
  - left. split; [apply Qleb_true; exact E|reflexivity].
  - right. split; [apply Qleb_false; exact E|reflexivity].
Qed.

Lemma Qmax_cases (a b : Q) :
  (a <= b /\ Qmax a b = b) \/ (b < a /\ Qmax a b = a).
Proof.
  unfold Qmax. destruct (Qleb a b) eqn:E.
  - left. split; [apply Qleb_true; exact E|reflexivity].
  - right. split; [apply Qleb_false; exact E|reflexivity].
Qed.

Lemma Qmin_compat (a a' b b' : Q) : a == a' -> b == b' -> Qmin a b == Qmin a' b'.
Proof.
  intros Ha Hb.
  destruct (Qmin_cases a b) as [[H ->]|[H ->]];
    destruct (Qmin_cases a' b') as [[H' ->]|[H' ->]]; lra.
Qed.

Lemma Qmax_compat (a a' b b' : Q) : a == a' -> b == b' -> Qmax a b == Qmax a' b'.
Proof.
  intros Ha Hb.
  destruct (Qmax_cases a b) as [[H ->]|[H ->]];
    destruct (Qmax_cases a' b') as [[H' ->]|[H' ->]]; lra.
Qed.

(** The four steps of the calibrator, one function each. *)
Definition mode_factor (accuracy_mode : string) : Q :=
  if String.eqb accuracy_mode "high" then 0.95
  else if String.eqb accuracy_mode "fast" then 0.90
  else 1.0.

Definition step_mode (accuracy_mode : string) (c : Q) : Q :=
  c * mode_factor accuracy_mode.

Definition capped_boost (c : Q) : Q := Qmin 0.98 (c * 1.05).

(** Step 2 as the specification words it: the name matches a critical
    pattern and the confidence after step 1 exceeds 0.8. *)
Definition step_boost_claimed (field_name : string) (after_step1 : Q) : Q :=
  if PyStr.any_in critical_field_patterns (PyStr.lower field_name)
     && Qltb 0.8 after_step1
  then capped_boost after_step1 else after_step1.

(** Step 2 as the code has it: the name is one of three and the confidence
    before step 1 exceeds 0.8. *)
Definition step_boost (field_name : string) (before_step1 after_step1 : Q) : Q :=
  if PyStr.mem field_name ["total_amount"; "invoice_number"; "vendor_name"]
     && Qltb 0.8 before_step1
  then capped_boost after_step1 else after_step1.

Definition step_penalty (errs : list ValidationError) (c : Q) : Q :=
  match errs with
  | [] => c
  | _ => c * 0.7
  end.

Definition step_clamp (c : Q) : Q := Qmax 0 (Qmin 1 c).

Definition claimed_confidence (accuracy_mode field_name : string)
    (field : ExtractedField) : Q :=
  step_clamp
    (step_penalty (validation_errors field)
       (step_boost_claimed field_name (step_mode accuracy_mode (confidence field)))).

Definition calibrated_confidence (accuracy_mode field_name : string)
    (field : ExtractedField) : Q :=
  step_clamp
    (step_penalty (validation_errors field)
       (step_boost field_name (confidence field)
          (step_mode accuracy_mode (confidence field)))).

Definition due_date_090 : ExtractedField :=
  mkField "2025-07-18" 0.9 HIGH None (Some "2025-07-18") [].

Definition total_amount_085 : ExtractedField :=
  mkField "$1,234.56" 0.85 MEDIUM None (Some "$1,234.56") [].

(** C5, as stated, fails in step 2: a due date at 0.9 in balanced mode is
    not boosted by the code (0.9, claimed 0.945), and a total amount at
    0.85 in fast mode is boosted although step 1 brings it down to 0.765
    (0.80325, claimed 0.765). *)
Lemma calibration_boost_differs :
  confidence (calibrate_field "balanced" "due_date" due_date_090) == 0.9
  /\ claimed_confidence "balanced" "due_date" due_date_090 == 0.945
  /\ confidence (calibrate_field "fast" "total_amount" total_amount_085) == 0.80325
  /\ claimed_confidence "fast" "total_amount" total_amount_085 == 0.765
  /\ ~ (forall (accuracy_mode field_name : string) (field : ExtractedField),
          confidence (calibrate_field accuracy_mode field_name field)
          == claimed_confidence accuracy_mode field_name field).
Proof.
  split; [|split; [|split; [|split]]].
  - vm_compute. reflexivity.
  - vm_compute. reflexivity.
  - vm_compute. reflexivity.
  - vm_compute. reflexivity.
  - intros H. specialize (H "balanced" "due_date" due_date_090).
    vm_compute in H. discriminate H.
Qed.

Lemma step_clamp_range (c : Q) : 0 <= step_clamp c <= 1.
Proof.
  unfold step_clamp.
  destruct (Qmin_cases 1 c) as [[H1 ->]|[H1 ->]];
    destruct (Qmax_cases 0 1) as [[H2 E2]|[H2 E2]];
    destruct (Qmax_cases 0 c) as [[H3 E3]|[H3 E3]];
    try rewrite E2; try rewrite E3; lra.
Qed.

(** C5, amended.  The calibrator (1) multiplies by the mode factor (high
    0.95, fast 0.90, balanced and any other mode 1.0); (2) if the field
    name is exactly total_amount, invoice_number or vendor_name and the
    confidence before step 1 exceeds 0.8, multiplies by 1.05, capped at
    0.98; (3) if validation_errors is non-empty, multiplies by 0.7; (4)
    clamps to [0,1] and recomputes confidence_level, leaving the rest of
    the field as it was. *)
Theorem calibrate_field_steps
    (accuracy_mode field_name : string) (field : ExtractedField) :
  let r := calibrate_field accuracy_mode field_name field in
  confidence r == calibrated_confidence accuracy_mode field_name field
  /\ confidence_level r = _get_confidence_level (confidence r)
  /\ 0 <= confidence r <= 1
  /\ value r = value field
  /\ location r = location field
  /\ original_text r = original_text field
  /\ validation_errors r = validation_errors field
  /\ mode_factor "high" == 0.95
  /\ mode_factor "balanced" == 1
  /\ mode_factor "fast" == 0.90.
Proof.
  cbv zeta.
  assert (Hconf : confidence (calibrate_field accuracy_mode field_name field)
                  == calibrated_confidence accuracy_mode field_name field).
  { unfold calibrate_field, calibrated_confidence, step_clamp, step_penalty,
      step_boost, step_mode, mode_factor, capped_boost, boosted_fields.
    cbn [confidence].
    set (c := confidence field).
    destruct (String.eqb accuracy_mode "high");
      [|destruct (String.eqb accuracy_mode "fast")];
      destruct (PyStr.mem field_name ["total_amount"; "invoice_number"; "vendor_name"]);
      destruct (Qltb 0.8 c); cbn [andb];
      destruct (validation_errors field); try reflexivity.
    all: repeat first
           [ reflexivity | ring
           | apply Qmax_compat | apply Qmin_compat | apply Qmult_comp ]. }
  split; [exact Hconf|].
  split; [reflexivity|].
  split.
  { rewrite Hconf. unfold calibrated_confidence. apply step_clamp_range. }
  repeat split; reflexivity.
Qed.

End Calibration.

(** ** Invoice arithmetic *)

Section InvoiceMath.
Import EnhancedGemini.

Lemma keys_set_present {V : Type} (k : string) (v v' : V) (d : PyDict.dict V) :
  PyDict.get k d = Some v' ->
  PyDict.keys (PyDict.set k v d) = PyDict.keys d.
Proof.
  induction d as [|[k0 v0] d IH]; simpl; [discriminate|].
  destruct (String.eqb k k0) eqn:E; intros H; simpl.
  - reflexivity.
  - f_equal. apply IH. exact H.
Qed.


(** The three numbers of the check, when all three are there. *)
Definition invoice_numbers (fields : Fields)
    : option (PrimFloat.float * PrimFloat.float * PrimFloat.float) :=
  match _extract_numeric_value (PyDict.get "subtotal" fields),
        _extract_numeric_value (PyDict.get "tax_amount" fields),
        _extract_numeric_value (PyDict.get "total_amount" fields) with
  | Some subtotal, Some tax_amount, Some total => Some (subtotal, tax_amount, total)
  | _, _, _ => None
  end.







Definition invoice_example (subtotal tax_amount total : string) : Fields :=
  [ ("subtotal", mkField subtotal 0.90 HIGH None None []);
    ("tax_amount", mkField tax_amount 0.88 MEDIUM None None []);
    ("total_amount", mkField total 0.95 HIGH None None []) ].




End InvoiceMath.

(** ** Validating twice *)

Section Idempotence.
Import Production.



Definition accepts_any_date (s : string) : bool := true.

Definition phone_field : ExtractedField :=
  mkField "+1 (555) 123-4567" 0.90 HIGH None (Some "+1 (555) 123-4567") [].


Lemma validate_field_valid (t : DocumentType) (field_name : string)
    (field : ExtractedField) :
  validation_errors (validate_field t field_name field) = [] ->
  validate_field t field_name field
  = mkField (value field) (confidence field)
      (_get_confidence_level (confidence field))
      (location field) (original_text field) [].
Proof.
  unfold validate_field. cbn [validation_errors]. intros ->.
  cbn [_auto_correct_field]. rewrite String.eqb_refl. reflexivity.
Qed.


Definition relevel (g : ExtractedField) : ExtractedField :=
  mkField (value g) (confidence g) (_get_confidence_level (confidence g))
    (location g) (original_text g) (validation_errors g).










(** The validator [validate_extraction] applies to a field of this name. *)
Definition validator_for (date_parses : string -> bool) (field_name : string)
    : ExtractedField -> ExtractedField :=
  let name := PyStr.lower field_name in
  if PyStr.contains "date" name then Gemini._validate_date_field date_parses
  else if PyStr.any_in ["amount"; "total"; "price"] name then Gemini._validate_amount_field
  else if PyStr.contains "email" name then Gemini._validate_email_field
  else if PyStr.contains "phone" name then Gemini._validate_phone_field
  else fun field => field.

Lemma validate_extraction_field_relevel (date_parses : string -> bool)
    (field_name : string) (field : ExtractedField) :
  Gemini.validate_extraction_field date_parses field_name field
  = relevel (validator_for date_parses field_name field).
Proof.
  unfold Gemini.validate_extraction_field, validator_for, relevel. cbv zeta.
  destruct (PyStr.contains "date" (PyStr.lower field_name)); [reflexivity|].
  destruct (PyStr.any_in ["amount"; "total"; "price"] (PyStr.lower field_name));
    [reflexivity|].
  destruct (PyStr.contains "email" (PyStr.lower field_name)); [reflexivity|].
  destruct (PyStr.contains "phone" (PyStr.lower field_name)); reflexivity.
Qed.

(** On a text the validation stage on values of any kind is the stage
    on texts. *)
Lemma validate_field_of_text (t : DocumentType) (field_name : string)
    (field : ExtractedField) :
  ProductionValues.validate_field t field_name (ProductionValues.of_text field)
  = validate_field t field_name field.
Proof. reflexivity. Qed.






Definition null_total : ProductionValues.ValueField :=
  ProductionValues.mkValueField ProductionValues.VNone 0.9 HIGH None None [].


End Idempotence.

(** ** The enhanced pipeline of the enterprise service *)

Section EnhancedPipeline.
Import Enterprise.

(** The call made by [_process_with_enhanced_pipeline] never binds:
    [accuracy_mode] is no parameter of [process_document_enhanced]. *)
Lemma enhanced_call_raises {A : Type} (body : M A) (log : Log) :
  PyCall.call process_document_enhanced_signature 3 ["accuracy_mode"] body log
  = (Raise "TypeError", log).
Proof. reflexivity. Qed.

(** C10.  Whatever the OCR service and the body of
    [process_document_enhanced] do, the enhanced pipeline returns the
    fields of the standard pipeline, run once from the same state: the
    call with [accuracy_mode] raises, and the handler falls back. *)
Theorem enhanced_pipeline_is_standard
    (s : Service) (c : Collaborators) (w : World) (t : DocumentType)
    (quality_mode : string) (log : Log) :
  (forall body : M Fields,
      fst (PyCall.call process_document_enhanced_signature 3 ["accuracy_mode"] body log)
      = Raise "TypeError")
  /\ exists (fields : Fields) (ocr_results : OcrResults) (log' : Log),
       _process_with_standard_pipeline w t log = (Ok fields, log')
       /\ _process_with_enhanced_pipeline s c w t quality_mode log
          = (Ok (fields, ocr_results), log').
Proof.
  split; [reflexivity|].
  unfold _process_with_standard_pipeline.
  destruct (extract_fields_run w t log) as [fields Hfields].
  exists fields.
  unfold _process_with_enhanced_pipeline, try_M, enhanced_attempt,
    _process_with_standard_pipeline.
  destruct (enhanced_ocr s).
  - destruct (extract_text_with_layout c) as [ocr|e] eqn:Hocr.
    + erewrite bindM_ok by reflexivity.
      destruct (enhanced_gemini s).
      * erewrite bindM_raise by apply enhanced_call_raises.
        erewrite bindM_ok by exact Hfields.
        eexists. eexists. split; [exact Hfields|reflexivity].
      * erewrite bindM_ok by exact Hfields.
        eexists. eexists. split; [exact Hfields|reflexivity].
    + erewrite bindM_raise by reflexivity.
      erewrite bindM_ok by exact Hfields.
      eexists. eexists. split; [exact Hfields|reflexivity].
  - erewrite bindM_ok by reflexivity.
    destruct (enhanced_gemini s).
    + erewrite bindM_raise by apply enhanced_call_raises.
      erewrite bindM_ok by exact Hfields.
      eexists. eexists. split; [exact Hfields|reflexivity].
    + erewrite bindM_ok by exact Hfields.
      eexists. eexists. split; [exact Hfields|reflexivity].
Qed.

End EnhancedPipeline.

(** ** The grounding cascade *)

Section Cascade.
Import Universal.

Definition Strategy : Type :=
  string -> list TextBlock -> Z * Z -> Result (option FieldLocation).

(** The plausibility bounds of the specification. *)
Definition plausible_box (loc : FieldLocation) : bool :=
  Qleb 0 (loc_x loc) && Qleb (loc_x loc) 1
  && Qleb 0 (loc_y loc) && Qleb (loc_y loc) 1
  && Qleb (loc_width loc) 0.8 && Qleb (loc_height loc) 0.5
  && Qleb 0.01 (loc_width loc) && Qleb 0.005 (loc_height loc).

(** The strategies tried in order until one hits. *)
Fixpoint first_hit (ss : list Strategy) (v : string) (blocks : list TextBlock)
    (dims : Z * Z) : Result (option FieldLocation) :=
  match ss with
  | [] => Ok None
  | s :: rest =>
      location <- s v blocks dims ;;
      match location with
      | Some hit => Ok (Some hit)
      | None => first_hit rest v blocks dims
      end
  end.

(** The cascade as the specification words it: with no plausible hit in
    any strategy, the result is absent. *)
Definition claimed_cascade : Prop :=
  forall (ratio : string -> string -> Q) (v : string) (ocr_results : OcrResults),
    (forall (s : Strategy) (hit : FieldLocation),
        In s (strategies ratio) ->
        s (PyStr.strip v) (text_blocks ocr_results) (image_dimensions ocr_results)
        = Ok (Some hit) ->
        plausible_box hit = false) ->
    _find_field_location ratio v ocr_results = None.

Definition block_at (s : string) (left top right bottom : Z) : TextBlock :=
  mkBlock s 0.9 (mkBBox left top right bottom) 12 0.

(** A page of 1000 by 1200 pixels whose only block is a line across nine
    tenths of the width. *)
Definition wide_line_page : OcrResults :=
  mkOcr [block_at "TOTAL DUE" 50 40 950 80] (1000%Z, 1200%Z).

Definition no_similarity (a b : string) : Q := 0.

(** C3, as stated, fails: the exact strategy hits a box of width 0.9,
    beyond the bound 0.8, and the resolver returns it instead of rejecting
    it and going on; no strategy has a plausible hit on this page, yet the
    result is present. *)
Lemma implausible_hit_ends_cascade :
  ~ claimed_cascade
  /\ _find_exact_match "TOTAL DUE" (text_blocks wide_line_page)
       (image_dimensions wide_line_page)
     = Ok (Some (mkLocation (50 # 1000) (40 # 1200) (900 # 1000) (40 # 1200)))
  /\ plausible_box (mkLocation (50 # 1000) (40 # 1200) (900 # 1000) (40 # 1200)) = false
  /\ option_map loc_width (_find_field_location no_similarity "TOTAL DUE" wide_line_page)
     = Some (900 # 1000).
Proof.
  split; [|split; [|split]].
  - intros H.
    specialize (H no_similarity "TOTAL DUE" wide_line_page).
    assert (Hnone : _find_field_location no_similarity "TOTAL DUE" wide_line_page = None).
    { apply H. intros s hit Hin Hhit.
      simpl in Hin.
      destruct Hin as [<-|[<-|[<-|[<-|[<-|[]]]]]];
        vm_compute in Hhit; try discriminate Hhit;
        injection Hhit as <-; vm_compute; reflexivity. }
    vm_compute in Hnone. discriminate Hnone.
  - vm_compute. reflexivity.
  - vm_compute. reflexivity.
  - vm_compute. reflexivity.
Qed.

(** With the empty field name that the resolver passes, no keyword is
    searched, no better location is found, and the hit is refined. *)
Lemma improve_is_refine (ratio : string -> string -> Q) (field_value : string)
    (loc : FieldLocation) (ocr_results : OcrResults) :
  _improve_location_accuracy ratio "" field_value loc ocr_results
  = _refine_bounding_box loc field_value.
Proof.
  unfold _improve_location_accuracy.
  destruct (negb (_validate_location loc "" field_value)); reflexivity.
Qed.

Lemma cascade_is_first_hit (ratio : string -> string -> Q) (v : string)
    (ocr_results : OcrResults) :
  find_field_location_body ratio v ocr_results
  = match text_blocks ocr_results with
    | [] => Ok None
    | _ =>
        if negb (PyStr.truthy v) then Ok None
        else
          location <- first_hit (strategies ratio) (PyStr.strip v)
                        (text_blocks ocr_results) (image_dimensions ocr_results) ;;
          Ok (option_map (fun hit => _refine_bounding_box hit (PyStr.strip v)) location)
    end.
Proof.
  unfold find_field_location_body.
  destruct (text_blocks ocr_results) as [|block blocks] eqn:Hblocks; [reflexivity|].
  destruct (negb (PyStr.truthy v)); [reflexivity|].
  unfold strategies, first_hit.
  repeat match goal with
    | |- context [bind (?s ?a ?b ?c) _] =>
        destruct (s a b c) as [[hit|]|e]; cbn [bind option_map];
        try rewrite improve_is_refine; try reflexivity
    end.
Qed.

(** C3, amended.  The strategies are evaluated strictly in the order
    exact, fuzzy, partial, pattern, contextual, and the first one that
    produces a hit ends the cascade, whether or not the box of the hit is
    plausible: the hit is returned after box refinement, and no later
    strategy is evaluated.  The result is absent only when the block list
    or the value is empty, when no strategy hits, or when a hit cannot be
    normalised. *)
Theorem cascade_first_hit_wins
    (ratio : string -> string -> Q) (v : string) (ocr_results : OcrResults) :
  strategies ratio
  = [ _find_exact_match; _find_fuzzy_match ratio; _find_partial_match;
      _find_pattern_match; _find_contextual_match ]
  /\ _find_field_location ratio v ocr_results
     = match text_blocks ocr_results with
       | [] => None
       | _ =>
           if negb (PyStr.truthy v) then None
           else
             match first_hit (strategies ratio) (PyStr.strip v)
                     (text_blocks ocr_results) (image_dimensions ocr_results) with
             | Ok (Some hit) => Some (_refine_bounding_box hit (PyStr.strip v))
             | _ => None
             end
       end
  /\ (forall (hit : FieldLocation) (before after : list Strategy) (s : Strategy),
         text_blocks ocr_results <> [] ->
         PyStr.truthy v = true ->
         strategies ratio = (before ++ s :: after)%list ->
         (forall s', In s' before ->
                     s' (PyStr.strip v) (text_blocks ocr_results)
                        (image_dimensions ocr_results) = Ok None) ->
         s (PyStr.strip v) (text_blocks ocr_results) (image_dimensions ocr_results)
         = Ok (Some hit) ->
         _find_field_location ratio v ocr_results
         = Some (_refine_bounding_box hit (PyStr.strip v))).
Proof.
  assert (Hmain :
    _find_field_location ratio v ocr_results
    = match text_blocks ocr_results with
      | [] => None
      | _ =>
          if negb (PyStr.truthy v) then None
          else
            match first_hit (strategies ratio) (PyStr.strip v)
                    (text_blocks ocr_results) (image_dimensions ocr_results) with
            | Ok (Some hit) => Some (_refine_bounding_box hit (PyStr.strip v))
            | _ => None
            end
      end).
  { unfold _find_field_location. rewrite cascade_is_first_hit.
    destruct (text_blocks ocr_results); [reflexivity|].
    destruct (negb (PyStr.truthy v)); [reflexivity|].
    destruct (first_hit (strategies ratio) (PyStr.strip v) (t :: l)
                (image_dimensions ocr_results)) as [[hit|]|e]; reflexivity. }
  split; [reflexivity|]. split; [exact Hmain|].
  intros hit before after s Hblocks Hvalue Hsplit Hbefore Hhit.
  rewrite Hmain.
  destruct (text_blocks ocr_results) as [|b bs] eqn:Eblocks; [congruence|].
  rewrite Hvalue. cbn [negb].
  rewrite Hsplit. clear Hsplit Hmain.
  induction before as [|s' before IH]; cbn [first_hit app].
  - rewrite Hhit. reflexivity.
  - rewrite (Hbefore s' (or_introl eq_refl)). cbn [bind].
    apply IH. intros s'' Hin. apply Hbefore. right. exact Hin.
Qed.

(** The page of the specification's example: the block at (100,200) to
    (300,220) on an image of 1000 by 1200. *)
Definition invoice_page : OcrResults :=
  mkOcr [ block_at "Invoice" 100 50 300 80;
          block_at "INV-2025-001" 100 200 300 220 ] (1000%Z, 1200%Z).

Lemma cascade_first_hit_wins_witness :
  _find_field_location no_similarity "INV-2025-001" invoice_page
  = Some (_refine_bounding_box
            (mkLocation (100 # 1000) (200 # 1200) (200 # 1000) (20 # 1200))
            "INV-2025-001").
Proof.
  destruct (cascade_first_hit_wins no_similarity "INV-2025-001" invoice_page)
    as [_ [_ H]].
  apply (H _ [] (tl (strategies no_similarity)) _find_exact_match).
  - discriminate.
  - reflexivity.
  - reflexivity.
  - intros s' [].
  - vm_compute. reflexivity.
Defined.

End Cascade.

(** ** Bounds on locations *)

Section LocationBounds.
Import Universal Production.

Lemma Qfmod3_range (a : Q) : 0 <= Qfmod a 3 /\ Qfmod a 3 < 3.
Proof.
  unfold Qfmod.
  pose proof (Qfloor_le (a / 3)) as Hle.
  pose proof (Qlt_floor (a / 3)) as Hlt.
  rewrite inject_Z_plus in Hlt.
  assert (E : a == 3 * (a / 3)) by (field).
  change (inject_Z 1) with 1 in Hlt.
  split; lra.
Qed.

Lemma Q_of_nat_le (i n : nat) : (i <= n)%nat -> Q_of_nat i <= Q_of_nat n.
Proof.
  intros H. unfold Q_of_nat. rewrite <- Zle_Qle. lia.
Qed.

Lemma Q_of_nat_lt (i n : nat) : (i < n)%nat -> Q_of_nat i < Q_of_nat n.
Proof.
  intros H. unfold Q_of_nat. rewrite <- Zlt_Qlt. lia.
Qed.

Lemma Q_of_nat_nonneg (i : nat) : 0 <= Q_of_nat i.
Proof. apply (Q_of_nat_le 0 i). lia. Qed.

(** The simulated location of the [i]-th of [n] fields. *)
Lemma simulated_location_bounds (w : World) (i n : nat) (field_name : string) :
  (i < n)%nat ->
  let loc := simulated_location w i n field_name in
  (loc_x loc == 0.1 \/ loc_x loc == 0.9)
  /\ 0.1 <= loc_y loc /\ loc_y loc < 0.9
  /\ loc_height loc == 0.05
  /\ 0.3 <= loc_width loc /\ loc_width loc < 1.3.
Proof.
  intros Hi. unfold simulated_location. cbn [loc_x loc_y loc_width loc_height].
  split; [|split; [|split; [|split; [|split]]]].
  - destruct (Nat.mod_bound_pos i 2) as [_ Hm]; [lia|lia|].
    destruct (i mod 2)%nat as [|[|k]]; [left|right|lia].
    + change (Q_of_nat 0) with 0. lra.
    + change (Q_of_nat 1) with 1. lra.
  - pose proof (Q_of_nat_nonneg i) as H0.
    pose proof (Q_of_nat_lt i n Hi) as H1.
    assert (Hn : 0 < Q_of_nat n) by lra.
    assert (Hq : 0 <= 0.8 * Q_of_nat i / Q_of_nat n).
    { apply Qle_shift_div_l; [exact Hn|]. lra. }
    lra.
  - pose proof (Q_of_nat_nonneg i) as H0.
    pose proof (Q_of_nat_lt i n Hi) as H1.
    assert (Hn : 0 < Q_of_nat n) by lra.
    assert (Hq : 0.8 * Q_of_nat i / Q_of_nat n < 0.8).
    { apply Qlt_shift_div_r; [exact Hn|]. lra. }
    lra.
  - reflexivity.
  - destruct (Qfmod3_range (0.2 * inject_Z (py_hash w field_name))) as [H0 H3].
    assert (Hq : 0 <= Qfmod (0.2 * inject_Z (py_hash w field_name)) 3 / 3).
    { apply Qle_shift_div_l; lra. }
    lra.
  - destruct (Qfmod3_range (0.2 * inject_Z (py_hash w field_name))) as [H0 H3].
    assert (Hq : Qfmod (0.2 * inject_Z (py_hash w field_name)) 3 / 3 < 1).
    { apply Qlt_shift_div_r; lra. }
    lra.
Qed.

Ltac bool_to_prop :=
  repeat match goal with
    | H : context [Qleb ?a ?b] |- _ =>
        let E := fresh "E" in
        destruct (Qleb a b) eqn:E;
        [apply Qleb_true in E | apply Qleb_false in E]
    | H : context [Qltb ?a ?b] |- _ =>
        let E := fresh "E" in
        destruct (Qltb a b) eqn:E;
        [apply Qltb_true in E | apply Qltb_false in E]
    end.

Lemma Qeq_bool_false (a b : Q) : ~ a == b -> Qeq_bool a b = false.
Proof.
  intros H. destruct (Qeq_bool a b) eqn:E; [|reflexivity].
  apply Qeq_bool_iff in E. contradiction.
Qed.

(** What [_validate_location] checks of a box with width and height. *)
Lemma validate_location_bounds (loc : FieldLocation) (field_name field_value : string) :
  ~ loc_width loc == 0 -> ~ loc_height loc == 0 ->
  _validate_location loc field_name field_value = true ->
  0 <= loc_x loc <= 1 /\ 0 <= loc_y loc <= 1
  /\ 0.01 <= loc_width loc <= 0.8 /\ 0.005 <= loc_height loc <= 0.5.
Proof.
  intros Hw Hh H. unfold _validate_location in H.
  rewrite (Qeq_bool_false _ _ Hw), (Qeq_bool_false _ _ Hh) in H.
  cbn [negb andb] in H.
  bool_to_prop; cbn [negb andb orb] in H; try discriminate H.
  repeat split; assumption.
Qed.

Lemma plausible_box_intro (x y w h : Q) :
  0 <= x <= 1 -> 0 <= y <= 1 -> 0.01 <= w <= 0.8 -> 0.005 <= h <= 0.5 ->
  plausible_box (mkLocation x y w h) = true.
Proof.
  intros [Hx0 Hx1] [Hy0 Hy1] [Hw0 Hw1] [Hh0 Hh1].
  unfold plausible_box. cbn [loc_x loc_y loc_width loc_height].
  repeat (apply andb_true_intro; split); apply Qleb_true; assumption.
Qed.

Lemma refine_keeps_plausible (loc : FieldLocation) (field_name field_value : string) :
  ~ loc_width loc == 0 -> ~ loc_height loc == 0 ->
  _validate_location loc field_name field_value = true ->
  (String.length field_value <= 100)%nat ->
  plausible_box (_refine_bounding_box loc field_value) = true
  /\ 0.02 <= loc_width (_refine_bounding_box loc field_value)
  /\ 0.015 <= loc_height (_refine_bounding_box loc field_value).
Proof.
  intros Hw Hh Hvalid Hlen.
  destruct (validate_location_bounds loc field_name field_value Hw Hh Hvalid)
    as [[Hx0 Hx1] [[Hy0 Hy1] [[Hw0 Hw1] [Hh0 Hh1]]]].
  unfold _refine_bounding_box.
  rewrite (Qeq_bool_false _ _ Hw), (Qeq_bool_false _ _ Hh). cbn [negb andb].
  pose proof (Q_of_nat_le _ _ Hlen) as Hq.
  pose proof (Q_of_nat_nonneg (String.length field_value)) as Hq0.
  change (Q_of_nat 100) with 100 in Hq.
  set (len := Q_of_nat (String.length field_value)) in *.
  destruct (Qmax_cases 0.02 (len * 0.008)) as [[Hm Em]|[Hm Em]]; rewrite Em;
    destruct (Qmax_cases (loc_width loc) (len * 0.008)) as [[Hm1 Em1]|[Hm1 Em1]];
    destruct (Qmax_cases (loc_width loc) 0.02) as [[Hm2 Em2]|[Hm2 Em2]];
    try rewrite Em1; try rewrite Em2;
    destruct (Qmax_cases (loc_height loc) 0.015) as [[Hm3 Em3]|[Hm3 Em3]]; rewrite Em3;
    cbn [loc_width loc_height];
    (split; [|split; lra]);
    apply plausible_box_intro;
    repeat match goal with
      | |- context [Qmin ?a ?b] =>
          let H := fresh in let E := fresh in
          destruct (Qmin_cases a b) as [[H E]|[H E]]; rewrite E
      end; lra.
Qed.

Lemma in_enumerate {A : Type} (l : list A) (i : nat) (x : A) :
  In (i, x) (enumerate l) -> (i < List.length l)%nat.
Proof.
  unfold enumerate. intros H. apply in_combine_l in H.
  apply in_seq in H. lia.
Qed.

(** The model of the location invariant of the specification. *)
Definition claimed_location_invariant : Prop :=
  (forall (ratio : string -> string -> Q) (v : string) (ocr_results : OcrResults)
          (loc : FieldLocation),
      _find_field_location ratio v ocr_results = Some loc ->
      plausible_box loc = true)
  /\ (forall (w : World) (fields : Fields) (field_name : string)
             (field : ExtractedField) (loc : FieldLocation),
         In (field_name, field) (_add_spatial_coordinates w fields) ->
         location field = Some loc ->
         plausible_box loc = true).

(** A process in which every field name hashes to 10. *)
Definition hash10_world : World :=
  mkWorld false true (fun _ _ => Raise "unused") (fun _ => 10%Z) (INVOICE, 0.85).

Definition field_location (k : string) (d : Fields) : option FieldLocation :=
  match PyDict.get k d with
  | Some f => location f
  | None => None
  end.

(** C8, as stated, fails: the resolver returns a box of width 0.9 for the
    line across the page, and the production service attaches to every
    field a simulated box whose width, derived from the hash of the name,
    can reach 0.9667, here at x = 0.9. *)
Lemma implausible_locations_reach_fields :
  ~ claimed_location_invariant
  /\ option_map plausible_box
       (_find_field_location no_similarity "TOTAL DUE" wide_line_page) = Some false
  /\ option_map plausible_box
       (field_location "invoice_number"
          (session_fields hash10_world INVOICE None "high")) = Some false
  /\ option_map (fun loc => (Qred (loc_x loc), Qred (loc_width loc)))
       (field_location "invoice_number"
          (session_fields hash10_world INVOICE None "high"))
     = Some (9 # 10, 29 # 30).
Proof.
  split; [|split; [|split]].
  - intros [H _].
    destruct (_find_field_location no_similarity "TOTAL DUE" wide_line_page)
      as [loc|] eqn:E; [|vm_compute in E; discriminate E].
    specialize (H no_similarity "TOTAL DUE" wide_line_page loc E).
    vm_compute in E. injection E as <-.
    vm_compute in H. discriminate H.
  - vm_compute. reflexivity.
  - vm_compute. reflexivity.
  - vm_compute. reflexivity.
Qed.

(** C8, amended.  A hit that passes [_validate_location] with non-zero
    width and height, for a value of at most 100 characters, leaves
    [_refine_bounding_box] within all the plausibility bounds, with width
    at least 0.02 and height at least 0.015.  A location attached by
    [_add_spatial_coordinates] is simulated for every field and satisfies
    0 <= x <= 1 and 0 <= y <= 1, with height 0.05 and width at least
    0.3. *)
Theorem location_bounds :
  (forall (loc : FieldLocation) (field_name field_value : string),
      ~ loc_width loc == 0 -> ~ loc_height loc == 0 ->
      _validate_location loc field_name field_value = true ->
      (String.length field_value <= 100)%nat ->
      plausible_box (_refine_bounding_box loc field_value) = true
      /\ 0.02 <= loc_width (_refine_bounding_box loc field_value)
      /\ 0.015 <= loc_height (_refine_bounding_box loc field_value))
  /\ (forall (w : World) (fields : Fields) (field_name : string)
             (field : ExtractedField),
         In (field_name, field) (_add_spatial_coordinates w fields) ->
         exists loc,
           location field = Some loc
           /\ 0 <= loc_x loc <= 1 /\ 0 <= loc_y loc <= 1
           /\ loc_height loc == 0.05 /\ 0.3 <= loc_width loc)
  /\ (forall (w : World) (fields : Fields),
         PyDict.keys (_add_spatial_coordinates w fields) = PyDict.keys fields).
Proof.
  split; [exact refine_keeps_plausible|]. split.
  - intros w fields field_name field Hin.
    unfold _add_spatial_coordinates in Hin. apply in_map_iff in Hin.
    destruct Hin as [[i [name f]] [Heq Hin]].
    injection Heq as <- <-.
    apply in_enumerate in Hin.
    destruct (simulated_location_bounds w i (List.length fields) name Hin)
      as [Hx [Hy0 [Hy1 [Hh [Hw0 _]]]]].
    eexists. split; [reflexivity|].
    repeat split; try assumption; try lra; destruct Hx; lra.
  - intros w fields. unfold _add_spatial_coordinates, PyDict.keys, enumerate.
    rewrite map_map.
    assert (Hgen : forall (start : nat) (l : Fields),
               map (fun x : nat * (string * ExtractedField) =>
                      fst (let '(i, (field_name, field)) := x in
                           (field_name,
                            mkField (value field) (confidence field)
                              (confidence_level field)
                              (Some (simulated_location w i (List.length fields) field_name))
                              (original_text field) (validation_errors field))))
                   (combine (seq start (List.length l)) l)
               = map fst l).
    { intros start l. revert start.
      induction l as [|[k f] l IH]; intros start; [reflexivity|].
      simpl. f_equal. apply IH. }
    apply Hgen.
Qed.

Lemma location_bounds_witness :
  plausible_box
    (_refine_bounding_box
       (mkLocation (100 # 1000) (200 # 1200) (200 # 1000) (20 # 1200))
       "INV-2025-001") = true
  /\ exists loc,
       location (mkField "x" 0.9 HIGH
                   (Some (simulated_location mock_world 0 1 "notes")) None [])
       = Some loc
       /\ 0 <= loc_x loc <= 1.
Proof.
  destruct location_bounds as [H1 [H2 _]].
  split.
  - apply (H1 _ "invoice_number" "INV-2025-001").
    + vm_compute. discriminate.
    + vm_compute. discriminate.
    + vm_compute. reflexivity.
    + simpl. lia.
  - destruct (H2 mock_world [("notes", mkField "x" 0.9 HIGH None None [])] "notes"
                (mkField "x" 0.9 HIGH
                   (Some (simulated_location mock_world 0 1 "notes")) None []))
      as [loc [Hloc [Hx _]]].
    + left. reflexivity.
    + exists loc. split; assumption.
Defined.

End LocationBounds.

(** * Further properties of the services *)

From Stdlib Require Import Sorted Permutation.

(** ** Replies of the oracle *)

Section Parsing.
Import Production.

(** What every stage keeps of a field: a confidence in [0,1] and the
    level of that confidence. *)
Definition in_unit_range (f : ExtractedField) : Prop :=
  0 <= confidence f <= 1.

Definition level_consistent (f : ExtractedField) : Prop :=
  confidence_level f = _get_confidence_level (confidence f).

(** A candidate as a pass yields it. *)
Definition fresh_candidate (f : ExtractedField) : Prop :=
  in_unit_range f /\ level_consistent f
  /\ location f = None /\ validation_errors f = [].

Lemma new_ExtractedField_ok (v : string) (c : Q) (lvl : ConfidenceLevel)
    (loc : option FieldLocation) (orig : option string)
    (errs : list ValidationError) (f : ExtractedField) :
  new_ExtractedField v c lvl loc orig errs = Ok f ->
  f = mkField v c lvl loc orig errs /\ 0 <= c <= 1.
Proof.
  unfold new_ExtractedField.
  destruct (Qleb 0 c) eqn:E0; [|discriminate].
  destruct (Qleb c 1) eqn:E1; [|discriminate].
  cbn [andb]. intros H. injection H as <-.
  apply Qleb_true in E0. apply Qleb_true in E1. auto.
Qed.

Lemma parse_entry_raise (items : list (string * RawEntry)) (e : string) :
  fold_left parse_entry items (Raise e) = Raise e.
Proof.
  induction items as [|item items IH]; simpl; [reflexivity|exact IH].
Qed.

(** The loop of [_parse_enhanced_response] keeps: unique names, names of
    the reply, fresh candidates. *)
Definition parse_invariant (names : list string) (d : Fields) : Prop :=
  PyDict.wf d
  /\ forall k f, In (k, f) d -> In k names /\ fresh_candidate f.

Lemma parse_entry_invariant (names : list string) (d d' : Fields)
    (item : string * RawEntry) :
  parse_invariant names d ->
  In (fst item) names ->
  parse_entry (Ok d) item = Ok d' ->
  parse_invariant names d'.
Proof.
  intros [Hwf Hall] Hname. unfold parse_entry. cbn [bind].
  destruct (snd item) as [[v|] c orig|s]; try (intros H; injection H as <-; split; assumption).
  destruct (float_of_confidence c) as [conf|e]; cbn [bind]; [|discriminate].
  destruct (new_ExtractedField v conf (_get_confidence_level conf) None
              (Some match orig with Some o => o | None => v end) []) as [f|e] eqn:Ef;
    cbn [bind]; [|discriminate].
  intros H. injection H as <-.
  apply new_ExtractedField_ok in Ef. destruct Ef as [-> Hrange].
  split; [apply set_wf; exact Hwf|].
  intros k f Hin. apply in_set in Hin. destruct Hin as [[-> ->]|Hin].
  - split; [exact Hname|]. repeat split; try reflexivity; apply Hrange.
  - apply Hall. exact Hin.
Qed.

Lemma parse_loop_invariant (names : list string) (items : list (string * RawEntry))
    (d d' : Fields) :
  parse_invariant names d ->
  (forall item, In item items -> In (fst item) names) ->
  fold_left parse_entry items (Ok d) = Ok d' ->
  parse_invariant names d'.
Proof.
  revert d. induction items as [|item items IH]; intros d Hinv Hnames;
    cbn [fold_left].
  - intros H. injection H as <-. exact Hinv.
  - destruct (parse_entry (Ok d) item) as [d1|e] eqn:E.
    + apply IH.
      * apply (parse_entry_invariant names d d1 item Hinv); [|exact E].
        apply Hnames. left. reflexivity.
      * intros item' Hin. apply Hnames. right. exact Hin.
    + rewrite parse_entry_raise. discriminate.
Qed.

Definition reply_names (response : Reply) : list string :=
  match response with
  | ReplyJson data => PyDict.keys data
  | ReplyText _ => []
  | ReplyValue _ => []
  end.

(** X1.  Whatever the oracle replies, the candidate set parsed from it has
    pairwise distinct names, all of them names of the reply, and each
    candidate has a confidence in [0,1], the level of that confidence, no
    location and no validation error. *)
Theorem parsed_candidates_wellformed (response : Reply) :
  PyDict.wf (_parse_enhanced_response response)
  /\ forall k f,
       In (k, f) (_parse_enhanced_response response) ->
       In k (reply_names response) /\ fresh_candidate f.
Proof.
  assert (Hempty : parse_invariant (reply_names response) []).
  { split; [constructor|]. intros k f []. }
  unfold _parse_enhanced_response.
  destruct response as [data|body|truthy]; [|exact Hempty..].
  destruct (fold_left parse_entry data (Ok [])) as [d|e] eqn:E; [|exact Hempty].
  cbn [try_except].
  apply (parse_loop_invariant (PyDict.keys data) data [] d); [exact Hempty| |exact E].
  intros item Hin. apply in_map. exact Hin.
Qed.

Lemma parsed_candidates_wellformed_witness :
  fresh_candidate (mkField "ACME Corporation" 0.95 HIGH None (Some "ACME Corporation") []).
Proof.
  destruct (parsed_candidates_wellformed (ReplyJson Gemini.mock_simple_json)) as [_ H].
  apply (H "vendor_name"). left. reflexivity.
Defined.

(** A confidence that [float] rejects or that lies outside [0,1]. *)
Definition bad_confidence (c : RawConfidence) : Prop :=
  match c with
  | ConfAbsent => False
  | ConfNumber q => q < 0 \/ 1 < q
  | ConfInvalid => True
  end.

Lemma parse_entry_bad (d : Fields) (k v : string) (c : RawConfidence)
    (orig : option string) :
  bad_confidence c ->
  exists e, parse_entry (Ok d) (k, EntryDict (Some v) c orig) = Raise e.
Proof.
  intros Hbad. unfold parse_entry. cbn [bind snd fst].
  destruct c as [|q|]; cbn [float_of_confidence bind].
  - destruct Hbad.
  - unfold new_ExtractedField.
    destruct Hbad as [H|H].
    + apply Qleb_false in H. rewrite H. cbn [andb bind]. eexists. reflexivity.
    + apply Qleb_false in H. rewrite H, andb_false_r. cbn [bind].
      eexists. reflexivity.
  - eexists. reflexivity.
Qed.

(** X2.  One entry with a value and a confidence that is not a number, or
    is outside [0,1], empties the whole candidate set of its reply: the
    entries around it are dropped with it. *)
Theorem bad_confidence_drops_reply
    (before after : PyDict.dict RawEntry) (k v : string) (c : RawConfidence)
    (orig : option string) :
  bad_confidence c ->
  _parse_enhanced_response
    (ReplyJson (before ++ (k, EntryDict (Some v) c orig) :: after)%list) = [].
Proof.
  intros Hbad. unfold _parse_enhanced_response.
  rewrite fold_left_app. cbn [fold_left].
  destruct (fold_left parse_entry before (Ok [])) as [d|e].
  - destruct (parse_entry_bad d k v c orig Hbad) as [e ->].
    rewrite parse_entry_raise. reflexivity.
  - change (parse_entry (Raise e) (k, EntryDict (Some v) c orig)) with (@Raise Fields e).
    rewrite parse_entry_raise. reflexivity.
Qed.

Lemma bad_confidence_drops_reply_witness :
  _parse_enhanced_response
    (ReplyJson [ ("vendor_name", EntryDict (Some "ACME") (ConfNumber 0.9) None);
                 ("total_amount", EntryDict (Some "10.00") (ConfNumber 1.5) None);
                 ("invoice_date", EntryDict (Some "2025-01-01") ConfAbsent None) ])
  = [].
Proof.
  apply (bad_confidence_drops_reply
           [("vendor_name", EntryDict (Some "ACME") (ConfNumber 0.9) None)]
           [("invoice_date", EntryDict (Some "2025-01-01") ConfAbsent None)]
           "total_amount" "10.00" (ConfNumber 1.5) None).
  right. reflexivity.
Defined.

End Parsing.

(** ** The rule-based stages *)

Section Stages.
Import Production.

Lemma level_of_confidence (c : Q) :
  (_get_confidence_level c = HIGH <-> 0.9 <= c)
  /\ (_get_confidence_level c = MEDIUM <-> 0.7 <= c /\ c < 0.9)
  /\ (_get_confidence_level c = LOW <-> c < 0.7).
Proof.
  unfold _get_confidence_level.
  destruct (Qleb 0.9 c) eqn:E9; [apply Qleb_true in E9|apply Qleb_false in E9];
    (destruct (Qleb 0.7 c) eqn:E7; [apply Qleb_true in E7|apply Qleb_false in E7]);
    repeat split; intros; try discriminate; try lra; try tauto.
Qed.

(** One field through [_refine_extracted_fields] or
    [_validate_and_correct_fields]. *)
Definition stage_field_ok (f f' : ExtractedField) : Prop :=
  level_consistent f'
  /\ location f' = location f
  /\ original_text f' = original_text f
  /\ (0 <= confidence f -> 0 <= confidence f' <= confidence f)
  /\ (validation_errors f' = [] -> confidence f' = confidence f)
  /\ (List.length (validation_errors f') <= 1)%nat.

Lemma validate_content_length (field_name v : string) (t : DocumentType) :
  (List.length (_validate_field_content field_name v t) <= 1)%nat.
Proof.
  unfold _validate_field_content.
  repeat match goal with
    | |- context [if ?c then _ else _] => destruct c
    end; simpl; lia.
Qed.

Lemma refine_field_ok (t : DocumentType) (field_name : string) (f : ExtractedField) :
  stage_field_ok f (refine_field t field_name f).
Proof.
  unfold stage_field_ok, refine_field, level_consistent.
  cbn [confidence confidence_level location original_text validation_errors].
  pose proof (validate_content_length field_name
                (_clean_field_value field_name (value f)) t) as Hlen.
  destruct (_validate_field_content field_name
              (_clean_field_value field_name (value f)) t) as [|e errs].
  - repeat split; try reflexivity; try lra; exact Hlen.
  - repeat split; try reflexivity; try lra; try discriminate; exact Hlen.
Qed.

(** One field through [_validate_and_correct_fields], whose value may be
    of any kind: without an error the confidence of a text is kept, and
    that of a value that is not a text is multiplied by 0.9. *)
Definition validated_field_ok (g : ProductionValues.ValueField) (f' : ExtractedField)
    : Prop :=
  level_consistent f'
  /\ location f' = ProductionValues.field_location g
  /\ original_text f' = ProductionValues.field_original_text g
  /\ (0 <= ProductionValues.field_confidence g ->
      0 <= confidence f' <= ProductionValues.field_confidence g)
  /\ (validation_errors f' = [] ->
      value f' = ProductionValues.str (ProductionValues.field_value g)
      /\ confidence f'
         = if ProductionValues.is_text (ProductionValues.field_value g)
           then ProductionValues.field_confidence g
           else ProductionValues.field_confidence g * 0.9)
  /\ (List.length (validation_errors f') <= 1)%nat.

Lemma validate_value_length (field_name : string) (v : ProductionValues.PyValue)
    (t : DocumentType) :
  (List.length (ProductionValues._validate_field_content field_name v t) <= 1)%nat.
Proof.
  unfold ProductionValues._validate_field_content.
  repeat match goal with
    | |- context [if ?c then _ else _] => destruct c
    end; simpl; lia.
Qed.

Lemma validate_field_ok (t : DocumentType) (field_name : string)
    (g : ProductionValues.ValueField) :
  validated_field_ok g (ProductionValues.validate_field t field_name g).
Proof.
  unfold validated_field_ok, ProductionValues.validate_field, level_consistent.
  cbn [confidence confidence_level location original_text validation_errors value].
  pose proof (validate_value_length field_name (ProductionValues.field_value g) t)
    as Hlen.
  destruct (ProductionValues._validate_field_content field_name
              (ProductionValues.field_value g) t) as [|e errs].
  - cbn [ProductionValues._auto_correct_field].
    destruct (ProductionValues.field_value g) as [s|s truth];
      cbn [ProductionValues.differs ProductionValues.is_text ProductionValues.str];
      rewrite ?String.eqb_refl; cbn [negb];
      repeat split; try reflexivity; try lra; exact Hlen.
  - destruct (ProductionValues.differs _ _);
      repeat split; try reflexivity; try lra; try discriminate; exact Hlen.
Qed.

(** X3.  The refinement pass and the validation stage keep the names of
    the fields and their order, the location and the original text; they
    recompute the level from the confidence, never raise a confidence,
    keep a non-negative confidence non-negative, and record at most one
    error per field.  A field without an error keeps its confidence in
    the refinement pass; in the validation stage, where the value may be
    of any kind, it gets the [str()] of its value, and keeps its
    confidence when the value is a text and has it multiplied by 0.9
    otherwise. *)
Theorem stages_keep_fields (t : DocumentType) (fields : Fields)
    (given : PyDict.dict ProductionValues.ValueField) :
  let refined := PyDict.map_items (refine_field t) fields in
  let validated := PyDict.map_items (ProductionValues.validate_field t) given in
  PyDict.keys refined = PyDict.keys fields
  /\ PyDict.keys validated = PyDict.keys given
  /\ (forall k f', In (k, f') refined ->
        exists f, In (k, f) fields /\ stage_field_ok f f')
  /\ (forall k f', In (k, f') validated ->
        exists g, In (k, g) given /\ validated_field_ok g f').
Proof.
  cbv zeta. rewrite !keys_map_items.
  split; [reflexivity|]. split; [reflexivity|]. split.
  - intros k f' Hin. apply in_map_items in Hin. destruct Hin as [f [Hin ->]].
    exists f. split; [exact Hin|apply refine_field_ok].
  - intros k f' Hin. apply in_map_items in Hin. destruct Hin as [g [Hin ->]].
    exists g. split; [exact Hin|apply validate_field_ok].
Qed.

Lemma stages_keep_fields_witness :
  exists g,
    In ("total_amount", g) [("total_amount", null_total)]
    /\ validated_field_ok g
         (ProductionValues.validate_field INVOICE "total_amount" null_total).
Proof.
  destruct (stages_keep_fields INVOICE [] [("total_amount", null_total)])
    as [_ [_ [_ H]]].
  apply (H "total_amount"). left. reflexivity.
Defined.

(** X4.  Refinement followed by validation checks the cleaned value
    twice: both stages record the same errors; a field whose cleaned value
    is valid keeps its confidence and gets the cleaned value; a field whose
    cleaned value is invalid is penalised by both stages, its confidence
    multiplied by 0.7 and by 0.8; its value is the automatic correction of
    the cleaned value, and the confidence is multiplied by 0.9 more
    exactly when the correction differs from the cleaned value. *)
Theorem refine_then_validate
    (t : DocumentType) (field_name : string) (f : ExtractedField) :
  let r := refine_field t field_name f in
  let v := validate_field t field_name r in
  validation_errors v = validation_errors r
  /\ value r = _clean_field_value field_name (value f)
  /\ (validation_errors r = [] ->
      confidence v = confidence f
      /\ value v = value r)
  /\ (validation_errors r <> [] ->
      value v = _auto_correct_field field_name (value r) (validation_errors r)
      /\ confidence v
         = if String.eqb (value v) (value r)
           then confidence f * 0.7 * 0.8
           else confidence f * 0.7 * 0.8 * 0.9).
Proof.
  cbv zeta. unfold validate_field, refine_field.
  cbn [validation_errors value confidence].
  set (cleaned := _clean_field_value field_name (value f)).
  destruct (_validate_field_content field_name cleaned t) as [|e errs] eqn:E.
  - cbn [_auto_correct_field]. rewrite String.eqb_refl. cbn [negb].
    split; [reflexivity|]. split; [reflexivity|].
    split; [intros _; split; reflexivity|].
    intros H. contradiction H. reflexivity.
  - split; [reflexivity|]. split; [reflexivity|]. split; [discriminate|]. intros _.
    split; [reflexivity|].
    destruct (String.eqb (_auto_correct_field field_name cleaned (e :: errs)) cleaned);
      reflexivity.
Qed.

Definition garbled_total : ExtractedField :=
  mkField "n/a" 0.9 HIGH None (Some "n/a") [].

(** A date in which the separators were read as the letter o. *)
Definition garbled_date : ExtractedField :=
  mkField "12o05o2024" 0.9 HIGH None (Some "12o05o2024") [].

Lemma refine_then_validate_witness :
  confidence (validate_field INVOICE "total_amount"
                (refine_field INVOICE "total_amount" garbled_total))
  = 0.9 * 0.7 * 0.8
  /\ value (validate_field INVOICE "invoice_date"
              (refine_field INVOICE "invoice_date" garbled_date))
     = "12/05/2024"
  /\ confidence (validate_field INVOICE "invoice_date"
                   (refine_field INVOICE "invoice_date" garbled_date))
     = 0.9 * 0.7 * 0.8 * 0.9.
Proof.
  split; [|split].
  - destruct (refine_then_validate INVOICE "total_amount" garbled_total)
      as [_ [_ [_ H]]].
    destruct H as [_ H]; [vm_compute; discriminate|].
    rewrite H. reflexivity.
  - destruct (refine_then_validate INVOICE "invoice_date" garbled_date)
      as [_ [_ [_ H]]].
    destruct H as [H _]; [vm_compute; discriminate|].
    rewrite H. vm_compute. reflexivity.
  - destruct (refine_then_validate INVOICE "invoice_date" garbled_date)
      as [_ [_ [_ H]]].
    destruct H as [_ H]; [vm_compute; discriminate|].
    rewrite H. reflexivity.
Defined.

End Stages.

(** ** Invariants of a production session *)

Section SessionInvariants.
Import Production.

Lemma weighted_sums_unit (d : Fields) :
  (forall k f, In (k, f) d -> 0 <= confidence f <= 1) ->
  0 <= sum_weighted d /\ sum_weighted d <= sum_weights d.
Proof.
  induction d as [|[k f] d IH]; intros Hall; simpl.
  - split; lra.
  - destruct IH as [IH1 IH2].
    { intros k' f' Hin. apply (Hall k'). right. exact Hin. }
    destruct (Hall k f (or_introl eq_refl)) as [Hlo Hhi].
    destruct (weight_of_cases k) as [[_ ->]|[_ ->]]; split; lra.
Qed.

Lemma weighted_mean_unit (d : Fields) :
  (forall k f, In (k, f) d -> 0 <= confidence f <= 1) ->
  0 <= _calculate_weighted_confidence d <= 1.
Proof.
  intros Hall.
  destruct d as [|item d'] eqn:Ed; [simpl; lra|].
  rewrite <- Ed in *.
  assert (Hne : d <> []) by (rewrite Ed; discriminate).
  destruct (weighted_sums_unit d Hall) as [H1 H2].
  pose proof (sum_weights_pos d Hne) as Hpos.
  pose proof (weighted_loop d 0 0) as [Hw Hs].
  unfold _calculate_weighted_confidence.
  rewrite Ed. rewrite <- Ed.
  destruct (fold_left weighted_step d (0, 0)) as [tw ws]. cbn [fst snd] in Hw, Hs.
  assert (Htw : 0 < tw) by lra.
  assert (Hlt : Qltb 0 tw = true) by (apply Qltb_true; exact Htw).
  rewrite Hlt. split.
  - apply Qle_shift_div_l; [exact Htw|]. rewrite Hw, Hs. lra.
  - apply Qle_shift_div_r; [exact Htw|]. rewrite Hw, Hs. lra.
Qed.

(** X5.  The document-level confidence of a field set is in [0,1] when
    the confidence of every field is. *)
Theorem weighted_confidence_between (d : Fields) :
  (forall k f, In (k, f) d -> 0 <= confidence f <= 1) ->
  0 <= _calculate_weighted_confidence d <= 1.
Proof.
  exact (weighted_mean_unit d).
Qed.

Lemma weighted_confidence_between_witness :
  0 <= _calculate_weighted_confidence example_fields <= 1.
Proof.
  apply weighted_confidence_between.
  intros k f [H|[H|[]]]; injection H as <- <-; simpl; lra.
Defined.

Lemma clamp_range (c : Q) : 0 <= Qmax 0 (Qmin 1 c) <= 1.
Proof.
  destruct (Qmin_cases 1 c) as [[H1 ->]|[H1 ->]];
    destruct (Qmax_cases 0 1) as [[H2 E2]|[H2 E2]];
    destruct (Qmax_cases 0 c) as [[H3 E3]|[H3 E3]];
    try rewrite E2; try rewrite E3; lra.
Qed.

(** A field as a completed session returns it. *)
Definition final_field_ok (f : ExtractedField) : Prop :=
  in_unit_range f /\ level_consistent f /\ exists loc, location f = Some loc.

Lemma calibrate_field_final (accuracy_mode field_name : string) (f : ExtractedField) :
  in_unit_range (calibrate_field accuracy_mode field_name f)
  /\ level_consistent (calibrate_field accuracy_mode field_name f)
  /\ location (calibrate_field accuracy_mode field_name f) = location f.
Proof.
  unfold calibrate_field, in_unit_range, level_consistent.
  cbn [confidence confidence_level location].
  split; [apply clamp_range|]. split; reflexivity.
Qed.

Lemma spatial_location_present (w : World) (fields : Fields) (k : string)
    (f : ExtractedField) :
  In (k, f) (_add_spatial_coordinates w fields) ->
  exists loc, location f = Some loc.
Proof.
  unfold _add_spatial_coordinates. intros H. apply in_map_iff in H.
  destruct H as [[i [name g]] [Heq _]]. injection Heq as <- <-.
  eexists. reflexivity.
Qed.

Lemma keys_spatial (w : World) (fields : Fields) :
  PyDict.keys (_add_spatial_coordinates w fields) = PyDict.keys fields.
Proof.
  unfold _add_spatial_coordinates, PyDict.keys, enumerate. rewrite map_map.
  assert (Hgen : forall (n start : nat) (l : Fields),
             map (fun x : nat * (string * ExtractedField) =>
                    fst (let '(i, (field_name, field)) := x in
                         (field_name,
                          mkField (value field) (confidence field)
                            (confidence_level field)
                            (Some (simulated_location w i n field_name))
                            (original_text field) (validation_errors field))))
                 (combine (seq start (List.length l)) l)
             = map fst l).
  { intros n start l. revert start.
    induction l as [|[k f] l IH]; intros start; [reflexivity|].
    simpl. f_equal. apply IH. }
  apply Hgen.
Qed.

(** The dicts a pass can return have pairwise distinct names. *)
Lemma mock_fields_wf (t : DocumentType) : PyDict.wf (Gemini.mock_fields t).
Proof.
  unfold Gemini.mock_fields.
  assert (H : forall items (d : Fields), PyDict.wf d ->
            PyDict.wf (fold_left
              (fun acc (item : string * (string * Q)) =>
                 PyDict.set (fst item)
                   (mkField (fst (snd item)) (snd (snd item))
                            (_get_confidence_level (snd (snd item))) None
                            (Some (fst (snd item))) [])
                   acc) items d)).
  { induction items as [|item items IH]; intros d Hd; simpl; [exact Hd|].
    apply IH. apply set_wf. exact Hd. }
  apply H. constructor.
Qed.

Lemma convert_fields_wf (result : PyDict.dict RawEntry) (d : Fields) :
  Gemini._convert_to_extracted_fields result = Ok d -> PyDict.wf d.
Proof.
  unfold Gemini._convert_to_extracted_fields.
  assert (Hraise : forall items e,
            fold_left Gemini.convert_entry items (Raise e) = Raise e).
  { induction items as [|item items IH]; intros e; simpl; [reflexivity|apply IH]. }
  assert (H : forall items (d0 : Fields), PyDict.wf d0 ->
            fold_left Gemini.convert_entry items (Ok d0) = Ok d -> PyDict.wf d).
  { induction items as [|item items IH]; intros d0 Hd0; cbn [fold_left].
    - intros E. injection E as <-. exact Hd0.
    - destruct (Gemini.convert_entry (Ok d0) item) as [d1|e] eqn:E1.
      + apply IH. unfold Gemini.convert_entry in E1. cbn [bind] in E1.
        destruct (match snd item with
                  | EntryDict v c _ =>
                      conf <- float_of_confidence c ;;
                      Ok (match v with Some s => s | None => EmptyString end, conf)
                  | EntryOther s => Ok (s, 0.7)
                  end) as [vc|e]; cbn [bind] in E1; [|discriminate].
        destruct (new_ExtractedField (fst vc) (snd vc) (_get_confidence_level (snd vc))
                    None (Some (fst vc)) []) as [f|e]; cbn [bind] in E1; [|discriminate].
        injection E1 as <-. apply set_wf. exact Hd0.
      + rewrite Hraise. discriminate. }
  apply H. constructor.
Qed.

Lemma extract_fields_wf (w : World) (t : DocumentType) (log : Log) (d : Fields) :
  fst (Gemini.extract_fields w t log) = Ok d -> PyDict.wf d.
Proof.
  unfold Gemini.extract_fields.
  destruct (use_real_api w); [|cbn [fst]; intros E; injection E as <-; apply mock_fields_wf].
  destruct (image_opens w); [|cbn [fst]; intros E; injection E as <-; constructor].
  destruct (generate_content w (List.length log) (ExtractFieldsCall t))
    as [[[|item data]|body|[|]]|e]; cbn [fst]; intros E.
  - injection E as <-. apply mock_fields_wf.
  - injection E as <-.
    destruct (Gemini._convert_to_extracted_fields (item :: data)) as [d'|e] eqn:E';
      cbn [try_except]; [apply (convert_fields_wf _ _ E')|constructor].
  - injection E as <-. apply mock_fields_wf.
  - injection E as <-. constructor.
  - injection E as <-. apply mock_fields_wf.
  - injection E as <-. constructor.
Qed.

Lemma bindM_inv {A B : Type} (m : M A) (k : A -> M B) (log log' : Log) (b : B) :
  bindM m k log = (Ok b, log') ->
  exists a log1, m log = (Ok a, log1) /\ k a log1 = (Ok b, log').
Proof.
  unfold bindM. destruct (m log) as [[a|e] log1]; [|discriminate].
  intros H. exists a, log1. split; [reflexivity|exact H].
Qed.

Lemma custom_merge_wf (w : World) (custom_fields : option (list string))
    (base d : Fields) (log log' : Log) :
  PyDict.wf base ->
  match custom_fields with
  | Some (c :: cs) =>
      custom_extracted <~ _extract_custom_fields w (c :: cs) ;;
      ret (PyDict.update base custom_extracted)
  | _ => ret base
  end log = (Ok d, log') ->
  PyDict.wf d.
Proof.
  intros Hbase.
  destruct custom_fields as [[|c cs]|]; try (intros H; injection H as <- _; exact Hbase).
  intros H. apply bindM_inv in H. destruct H as [custom [log1 [_ H]]].
  injection H as <- _. apply update_wf. exact Hbase.
Qed.

Lemma multi_pass_wf (w : World) (t : DocumentType)
    (custom_fields : option (list string)) (d : Fields) (log log' : Log) :
  _multi_pass_extraction w t custom_fields log = (Ok d, log') -> PyDict.wf d.
Proof.
  unfold _multi_pass_extraction. intros H.
  apply bindM_inv in H. destruct H as [general [log1 [Hgeneral H]]].
  apply bindM_inv in H. destruct H as [focused [log2 [_ H]]].
  apply bindM_inv in H. destruct H as [refined [log3 [Hrefined H]]].
  assert (Hg : PyDict.wf general).
  { rewrite general_pass_run in Hgeneral.
    destruct (image_opens w); [|discriminate].
    injection Hgeneral as <- _. apply parse_wf. }
  unfold _refine_extracted_fields in Hrefined.
  apply bindM_inv in Hrefined. destruct Hrefined as [u [log4 [_ Hrefined]]].
  injection Hrefined as <- _.
  apply (custom_merge_wf w custom_fields
           (PyDict.map_items (refine_field t) (PyDict.update general focused))
           d log3 log'); [|exact H].
  apply map_items_wf. apply update_wf. exact Hg.
Qed.

Lemma single_pass_wf (w : World) (t : DocumentType)
    (custom_fields : option (list string)) (d : Fields) (log log' : Log) :
  _single_pass_extraction w t custom_fields log = (Ok d, log') -> PyDict.wf d.
Proof.
  unfold _single_pass_extraction. intros H.
  apply bindM_inv in H. destruct H as [fields [log1 [Hfields H]]].
  apply (custom_merge_wf w custom_fields fields d log1 log'); [|exact H].
  apply (extract_fields_wf w t log). rewrite Hfields. reflexivity.
Qed.

(** What steps 3 to 6 return when they do not raise. *)
Lemma extraction_steps_result (w : World) (t : DocumentType)
    (custom_fields : option (list string)) (accuracy_mode : string)
    (data : Fields) (log log' : Log) :
  extraction_steps w t custom_fields accuracy_mode log = (Ok data, log') ->
  exists extracted,
    PyDict.wf extracted
    /\ data = _calibrate_confidence
                (_add_spatial_coordinates w
                   (PyDict.map_items (validate_field t) extracted))
                t accuracy_mode.
Proof.
  unfold extraction_steps. intros H.
  apply bindM_inv in H. destruct H as [extracted [log1 [Hextracted H]]].
  exists extracted. split.
  - destruct (String.eqb accuracy_mode "high" && multi_pass_extraction).
    + apply (multi_pass_wf _ _ _ _ _ _ Hextracted).
    + apply (single_pass_wf _ _ _ _ _ _ Hextracted).
  - cbn in H. injection H as <- _. reflexivity.
Qed.

(** What holds of the result of every production session. *)
Lemma production_session_facts
    (w : World) (requested_type : option DocumentType)
    (custom_fields : option (list string)) (accuracy_mode : string) :
  let r := fst (process_document_production w requested_type custom_fields
                  accuracy_mode) in
  PyDict.wf (extracted_data r)
  /\ (forall k f, In (k, f) (extracted_data r) -> final_field_ok f)
  /\ 0 <= overall_confidence r <= 1
  /\ (status r = FAILED ->
      extracted_data r = [] /\ overall_confidence r == 0 /\ error_message r <> None)
  /\ (status r = COMPLETED -> error_message r = None).
Proof.
  cbv zeta. unfold process_document_production.
  destruct (match requested_type with
            | Some t => (t, 0.95)
            | None => detected_type w
            end) as [t type_confidence].
  destruct (extraction_steps w t custom_fields accuracy_mode []) as [[data|e] log] eqn:E;
    cbn [fst extracted_data overall_confidence status error_message].
  - destruct (extraction_steps_result _ _ _ _ _ _ _ E) as [extracted [Hwf ->]].
    assert (Hall : forall k f,
               In (k, f) (_calibrate_confidence
                            (_add_spatial_coordinates w
                               (PyDict.map_items (validate_field t) extracted))
                            t accuracy_mode) ->
               final_field_ok f).
    { intros k f Hin. unfold _calibrate_confidence in Hin.
      apply in_map_items in Hin. destruct Hin as [g [Hin ->]].
      destruct (calibrate_field_final accuracy_mode k g) as [Hr [Hl Hloc]].
      split; [exact Hr|]. split; [exact Hl|].
      rewrite Hloc. apply (spatial_location_present _ _ _ _ Hin). }
    split.
    { unfold _calibrate_confidence. apply map_items_wf.
      unfold PyDict.wf. rewrite keys_spatial. apply map_items_wf. exact Hwf. }
    split; [exact Hall|]. split.
    { apply weighted_mean_unit. intros k f Hin. apply (Hall k f Hin). }
    split; [discriminate|reflexivity].
  - split; [constructor|]. split; [intros k f []|].
    split; [lra|]. split; [|discriminate].
    intros _. split; [reflexivity|]. split; [reflexivity|discriminate].
Qed.

(** X6.  Whatever the oracle, the image and the inputs, the result of a
    production session has pairwise distinct field names; each field has
    a confidence in [0,1], the level of that confidence and a location;
    the document-level confidence is in [0,1]; a failed session has no
    field, confidence 0 and an error message, a completed one has no
    error message. *)
Theorem production_result_invariants
    (w : World) (requested_type : option DocumentType)
    (custom_fields : option (list string)) (accuracy_mode : string) :
  let r := fst (process_document_production w requested_type custom_fields
                  accuracy_mode) in
  PyDict.wf (extracted_data r)
  /\ (forall k f, In (k, f) (extracted_data r) -> final_field_ok f)
  /\ 0 <= overall_confidence r <= 1
  /\ (status r = FAILED ->
      extracted_data r = [] /\ overall_confidence r == 0 /\ error_message r <> None)
  /\ (status r = COMPLETED -> error_message r = None).
Proof.
  exact (production_session_facts w requested_type custom_fields accuracy_mode).
Qed.

Lemma production_result_invariants_witness :
  final_field_ok
    (match PyDict.get "total_amount" (session_fields mock_world INVOICE None "high") with
     | Some f => f
     | None => mkField "" 0 LOW None None []
     end).
Proof.
  destruct (production_result_invariants mock_world (Some INVOICE) None "high")
    as [_ [H _]].
  apply (H "total_amount"). apply get_in. vm_compute. reflexivity.
Defined.

End SessionInvariants.

(** ** Calibration, gaps and custom fields *)

Section CalibrationAndGaps.
Import Production.

Lemma Qmin_le_l (a b : Q) : Qmin a b <= a.
Proof. destruct (Qmin_cases a b) as [[H ->]|[H ->]]; lra. Qed.

Lemma Qmin_le_r (a b : Q) : Qmin a b <= b.
Proof. destruct (Qmin_cases a b) as [[H ->]|[H ->]]; lra. Qed.

Lemma Qmax_lub (a b c : Q) : a <= c -> b <= c -> Qmax a b <= c.
Proof. intros Ha Hb. destruct (Qmax_cases a b) as [[H ->]|[H ->]]; lra. Qed.

Lemma Qmax_ge_l (a b : Q) : a <= Qmax a b.
Proof. destruct (Qmax_cases a b) as [[H ->]|[H ->]]; lra. Qed.

Lemma Qmax_ge_r (a b : Q) : b <= Qmax a b.
Proof. destruct (Qmax_cases a b) as [[H ->]|[H ->]]; lra. Qed.


(** X7.  A field that carries a validation error and whose confidence is
    at most 1 leaves the calibrator with a confidence of at most 0.7, in
    every mode and under every name, so its level is never HIGH. *)
Theorem errors_cap_calibrated_confidence
    (accuracy_mode field_name : string) (f : ExtractedField) :
  validation_errors f <> [] ->
  confidence f <= 1 ->
  confidence (calibrate_field accuracy_mode field_name f) <= 0.7
  /\ confidence_level (calibrate_field accuracy_mode field_name f) <> HIGH.
Proof.
  intros Herr Hc.
  assert (Hle : confidence (calibrate_field accuracy_mode field_name f) <= 0.7).
  { unfold calibrate_field. cbn [confidence].
    destruct (validation_errors f) as [|e errs]; [congruence|].
    set (c := confidence f) in *.
    apply Qmax_lub; [lra|].
    eapply Qle_trans; [apply Qmin_le_r|].
    destruct (String.eqb accuracy_mode "high");
      [|destruct (String.eqb accuracy_mode "fast")];
      destruct (PyStr.mem field_name boosted_fields);
      destruct (Qltb 0.8 c);
      try match goal with
        | |- context [Qmin ?a ?b] => pose proof (Qmin_le_l a b)
        end; lra. }
  split; [exact Hle|].
  unfold calibrate_field in *. cbn [confidence confidence_level] in *.
  intros Hhigh. apply level_of_confidence in Hhigh. lra.
Qed.

Lemma errors_cap_calibrated_confidence_witness :
  confidence_level
    (calibrate_field "balanced" "total_amount"
       (mkField "n/a" 1 HIGH None None [ErrText "Invalid amount format"])) <> HIGH.
Proof.
  apply errors_cap_calibrated_confidence.
  - discriminate.
  - simpl. lra.
Defined.





Lemma custom_merge_run (w : World) (c : string) (cs : list string)
    (base : Fields) (log : Log) :
  image_opens w = true ->
  (custom_extracted <~ _extract_custom_fields w (c :: cs) ;;
   ret (PyDict.update base custom_extracted)) log
  = (Ok (PyDict.update base (pass_fields w (CustomPrompt (c :: cs)) log)),
     (log ++ [EvOracle (SimpleCall (CustomPrompt (c :: cs)))])%list).
Proof.
  intros Himg. unfold _extract_custom_fields, image_open, bindM.
  rewrite Himg. cbn [ret]. rewrite simple_call_run. reflexivity.
Qed.

Lemma custom_fields_of (w : World) (c : string) (cs : list string) (log : Log) :
  image_opens w = true ->
  fields_of (_extract_custom_fields w (c :: cs) log)
  = pass_fields w (CustomPrompt (c :: cs)) log.
Proof.
  intros Himg. unfold fields_of, _extract_custom_fields, image_open, bindM.
  rewrite Himg. cbn [ret]. rewrite simple_call_run. reflexivity.
Qed.

(** X9.  When custom fields are requested and the image opens, both
    extraction modes end by laying the CUSTOM candidate set over the
    fields found so far, which are the fields of the single extraction
    call in the single-pass mode and the refined merge of the GENERAL and
    FOCUSED candidate sets in the multi-pass mode: a field of the CUSTOM
    pass replaces the field of the same name, a name the CUSTOM pass does
    not return keeps its field. *)
Theorem custom_pass_takes_precedence
    (w : World) (t : DocumentType) (c : string) (cs : list string) (log : Log) :
  image_opens w = true ->
  let single_base := fields_of (Gemini.extract_fields w t log) in
  let single_custom :=
    fields_of
      (_extract_custom_fields w (c :: cs)
         (log ++ [EvOracle (ExtractFieldsCall t)])%list) in
  let multi_base :=
    PyDict.map_items (refine_field t)
      (PyDict.update (general_pass w t log) (focused_pass w t log)) in
  let multi_custom := custom_pass w t (c :: cs) log in
  fst (_single_pass_extraction w t (Some (c :: cs)) log)
  = Ok (PyDict.update single_base single_custom)
  /\ fst (_multi_pass_extraction w t (Some (c :: cs)) log)
     = Ok (PyDict.update multi_base multi_custom)
  /\ (forall k,
        PyDict.get k (PyDict.update single_base single_custom)
        = match PyDict.get k single_custom with
          | Some f => Some f
          | None => PyDict.get k single_base
          end)
  /\ (forall k,
        PyDict.get k (PyDict.update multi_base multi_custom)
        = match PyDict.get k multi_custom with
          | Some f => Some f
          | None => PyDict.get k multi_base
          end).
Proof.
  intros Himg. cbv zeta. split; [|split; [|split]].
  - destruct (extract_fields_run w t log) as [base Hbase].
    unfold _single_pass_extraction.
    erewrite bindM_ok by exact Hbase.
    rewrite (custom_merge_run w c cs base _ Himg).
    rewrite (custom_fields_of w c cs _ Himg).
    unfold fields_of. rewrite Hbase. reflexivity.
  - apply (multi_pass_result w t (Some (c :: cs)) log Himg).
  - intros k. apply get_update.
    rewrite (custom_fields_of w c cs _ Himg). apply parse_wf.
  - intros k. apply get_update. apply custom_pass_wf.
Qed.

(** A session whose GENERAL reply has a vendor and a total, and whose
    CUSTOM reply has another total. *)
Definition custom_oracle (n : nat) (c : OracleCall) : Result Reply :=
  match c with
  | SimpleCall (CustomPrompt _) =>
      Ok (ReplyJson
            [ ("total_amount", EntryDict (Some "12.00") (ConfNumber 0.8) None) ])
  | SimpleCall (FocusedPrompt _) => Ok (ReplyText "")
  | _ =>
      Ok (ReplyJson
            [ ("vendor_name", EntryDict (Some "Globex Ltd") (ConfNumber 0.9) None);
              ("total_amount", EntryDict (Some "10.00") (ConfNumber 0.9) None) ])
  end.

Definition custom_world : World :=
  mkWorld true true custom_oracle (fun _ => 0%Z) (INVOICE, 0.95).

Lemma custom_pass_takes_precedence_witness :
  field_value "total_amount"
    (multi_pass_fields custom_world INVOICE (Some ["total_amount"])) = Some "12.00"
  /\ field_value "vendor_name"
       (multi_pass_fields custom_world INVOICE (Some ["total_amount"]))
     = Some "Globex Ltd"
  /\ field_value "total_amount"
       (fields_of
          (_single_pass_extraction custom_world INVOICE (Some ["total_amount"]) []))
     = Some "12.00".
Proof.
  destruct (custom_pass_takes_precedence custom_world INVOICE "total_amount" [] []
              eq_refl) as [Hsingle [Hmulti [Hget1 Hget2]]].
  unfold multi_pass_fields, fields_of, field_value.
  rewrite Hmulti, Hsingle.
  split; [|split].
  - rewrite Hget2. vm_compute. reflexivity.
  - rewrite Hget2. vm_compute. reflexivity.
  - rewrite Hget1. vm_compute. reflexivity.
Defined.

End CalibrationAndGaps.

(** ** The validators of [GeminiService] *)

Section GeminiValidators.

(** What a validator may do to a field: nothing but append at most one
    error and move the confidence inside [0,1]. *)
Definition validator_step (g g' : ExtractedField) : Prop :=
  value g' = value g
  /\ location g' = location g
  /\ original_text g' = original_text g
  /\ (exists new, validation_errors g' = (validation_errors g ++ new)%list
                  /\ (List.length new <= 1)%nat)
  /\ (0 <= confidence g <= 1 -> 0 <= confidence g' <= 1).

Lemma step_same (g : ExtractedField) : validator_step g g.
Proof.
  repeat split; try tauto. exists []. rewrite app_nil_r. split; [reflexivity|simpl; lia].
Qed.

Lemma step_bonus (g : ExtractedField) : validator_step g (Gemini.award_bonus g).
Proof.
  unfold Gemini.award_bonus, Gemini.set_confidence, validator_step.
  cbn [value location original_text validation_errors confidence].
  repeat split; try reflexivity.
  - exists []. rewrite app_nil_r. split; [reflexivity|simpl; lia].
  - destruct (Qmin_cases (confidence g + 0.05) 1) as [[H1 ->]|[H1 ->]]; lra.
  - apply Qmin_le_r.
Qed.

Lemma step_penalise (msg : string) (d : Q) (g : ExtractedField) :
  0 <= d -> validator_step g (Gemini.penalise msg d g).
Proof.
  intros Hd.
  unfold Gemini.penalise, Gemini.set_confidence, Gemini.add_error, validator_step.
  cbn [value location original_text validation_errors confidence].
  repeat split; try reflexivity.
  - exists [ErrText msg]. split; [reflexivity|simpl; lia].
  - apply Qmax_ge_r.
  - apply Qmax_lub; lra.
Qed.

Lemma step_add_error (e : ValidationError) (g : ExtractedField) :
  validator_step g (Gemini.add_error e g).
Proof.
  unfold Gemini.add_error, validator_step.
  cbn [value location original_text validation_errors confidence].
  repeat split; try reflexivity; try tauto.
  exists [e]. split; [reflexivity|simpl; lia].
Qed.

Ltac validator_step_cases :=
  repeat match goal with
    | |- context [if ?c then _ else _] => destruct c
    | |- context [match ?c with Some _ => _ | None => _ end] => destruct c
    end;
  first [ apply step_same | apply step_bonus | apply step_add_error
        | apply step_penalise; lra ].

Lemma validator_for_step (date_parses : string -> bool) (field_name : string)
    (g : ExtractedField) :
  validator_step g (validator_for date_parses field_name g).
Proof.
  unfold validator_for. cbv zeta.
  destruct (PyStr.contains "date" (PyStr.lower field_name)).
  { unfold Gemini._validate_date_field. validator_step_cases. }
  destruct (PyStr.any_in ["amount"; "total"; "price"] (PyStr.lower field_name)).
  { unfold Gemini._validate_amount_field. cbv zeta. validator_step_cases. }
  destruct (PyStr.contains "email" (PyStr.lower field_name)).
  { unfold Gemini._validate_email_field. validator_step_cases. }
  destruct (PyStr.contains "phone" (PyStr.lower field_name)).
  { unfold Gemini._validate_phone_field. cbv zeta. validator_step_cases. }
  apply step_same.
Qed.

(** X10.  [validate_extraction] keeps the names of the fields and their
    order; of each field it keeps the value, the location and the original
    text, appends at most one error to the errors already there, keeps a
    confidence that was in [0,1] in [0,1], and sets the level of the new
    confidence. *)
Theorem validate_extraction_keeps_fields
    (date_parses : string -> bool) (fields : Fields) (t : DocumentType) :
  PyDict.keys (Gemini.validate_extraction date_parses fields t) = PyDict.keys fields
  /\ forall k g',
       In (k, g') (Gemini.validate_extraction date_parses fields t) ->
       exists g, In (k, g) fields
                 /\ validator_step g g'
                 /\ confidence_level g' = _get_confidence_level (confidence g').
Proof.
  unfold Gemini.validate_extraction. split; [apply keys_map_items|].
  intros k g' Hin. apply in_map_items in Hin. destruct Hin as [g [Hin ->]].
  exists g. split; [exact Hin|].
  rewrite validate_extraction_field_relevel.
  split; [|reflexivity].
  apply (validator_for_step date_parses k g).
Qed.

Lemma validate_extraction_keeps_fields_witness :
  exists g, In ("phone", g) [("phone", phone_field)]
            /\ validator_step g
                 (Gemini.validate_extraction_field accepts_any_date "phone" phone_field)
            /\ confidence_level
                 (Gemini.validate_extraction_field accepts_any_date "phone" phone_field)
               = _get_confidence_level
                   (confidence
                      (Gemini.validate_extraction_field accepts_any_date "phone"
                         phone_field)).
Proof.
  destruct (validate_extraction_keeps_fields accepts_any_date
              [("phone", phone_field)] CUSTOM) as [_ H].
  apply (H "phone"). left. reflexivity.
Defined.

End GeminiValidators.

(** ** Numbers read from text *)

Section Numbers.

Lemma digits_value_nonneg (s : string) (acc z : Z) :
  (0 <= acc)%Z -> PyFloat.digits_value s acc = Some z -> (0 <= z)%Z.
Proof.
  revert acc. induction s as [|c s IH]; intros acc Hacc; cbn [PyFloat.digits_value].
  - intros H. injection H as <-. exact Hacc.
  - destruct (PyStr.is_digit c); [|discriminate].
    apply IH. unfold PyFloat.digit_value. lia.
Qed.

Lemma parse_unsigned_nonneg (s : string) (q : Q) :
  PyFloat.parse_unsigned s = Some q -> 0 <= q.
Proof.
  unfold PyFloat.parse_unsigned.
  destruct (PyFloat.split_dot s) as [int_part frac].
  set (frac_part := match frac with Some f => f | None => EmptyString end).
  assert (H : forall q',
             match PyFloat.digits_value int_part 0, PyFloat.digits_value frac_part 0 with
             | Some i, Some f =>
                 Some (Qred (Qmake (i * 10 ^ Z.of_nat (String.length frac_part) + f)
                               (Z.to_pos (10 ^ Z.of_nat (String.length frac_part)))))
             | _, _ => None
             end = Some q' -> 0 <= q').
  { intros q'.
    destruct (PyFloat.digits_value int_part 0) as [i|] eqn:Ei; [|discriminate].
    destruct (PyFloat.digits_value frac_part 0) as [f|] eqn:Ef; [|discriminate].
    intros E.
    match type of E with Some ?r = _ => set (r0 := r) in E end.
    injection E as <-. unfold r0. clear r0.
    apply digits_value_nonneg in Ei; [|lia].
    apply digits_value_nonneg in Ef; [|lia].
    assert (Hpow : (0 <= 10 ^ Z.of_nat (String.length frac_part))%Z)
      by (apply Z.pow_nonneg; lia).
    match goal with
    | |- 0 <= Qred ?x => pose proof (Qred_correct x) as Hred; rewrite Hred
    end.
    unfold Qle. cbn [Qnum Qden]. nia. }
  destruct int_part; destruct frac_part; try discriminate; apply H.
Qed.

(** A text that does not begin with the minus sign is read unsigned. *)
Lemma parse_without_sign (c : ascii) (s : string) :
  c <> "-"%char ->
  PyFloat.parse (String c s) = PyFloat.parse_unsigned (String c s).
Proof.
  intros Hc. unfold PyFloat.parse.
  destruct c as [[] [] [] [] [] [] [] []]; try reflexivity.
  contradiction Hc. reflexivity.
Qed.

Lemma first_run_head (cls : ascii -> bool) (s run : string) :
  PyStr.first_run cls s = Some run ->
  exists c rest, run = String c rest /\ cls c = true.
Proof.
  induction s as [|c s IH]; simpl; [discriminate|].
  destruct (cls c) eqn:E; [|exact IH].
  intros H. injection H as <-. eexists. eexists. split; [reflexivity|exact E].
Qed.

(** X11.  [_validate_amount_field] never reports a negative amount: the
    run of digits and dots it reads has no sign, so the number is never
    below zero, and the only errors it can append are the two others. *)
Theorem amount_validator_never_negative (f : ExtractedField) :
  (forall text run,
      PyStr.first_run (fun c => PyStr.is_digit c || Ascii.eqb c ".") text = Some run ->
      forall n, PyFloat.parse run = Some n -> 0 <= n)
  /\ (In (ErrText "Negative amount detected")
        (validation_errors (Gemini._validate_amount_field f)) ->
      In (ErrText "Negative amount detected") (validation_errors f)).
Proof.
  assert (Hnonneg : forall run q,
             PyStr.first_run (fun c => PyStr.is_digit c || Ascii.eqb c ".") run = Some q ->
             forall n, PyFloat.parse q = Some n -> 0 <= n).
  { intros run q Hrun n Hn.
    destruct (first_run_head _ _ _ Hrun) as [c [rest [-> Hc]]].
    rewrite parse_without_sign in Hn.
    - apply (parse_unsigned_nonneg _ _ Hn).
    - intros ->. vm_compute in Hc. discriminate Hc. }
  split; [exact Hnonneg|].
  unfold Gemini._validate_amount_field. cbv zeta.
  destruct (negb (PyStr.truthy (value f))); [tauto|].
  destruct (PyStr.first_run (fun c => PyStr.is_digit c || Ascii.eqb c ".")
              (PyStr.replace Gemini.euro ""
                 (PyStr.replace "$" "" (PyStr.replace "," "" (value f)))))
    as [run|] eqn:Erun.
  - destruct (PyFloat.parse run) as [n|] eqn:En.
    + pose proof (Hnonneg _ _ Erun n En) as H0.
      apply Qleb_true in H0. rewrite H0.
      cbn [validation_errors Gemini.award_bonus Gemini.set_confidence]. tauto.
    + cbn [validation_errors Gemini.penalise Gemini.set_confidence Gemini.add_error].
      intros Hin. apply in_app_or in Hin. destruct Hin as [Hin|[Hin|[]]]; [exact Hin|].
      exfalso. simpl in Hin. discriminate Hin.
  - cbn [validation_errors Gemini.penalise Gemini.set_confidence Gemini.add_error].
    intros Hin. apply in_app_or in Hin. destruct Hin as [Hin|[Hin|[]]]; [exact Hin|].
    discriminate Hin.
Qed.

Lemma amount_validator_never_negative_witness :
  exists n, PyFloat.parse "1234.56" = Some n /\ 0 <= n.
Proof.
  destruct (amount_validator_never_negative (mkField "" 0 LOW None None [])) as [H _].
  eexists. split; [vm_compute; reflexivity|].
  apply (H "USD 1234.56 net" "1234.56"); vm_compute; reflexivity.
Defined.

End Numbers.

(** ** The invoice check, run on any field set and run again *)

Section InvoiceMathAgain.
Import EnhancedGemini.

Lemma numeric_value_flag (total calculated : PrimFloat.float) (f : ExtractedField) :
  _extract_numeric_value (Some (flag_total total calculated f))
  = _extract_numeric_value (Some f).
Proof. reflexivity. Qed.

(** The test of the check on three doubles. *)
Definition mismatch (subtotal tax_amount total : PrimFloat.float) : bool :=
  PrimFloat.ltb (PyFloat.round 0.01)
    (PrimFloat.abs
       (PrimFloat.sub (PrimFloat.add (or_zero subtotal) (or_zero tax_amount))
          (or_zero total))).

(** The check leaves alone, or flags, the total. *)
Lemma invoice_math_cases (fields : Fields) :
  _validate_invoice_math fields = fields
  \/ exists subtotal tax_amount total f,
       invoice_numbers fields = Some (subtotal, tax_amount, total)
       /\ mismatch subtotal tax_amount total = true
       /\ PyDict.get "total_amount" fields = Some f
       /\ _validate_invoice_math fields
          = PyDict.set "total_amount"
              (flag_total (or_zero total)
                 (PrimFloat.add (or_zero subtotal) (or_zero tax_amount)) f) fields.
Proof.
  unfold _validate_invoice_math, invoice_numbers, mismatch.
  destruct (_extract_numeric_value (PyDict.get "subtotal" fields)) as [s|]; [|auto].
  destruct (_extract_numeric_value (PyDict.get "tax_amount" fields)) as [t|]; [|auto].
  destruct (_extract_numeric_value (PyDict.get "total_amount" fields)) as [tot|] eqn:Etot;
    [|auto].
  cbv zeta. change tolerance with (PyFloat.round 0.01).
  destruct (PrimFloat.ltb (PyFloat.round 0.01)
              (PrimFloat.abs
                 (PrimFloat.sub (PrimFloat.add (or_zero s) (or_zero t)) (or_zero tot))))
    eqn:E; [|auto].
  destruct (PyDict.get "total_amount" fields) as [f|] eqn:Ef; [|auto].
  right. exists s, t, tot, f. auto.
Qed.

Lemma invoice_numbers_flag (fields : Fields) (total calculated : PrimFloat.float)
    (f : ExtractedField) :
  PyDict.get "total_amount" fields = Some f ->
  invoice_numbers (PyDict.set "total_amount" (flag_total total calculated f) fields)
  = invoice_numbers fields.
Proof.
  intros Hf. unfold invoice_numbers. rewrite !get_set. cbn [String.eqb Ascii.eqb Bool.eqb].
  rewrite Hf, numeric_value_flag. reflexivity.
Qed.

(** X12.  On every field set the invoice check keeps the names and their
    order and every field other than total_amount; of total_amount it
    keeps the value, the location and the original text, and the three
    numbers read from the fields are the same after the check as
    before. *)
Theorem invoice_math_touches_total_only (fields : Fields) :
  PyDict.keys (_validate_invoice_math fields) = PyDict.keys fields
  /\ (forall k, k <> "total_amount" ->
        PyDict.get k (_validate_invoice_math fields) = PyDict.get k fields)
  /\ option_map value (PyDict.get "total_amount" (_validate_invoice_math fields))
     = option_map value (PyDict.get "total_amount" fields)
  /\ option_map location (PyDict.get "total_amount" (_validate_invoice_math fields))
     = option_map location (PyDict.get "total_amount" fields)
  /\ invoice_numbers (_validate_invoice_math fields) = invoice_numbers fields.
Proof.
  destruct (invoice_math_cases fields) as [->|[s [t [tot [f [_ [_ [Hf ->]]]]]]]].
  - repeat split; reflexivity.
  - split; [apply (keys_set_present _ _ f); exact Hf|].
    split.
    { intros k Hk. rewrite get_set. apply String.eqb_neq in Hk. rewrite Hk. reflexivity. }
    rewrite get_set, String.eqb_refl, Hf.
    split; [reflexivity|]. split; [reflexivity|].
    apply invoice_numbers_flag. exact Hf.
Qed.

Lemma invoice_math_touches_total_only_witness :
  PyDict.get "subtotal"
    (_validate_invoice_math (invoice_example "1,134.56" "100.00" "1,300.00"))
  = PyDict.get "subtotal" (invoice_example "1,134.56" "100.00" "1,300.00").
Proof.
  destruct (invoice_math_touches_total_only
              (invoice_example "1,134.56" "100.00" "1,300.00")) as [_ [H _]].
  apply H. discriminate.
Defined.

(** X13.  The invoice check is not idempotent on a mismatch: the values
    are not corrected, so a second run finds the same mismatch, appends
    the same error once more and multiplies the confidence of
    total_amount by 0.8 once more. *)
Theorem invoice_math_repeats_penalty (fields : Fields)
    (subtotal tax_amount total : PrimFloat.float) (f : ExtractedField) :
  invoice_numbers fields = Some (subtotal, tax_amount, total) ->
  mismatch subtotal tax_amount total = true ->
  PyDict.get "total_amount" fields = Some f ->
  let total_val := or_zero total in
  let calculated_total := PrimFloat.add (or_zero subtotal) (or_zero tax_amount) in
  exists r,
    PyDict.get "total_amount" (_validate_invoice_math (_validate_invoice_math fields))
    = Some r
    /\ validation_errors r
       = (validation_errors f
            ++ [ ErrTotalMismatch total_val calculated_total;
                 ErrTotalMismatch total_val calculated_total ])%list
    /\ confidence r = confidence f * 0.8 * 0.8.
Proof.
  intros Hnum Hbad Hf. cbv zeta.
  assert (Hstep : forall d g,
             invoice_numbers d = Some (subtotal, tax_amount, total) ->
             PyDict.get "total_amount" d = Some g ->
             _validate_invoice_math d
             = PyDict.set "total_amount"
                 (flag_total (or_zero total)
                    (PrimFloat.add (or_zero subtotal) (or_zero tax_amount)) g) d).
  { intros d g Hd Hg.
    destruct (invoice_math_cases d) as [Hsame|[s [t [tot [g' [Hd' [_ [Hg' ->]]]]]]]].
    - exfalso. revert Hsame. unfold _validate_invoice_math.
      unfold invoice_numbers in Hd.
      destruct (_extract_numeric_value (PyDict.get "subtotal" d)) as [s|]; [|discriminate].
      destruct (_extract_numeric_value (PyDict.get "tax_amount" d)) as [t|]; [|discriminate].
      destruct (_extract_numeric_value (PyDict.get "total_amount" d)) as [tot|];
        [|discriminate].
      injection Hd as -> -> ->. cbv zeta.
      unfold mismatch in Hbad. change tolerance with (PyFloat.round 0.01).
      rewrite Hbad, Hg.
      intros Hsame.
      apply (f_equal (PyDict.get "total_amount")) in Hsame.
      rewrite get_set, String.eqb_refl, Hg in Hsame.
      injection Hsame as Hsame.
      apply (f_equal (fun x => List.length (validation_errors x))) in Hsame.
      cbn [flag_total validation_errors] in Hsame.
      rewrite length_app in Hsame. simpl in Hsame. lia.
    - rewrite Hd in Hd'. injection Hd' as <- <- <-.
      rewrite Hg in Hg'. injection Hg' as <-. reflexivity. }
  rewrite (Hstep fields f Hnum Hf).
  rewrite (Hstep _ (flag_total (or_zero total)
                      (PrimFloat.add (or_zero subtotal) (or_zero tax_amount)) f)).
  - rewrite get_set, String.eqb_refl. eexists. split; [reflexivity|].
    cbn [flag_total validation_errors confidence].
    rewrite <- app_assoc. split; reflexivity.
  - rewrite (invoice_numbers_flag _ _ _ _ Hf). exact Hnum.
  - rewrite get_set, String.eqb_refl. reflexivity.
Qed.

Lemma invoice_math_repeats_penalty_witness :
  exists r,
    PyDict.get "total_amount"
      (_validate_invoice_math
         (_validate_invoice_math (invoice_example "1,134.56" "100.00" "1,300.00")))
    = Some r
    /\ confidence r = 0.95 * 0.8 * 0.8.
Proof.
  destruct (invoice_math_repeats_penalty
              (invoice_example "1,134.56" "100.00" "1,300.00")
              (PyFloat.round 1134.56) (PyFloat.round 100) (PyFloat.round 1300)
              (mkField "1,300.00" 0.95 HIGH None None []))
    as [r [Hr [_ Hc]]].
  - vm_compute. reflexivity.
  - vm_compute. reflexivity.
  - reflexivity.
  - exists r. split; [exact Hr|exact Hc].
Defined.

End InvoiceMathAgain.

(** ** Where locations come from *)

Section Grounding.
Import Universal.

Lemma in_insert_sorted {A : Type} (leb : A -> A -> bool) (x y : A) (l : list A) :
  In x (insert_sorted leb y l) <-> x = y \/ In x l.
Proof.
  induction l as [|z l IH]; simpl.
  - split; intros [H|H]; auto; contradiction.
  - destruct (leb z y); simpl; [rewrite IH|]; intuition congruence.
Qed.

Lemma in_sorted {A : Type} (leb : A -> A -> bool) (x : A) (l : list A) :
  In x (sorted leb l) <-> In x l.
Proof.
  unfold sorted.
  assert (H : forall acc, In x (fold_left (fun acc y => insert_sorted leb y acc) l acc)
                          <-> In x l \/ In x acc).
  { induction l as [|y l IH]; intros acc; simpl.
    - tauto.
    - rewrite IH, in_insert_sorted. intuition congruence. }
  rewrite H. simpl. tauto.
Qed.

(** The outcome of a strategy that returns the box of a block. *)
Definition from_block (blocks : list TextBlock) (dims : Z * Z)
    (r : Result (option FieldLocation)) : Prop :=
  r = Ok None
  \/ exists block, In block blocks
       /\ r = (loc <- block_location block dims ;; Ok (Some loc)).

Lemma locate_first_from_block (p : TextBlock -> bool) (blocks : list TextBlock)
    (dims : Z * Z) :
  from_block blocks dims (locate_first p blocks dims).
Proof.
  unfold locate_first. destruct (find p blocks) as [block|] eqn:E.
  - right. exists block. split; [|reflexivity].
    apply find_some in E. tauto.
  - left. reflexivity.
Qed.

Lemma exact_from_block (v : string) (blocks : list TextBlock) (dims : Z * Z) :
  from_block blocks dims (_find_exact_match v blocks dims).
Proof. apply locate_first_from_block. Qed.

Lemma partial_from_block (v : string) (blocks : list TextBlock) (dims : Z * Z) :
  from_block blocks dims (_find_partial_match v blocks dims).
Proof.
  unfold _find_partial_match. cbv zeta.
  destruct (20 <? String.length v)%nat; [|apply locate_first_from_block].
  match goal with |- context[find ?p blocks] => destruct (find p blocks) as [block|] eqn:E end.
  - right. exists block. split; [|reflexivity].
    apply find_some in E. tauto.
  - apply locate_first_from_block.
Qed.

Lemma pattern_loop_from_block (patterns : list (string * Re.regex)) (v : string)
    (blocks : list TextBlock) (dims : Z * Z) :
  from_block blocks dims (pattern_loop patterns v blocks dims).
Proof.
  induction patterns as [|[name pattern] rest IH]; simpl.
  - left. reflexivity.
  - destruct (Re.search pattern v); [|exact IH].
    match goal with |- context[find ?p blocks] => destruct (find p blocks) as [block|] eqn:E end.
    + right. exists block. split; [|reflexivity].
      apply find_some in E. tauto.
    + exact IH.
Qed.

Lemma in_firstn {A : Type} (n : nat) (x : A) (l : list A) :
  In x (firstn n l) -> In x l.
Proof.
  revert l. induction n as [|n IH]; intros [|y l]; simpl; try tauto.
  intros [H|H]; [left; exact H|right; apply IH; exact H].
Qed.

Lemma contextual_loop_from_block (value_lower : string) (sorted_blocks : list TextBlock)
    (dims : Z * Z) :
  from_block sorted_blocks dims (contextual_loop value_lower sorted_blocks dims).
Proof.
  assert (Hweak : forall l b r, from_block l dims r -> from_block (b :: l) dims r).
  { intros l b r [->|[block [Hin ->]]]; [left; reflexivity|].
    right. exists block. split; [right; exact Hin|reflexivity]. }
  induction sorted_blocks as [|block rest IH]; cbn [contextual_loop].
  - left. reflexivity.
  - destruct (PyStr.any_in label_keywords (block_text_lower block)); [|apply Hweak, IH].
    match goal with
    | |- context[find ?p (firstn 4 rest)] =>
        destruct (find p (firstn 4 rest)) as [nearby|] eqn:E
    end.
    + right. exists nearby. split; [|reflexivity].
      apply find_some in E. right. apply (in_firstn 4). tauto.
    + apply Hweak, IH.
Qed.

Lemma contextual_from_block (v : string) (blocks : list TextBlock) (dims : Z * Z) :
  from_block blocks dims (_find_contextual_match v blocks dims).
Proof.
  unfold _find_contextual_match.
  destruct (contextual_loop_from_block (PyStr.lower v)
              (sorted reading_order_leb blocks) dims) as [->|[block [Hin ->]]].
  - left. reflexivity.
  - right. exists block. split; [apply in_sorted in Hin; exact Hin|reflexivity].
Qed.

Lemma fuzzy_from_block (ratio : string -> string -> Q) (v : string)
    (blocks : list TextBlock) (dims : Z * Z) :
  from_block blocks dims (_find_fuzzy_match ratio v blocks dims).
Proof.
  unfold _find_fuzzy_match.
  assert (H : forall l st,
             (forall b, fst st = Some b -> In b blocks) ->
             (forall b, In b l -> In b blocks) ->
             forall b, fst (fold_left (fuzzy_step ratio (PyStr.lower v)) l st) = Some b ->
                       In b blocks).
  { induction l as [|x l IH]; intros st Hst Hl b; simpl.
    - apply Hst.
    - apply IH.
      + intros b'. unfold fuzzy_step.
        destruct (Qltb 0.8 _ && Qltb (snd st) _); [|apply Hst].
        simpl. intros Hb. injection Hb as <-. apply Hl. left. reflexivity.
      + intros b' Hb'. apply Hl. right. exact Hb'. }
  destruct (fst (fold_left (fuzzy_step ratio (PyStr.lower v)) blocks (None, 0)))
    as [best|] eqn:E.
  - right. exists best. split; [|reflexivity].
    apply (H blocks (None, 0)); [discriminate|auto|exact E].
  - left. reflexivity.
Qed.

Lemma strategies_from_block (ratio : string -> string -> Q) (v : string)
    (blocks : list TextBlock) (dims : Z * Z)
    (s : string -> list TextBlock -> Z * Z -> Result (option FieldLocation)) :
  In s (strategies ratio) -> from_block blocks dims (s v blocks dims).
Proof.
  intros [<-|[<-|[<-|[<-|[<-|[]]]]]].
  - apply exact_from_block.
  - apply fuzzy_from_block.
  - apply partial_from_block.
  - apply pattern_loop_from_block.
  - apply contextual_from_block.
Qed.

(** The resolver's body returns nothing, or what it makes of the box of
    one block. *)
Lemma resolver_from_block (ratio : string -> string -> Q) (v : string)
    (ocr_results : OcrResults) :
  find_field_location_body ratio v ocr_results = Ok None
  \/ exists block,
       In block (text_blocks ocr_results)
       /\ find_field_location_body ratio v ocr_results
          = (loc <- block_location block (image_dimensions ocr_results) ;;
             Ok (Some (_refine_bounding_box loc (PyStr.strip v)))).
Proof.
  unfold find_field_location_body. cbv zeta.
  destruct (text_blocks ocr_results) as [|b0 bs] eqn:Eb; [left; reflexivity|].
  destruct (negb (PyStr.truthy v)); [left; reflexivity|].
  rewrite <- Eb.
  assert (Hhit : forall block,
             (loc <- block_location block (image_dimensions ocr_results) ;; Ok (Some loc))
             = Raise "ZeroDivisionError"
             \/ exists loc,
                  (loc <- block_location block (image_dimensions ocr_results) ;;
                   Ok (Some loc)) = Ok (Some loc)
                  /\ block_location block (image_dimensions ocr_results) = Ok loc).
  { intros block. unfold block_location.
    destruct ((fst (image_dimensions ocr_results) =? 0)%Z
              || (snd (image_dimensions ocr_results) =? 0)%Z).
    - left. reflexivity.
    - right. eexists. split; reflexivity. }
  assert (Hstep : forall (r : Result (option FieldLocation))
                         (rest : Result (option FieldLocation)),
             from_block (text_blocks ocr_results) (image_dimensions ocr_results) r ->
             (rest = Ok None
              \/ exists block,
                   In block (text_blocks ocr_results)
                   /\ rest
                      = (loc <- block_location block (image_dimensions ocr_results) ;;
                         Ok (Some (_refine_bounding_box loc (PyStr.strip v))))) ->
             let body :=
               (location <- r ;;
                match location with
                | Some loc =>
                    Ok (Some (_improve_location_accuracy ratio "" (PyStr.strip v)
                                loc ocr_results))
                | None => rest
                end) in
             body = Ok None
             \/ exists block,
                  In block (text_blocks ocr_results)
                  /\ body
                     = (loc <- block_location block (image_dimensions ocr_results) ;;
                        Ok (Some (_refine_bounding_box loc (PyStr.strip v))))).
  { intros r rest [->|[block [Hin ->]]] Hrest; cbv zeta.
    - exact Hrest.
    - right. exists block. split; [exact Hin|].
      destruct (Hhit block) as [E|[loc [E Eloc]]]; rewrite E.
      + unfold block_location in *.
        destruct ((fst (image_dimensions ocr_results) =? 0)%Z
                  || (snd (image_dimensions ocr_results) =? 0)%Z);
          [reflexivity|discriminate E].
      + rewrite Eloc. simpl. rewrite improve_is_refine. reflexivity. }
  apply Hstep; [apply exact_from_block|].
  apply Hstep; [apply fuzzy_from_block|].
  apply Hstep; [apply partial_from_block|].
  apply Hstep; [apply pattern_loop_from_block|].
  apply Hstep; [apply contextual_from_block|].
  left. reflexivity.
Qed.

(** X14.  The resolver invents no box: a hit of any strategy is the box of
    one of the OCR blocks, scaled by the image dimensions, and a location
    returned by the resolver is the refinement of such a box for the
    stripped value. *)
Theorem locations_come_from_blocks (ratio : string -> string -> Q) :
  (forall s v blocks dims loc,
      In s (strategies ratio) ->
      s v blocks dims = Ok (Some loc) ->
      exists block, In block blocks /\ block_location block dims = Ok loc)
  /\ (forall v ocr_results loc,
         _find_field_location ratio v ocr_results = Some loc ->
         exists block raw,
           In block (text_blocks ocr_results)
           /\ block_location block (image_dimensions ocr_results) = Ok raw
           /\ loc = _refine_bounding_box raw (PyStr.strip v)).
Proof.
  split.
  - intros s v blocks dims loc Hs Hhit.
    destruct (strategies_from_block ratio v blocks dims s Hs) as [E|[block [Hin E]]];
      rewrite E in Hhit; [discriminate|].
    exists block. split; [exact Hin|].
    destruct (block_location block dims) as [raw|e]; simpl in Hhit; [|discriminate].
    congruence.
  - intros v ocr_results loc. unfold _find_field_location.
    destruct (resolver_from_block ratio v ocr_results) as [->|[block [Hin ->]]];
      [discriminate|].
    destruct (block_location block (image_dimensions ocr_results)) as [raw|e] eqn:E;
      simpl; [|discriminate].
    intros H. injection H as <-. exists block, raw. auto.
Qed.

Lemma locations_come_from_blocks_witness :
  exists block raw,
    In block (text_blocks invoice_page)
    /\ block_location block (image_dimensions invoice_page) = Ok raw
    /\ mkLocation (100 # 1000) (200 # 1200) (200 # 1000) (20 # 1200)
       = _refine_bounding_box raw (PyStr.strip "INV-2025-001").
Proof.
  destruct (locations_come_from_blocks no_similarity) as [_ H].
  apply (H "INV-2025-001" invoice_page). vm_compute. reflexivity.
Defined.

(** X15.  When the OCR results give a zero width or a zero height for the
    image, the resolver finds no location, whatever the value and the
    blocks: every hit divides by the dimension and the exception is
    swallowed. *)
Theorem zero_dimension_gives_no_location (ratio : string -> string -> Q) (v : string)
    (ocr_results : OcrResults) :
  fst (image_dimensions ocr_results) = 0%Z \/ snd (image_dimensions ocr_results) = 0%Z ->
  _find_field_location ratio v ocr_results = None.
Proof.
  intros Hzero. unfold _find_field_location.
  destruct (resolver_from_block ratio v ocr_results) as [->|[block [_ ->]]];
    [reflexivity|].
  unfold block_location.
  replace ((fst (image_dimensions ocr_results) =? 0)%Z
           || (snd (image_dimensions ocr_results) =? 0)%Z) with true; [reflexivity|].
  symmetry. apply orb_true_iff.
  destruct Hzero as [H|H]; [left|right]; rewrite H; reflexivity.
Qed.

Lemma zero_dimension_gives_no_location_witness :
  _find_field_location no_similarity "INV-2025-001"
    (mkOcr (text_blocks invoice_page) (0%Z, 1200%Z)) = None.
Proof.
  apply zero_dimension_gives_no_location. left. reflexivity.
Defined.

End Grounding.

(** ** Refinement of a box and the neighbours of a block *)

Section Refinement.
Import Universal Production.

Lemma refine_sized (loc : FieldLocation) (field_value : string) :
  ~ loc_width loc == 0 -> ~ loc_height loc == 0 ->
  _refine_bounding_box loc field_value
  = let min_width := Qmax 0.02 (Q_of_nat (String.length field_value) * 0.008) in
    let adjusted_width := Qmax (loc_width loc) min_width in
    let adjusted_height := Qmax (loc_height loc) 0.015 in
    mkLocation (Qmin (loc_x loc) (1 - adjusted_width))
               (Qmin (loc_y loc) (1 - adjusted_height))
               adjusted_width adjusted_height.
Proof.
  intros Hw Hh. unfold _refine_bounding_box.
  rewrite (Qeq_bool_false _ _ Hw), (Qeq_bool_false _ _ Hh). reflexivity.
Qed.

(** X16.  The refinement of a box with a width and a height never shrinks
    it and never moves it right or down; the refined box is at least
    0.02 wide and 0.015 high and ends within the page on the right and at
    the bottom; refining once more changes nothing. *)
Theorem refine_fits_page_once (loc : FieldLocation) (field_value : string) :
  ~ loc_width loc == 0 -> ~ loc_height loc == 0 ->
  let r := _refine_bounding_box loc field_value in
  let r' := _refine_bounding_box r field_value in
  loc_width loc <= loc_width r /\ loc_height loc <= loc_height r
  /\ loc_x r <= loc_x loc /\ loc_y r <= loc_y loc
  /\ 0.02 <= loc_width r /\ 0.015 <= loc_height r
  /\ loc_x r + loc_width r <= 1 /\ loc_y r + loc_height r <= 1
  /\ loc_x r' == loc_x r /\ loc_y r' == loc_y r
  /\ loc_width r' == loc_width r /\ loc_height r' == loc_height r.
Proof.
  intros Hw Hh. cbv zeta.
  rewrite (refine_sized loc field_value Hw Hh). cbv zeta.
  set (m := Qmax 0.02 (Q_of_nat (String.length field_value) * 0.008)).
  set (W := Qmax (loc_width loc) m).
  set (H := Qmax (loc_height loc) 0.015).
  assert (Hm : 0.02 <= m) by apply Qmax_ge_l.
  assert (HWm : m <= W) by apply Qmax_ge_r.
  assert (HWw : loc_width loc <= W) by apply Qmax_ge_l.
  assert (HHh : loc_height loc <= H) by apply Qmax_ge_l.
  assert (HH : 0.015 <= H) by apply Qmax_ge_r.
  assert (HX : Qmin (loc_x loc) (1 - W) <= 1 - W) by apply Qmin_le_r.
  assert (HY : Qmin (loc_y loc) (1 - H) <= 1 - H) by apply Qmin_le_r.
  rewrite refine_sized; cbn [loc_x loc_y loc_width loc_height]; try lra.
  cbv zeta. fold m.
  assert (EW : Qmax W m == W).
  { destruct (Qmax_cases W m) as [[Hle ->]|[Hlt ->]]; lra. }
  assert (EH : Qmax H 0.015 == H).
  { destruct (Qmax_cases H 0.015) as [[Hle ->]|[Hlt ->]]; lra. }
  repeat split; try lra; try apply Qmin_le_l.
  - destruct (Qmin_cases (Qmin (loc_x loc) (1 - W)) (1 - Qmax W m)) as [[Hle ->]|[Hlt ->]];
      lra.
  - destruct (Qmin_cases (Qmin (loc_y loc) (1 - H)) (1 - Qmax H 0.015))
      as [[Hle ->]|[Hlt ->]]; lra.
Qed.

Lemma refine_fits_page_once_witness :
  0.02 <= loc_width (_refine_bounding_box (mkLocation 0.995 0.5 0.001 0.001) "42")
  /\ loc_x (_refine_bounding_box (mkLocation 0.995 0.5 0.001 0.001) "42")
     + loc_width (_refine_bounding_box (mkLocation 0.995 0.5 0.001 0.001) "42") <= 1.
Proof.
  destruct (refine_fits_page_once (mkLocation 0.995 0.5 0.001 0.001) "42")
    as [_ [_ [_ [_ [Hw [_ [H _]]]]]]].
  - vm_compute. discriminate.
  - vm_compute. discriminate.
  - split; [exact Hw|exact H].
Defined.

Lemma insert_sorted_keeps_order {A : Type} (leb : A -> A -> bool) (x : A) (l : list A) :
  (forall a b, leb a b = false -> leb b a = true) ->
  Sorted (fun a b => leb a b = true) l ->
  Sorted (fun a b => leb a b = true) (insert_sorted leb x l).
Proof.
  intros Htotal Hl. induction Hl as [|y l Hl IH Hhd]; simpl.
  - constructor; constructor.
  - destruct (leb y x) eqn:E.
    + constructor; [exact IH|].
      destruct l as [|z l]; simpl.
      * constructor. exact E.
      * destruct (leb z x); constructor; [|exact E].
        inversion Hhd; assumption.
    + constructor; [constructor; assumption|].
      constructor. apply Htotal. exact E.
Qed.

Lemma sorted_keeps_order {A : Type} (leb : A -> A -> bool) (l : list A) :
  (forall a b, leb a b = false -> leb b a = true) ->
  Sorted (fun a b => leb a b = true) (sorted leb l).
Proof.
  intros Htotal. unfold sorted.
  assert (H : forall acc, Sorted (fun a b => leb a b = true) acc ->
                          Sorted (fun a b => leb a b = true)
                            (fold_left (fun acc x => insert_sorted leb x acc) l acc)).
  { induction l as [|x l IH]; intros acc Hacc; simpl; [exact Hacc|].
    apply IH, insert_sorted_keeps_order; assumption. }
  apply H. constructor.
Qed.

Lemma bbox_eqb_refl (b : BoundingBox) : bbox_eqb b b = true.
Proof. unfold bbox_eqb. rewrite !Z.eqb_refl. reflexivity. Qed.

Lemma block_eqb_refl (b : TextBlock) : block_eqb b b = true.
Proof.
  unfold block_eqb.
  rewrite String.eqb_refl, bbox_eqb_refl, !Z.eqb_refl.
  assert (E : Qeq_bool (block_confidence b) (block_confidence b) = true)
    by (apply Qeq_bool_iff; reflexivity).
  rewrite E. reflexivity.
Qed.

(** X17.  The neighbours of a block within a distance are exactly the
    blocks of the list that differ from it and whose centre is no further
    away than the distance; they come nearest first, and the block itself
    is never among them. *)
Theorem close_blocks_are_near_and_ordered (reference_block : TextBlock)
    (blocks : list TextBlock) (max_distance : Q) :
  0 <= max_distance ->
  let close := _find_spatially_close_blocks reference_block blocks max_distance in
  (forall block,
      In block close
      <-> In block blocks
          /\ block_eqb block reference_block = false
          /\ distance2 block reference_block <= max_distance * max_distance)
  /\ Sorted (fun a b => distance2 a reference_block <= distance2 b reference_block) close
  /\ ~ In reference_block close.
Proof.
  intros _. cbv zeta. unfold _find_spatially_close_blocks. cbv zeta.
  assert (Hin : forall block,
             In block
               (sorted (fun a b => Qleb (distance2 a reference_block)
                                        (distance2 b reference_block))
                  (filter (fun block =>
                             negb (block_eqb block reference_block)
                             && Qleb (distance2 block reference_block)
                                     (max_distance * max_distance)) blocks))
             <-> In block blocks
                 /\ block_eqb block reference_block = false
                 /\ distance2 block reference_block <= max_distance * max_distance).
  { intros block. rewrite in_sorted, filter_In, andb_true_iff, negb_true_iff, Qleb_true.
    tauto. }
  split; [exact Hin|]. split.
  - match goal with
    | |- Sorted _ (sorted ?leb ?l) =>
        pose proof (sorted_keeps_order leb l) as Hs
    end.
    eapply Sorted_ind with (P := fun l => Sorted _ l);
      [constructor| |apply Hs].
    + intros a l _ IH Hhd. constructor; [exact IH|].
      destruct Hhd; constructor. apply Qleb_true. assumption.
    + intros a b E. apply Qleb_false in E. apply Qleb_true. lra.
  - intros Habs. apply Hin in Habs. destruct Habs as [_ [E _]].
    rewrite block_eqb_refl in E. discriminate.
Qed.

Lemma close_blocks_are_near_and_ordered_witness :
  Sorted (fun a b => distance2 a (block_at "Invoice" 100 50 300 80)
                     <= distance2 b (block_at "Invoice" 100 50 300 80))
    (_find_spatially_close_blocks (block_at "Invoice" 100 50 300 80)
       (text_blocks invoice_page) 200).
Proof.
  destruct (close_blocks_are_near_and_ordered (block_at "Invoice" 100 50 300 80)
              (text_blocks invoice_page) 200) as [_ [H _]].
  - vm_compute. discriminate.
  - exact H.
Defined.

End Refinement.

(** ** The statistics of the production service *)

Section ProductionStatistics.
Import Production.

(** The result of a call; it does not depend on the state of the
    service. *)
Definition result_of (req : ProductionStats.Request) : DocumentProcessingResult :=
  fst (process_document_production (ProductionStats.world req)
         (ProductionStats.requested_type req) (ProductionStats.custom_fields req)
         (ProductionStats.accuracy_mode req)).

Definition completed (r : DocumentProcessingResult) : bool :=
  match status r with COMPLETED => true | FAILED => false end.

Definition by_type_total (d : PyDict.dict nat) : nat := list_sum (map snd d).

(** The statistics after a sequence of results. *)
Definition tally (stats : ProductionStats.ProcessingStats)
    (requests : list ProductionStats.Request) : ProductionStats.ProcessingStats :=
  fold_left
    (fun stats req =>
       ProductionStats._update_stats stats (result_of req)
         (ProductionStats.processing_time req))
    requests stats.

Lemma serve_stats (requests : list ProductionStats.Request)
    (st : ProductionStats.ServiceState) :
  ProductionStats.processing_stats (ProductionStats.serve requests st)
  = tally (ProductionStats.processing_stats st) requests.
Proof.
  unfold ProductionStats.serve, tally. revert st.
  induction requests as [|req requests IH]; intros st; simpl; [reflexivity|].
  rewrite IH. reflexivity.
Qed.

Lemma count_one_total (k : string) (d : PyDict.dict nat) :
  by_type_total (ProductionStats.count_one k d) = S (by_type_total d).
Proof.
  unfold ProductionStats.count_one, by_type_total.
  induction d as [|[k0 n0] d IH]; simpl.
  - reflexivity.
  - destruct (String.eqb k k0); simpl; lia.
Qed.

(** The counters agree with each other. *)
Definition counters_agree (stats : ProductionStats.ProcessingStats) : Prop :=
  (ProductionStats.successful stats + ProductionStats.failed stats
   = ProductionStats.total_processed stats)%nat
  /\ (ProductionStats.high (ProductionStats.confidence_distribution stats)
      + ProductionStats.medium (ProductionStats.confidence_distribution stats)
      + ProductionStats.low (ProductionStats.confidence_distribution stats)
      = ProductionStats.successful stats)%nat
  /\ by_type_total (ProductionStats.by_type stats) = ProductionStats.successful stats.

Lemma update_stats_agree (stats : ProductionStats.ProcessingStats)
    (r : DocumentProcessingResult) (time : Q) :
  counters_agree stats -> counters_agree (ProductionStats._update_stats stats r time).
Proof.
  unfold counters_agree, ProductionStats._update_stats.
  intros [H1 [H2 H3]]. cbv zeta.
  destruct (status r); cbn [ProductionStats.successful ProductionStats.failed
    ProductionStats.total_processed ProductionStats.confidence_distribution
    ProductionStats.by_type].
  - rewrite count_one_total.
    destruct (Qleb 0.9 (overall_confidence r)); [|destruct (Qleb 0.7 (overall_confidence r))];
      cbn [ProductionStats.high ProductionStats.medium ProductionStats.low]; lia.
  - lia.
Qed.

Lemma update_stats_counts (stats : ProductionStats.ProcessingStats)
    (r : DocumentProcessingResult) (time : Q) :
  let stats' := ProductionStats._update_stats stats r time in
  ProductionStats.total_processed stats' = S (ProductionStats.total_processed stats)
  /\ ProductionStats.successful stats'
     = ((if completed r then 1 else 0) + ProductionStats.successful stats)%nat
  /\ ProductionStats.failed stats'
     = ((if completed r then 0 else 1) + ProductionStats.failed stats)%nat.
Proof.
  cbv zeta. unfold ProductionStats._update_stats, completed.
  destruct (status r); cbn; auto.
Qed.

Lemma tally_counts (requests : list ProductionStats.Request)
    (stats : ProductionStats.ProcessingStats) :
  counters_agree stats ->
  let stats' := tally stats requests in
  counters_agree stats'
  /\ ProductionStats.total_processed stats'
     = (List.length requests + ProductionStats.total_processed stats)%nat
  /\ ProductionStats.successful stats'
     = (List.length (filter completed (map result_of requests))
        + ProductionStats.successful stats)%nat.
Proof.
  cbv zeta. unfold tally. revert stats.
  induction requests as [|req requests IH]; intros stats Hagree; cbn [fold_left].
  - simpl. auto.
  - destruct (IH _ (update_stats_agree stats (result_of req)
                      (ProductionStats.processing_time req) Hagree)) as [Ha [Ht Hs]].
    destruct (update_stats_counts stats (result_of req)
                (ProductionStats.processing_time req)) as [Et [Es _]].
    split; [exact Ha|]. rewrite Ht, Hs, Et, Es. cbn [map filter List.length].
    destruct (completed (result_of req)); cbn [List.length]; lia.
Qed.

(** X18.  After any sequence of calls of the production service, started
    fresh, the statistics count every call once: the total is the number
    of calls, the successes are the completed results and the failures the
    rest; the three classes of the confidence distribution and the counts
    by type each add up to the successes. *)
Theorem production_stats_count_every_call (requests : list ProductionStats.Request) :
  let stats :=
    ProductionStats.processing_stats
      (ProductionStats.serve requests ProductionStats.initial_state) in
  let dist := ProductionStats.confidence_distribution stats in
  ProductionStats.total_processed stats = List.length requests
  /\ ProductionStats.successful stats
     = List.length (filter completed (map result_of requests))
  /\ (ProductionStats.successful stats + ProductionStats.failed stats
      = List.length requests)%nat
  /\ (ProductionStats.high dist + ProductionStats.medium dist + ProductionStats.low dist
      = ProductionStats.successful stats)%nat
  /\ by_type_total (ProductionStats.by_type stats) = ProductionStats.successful stats.
Proof.
  cbv zeta. rewrite serve_stats.
  destruct (tally_counts requests ProductionStats.initial_stats) as [[H1 [H2 H3]] [Ht Hs]].
  { repeat split. }
  cbn [ProductionStats.processing_stats ProductionStats.initial_state] in *.
  cbn [ProductionStats.initial_stats ProductionStats.total_processed
       ProductionStats.successful] in Ht, Hs.
  rewrite Nat.add_0_r in Ht, Hs.
  split; [exact Ht|]. split; [exact Hs|]. split; [lia|].
  split; [exact H2|exact H3].
Qed.

Lemma running_average_between (lo hi avg x : Q) (n : nat) :
  lo <= avg <= hi -> lo <= x <= hi ->
  lo <= ProductionStats.running_average avg (S n) x <= hi.
Proof.
  intros [Ha1 Ha2] [Hx1 Hx2]. unfold ProductionStats.running_average.
  replace (Z.of_nat (S n) - 1)%Z with (Z.of_nat n) by lia.
  assert (Hn : 0 <= inject_Z (Z.of_nat n)) by apply Q_of_nat_nonneg.
  assert (HS : inject_Z (Z.of_nat (S n)) == inject_Z (Z.of_nat n) + 1).
  { rewrite Nat2Z.inj_succ. unfold Z.succ. rewrite inject_Z_plus. reflexivity. }
  assert (Hpos : 0 < inject_Z (Z.of_nat (S n))) by lra.
  set (m := inject_Z (Z.of_nat n)) in *.
  split.
  - apply Qle_shift_div_l; [exact Hpos|]. rewrite HS. nra.
  - apply Qle_shift_div_r; [exact Hpos|]. rewrite HS. nra.
Qed.

(** X19.  The average confidence kept by the production service is in
    [0,1] after any sequence of calls. *)
Theorem production_average_confidence (requests : list ProductionStats.Request) :
  let stats :=
    ProductionStats.processing_stats
      (ProductionStats.serve requests ProductionStats.initial_state) in
  0 <= ProductionStats.avg_confidence stats <= 1.
Proof.
  cbv zeta. rewrite serve_stats.
  cbn [ProductionStats.processing_stats ProductionStats.initial_state].
  assert (H : forall stats,
             0 <= ProductionStats.avg_confidence stats <= 1 ->
             0 <= ProductionStats.avg_confidence (tally stats requests) <= 1).
  { unfold tally. induction requests as [|req requests IH]; intros stats Hs;
      cbn [fold_left]; [exact Hs|].
    apply IH. unfold ProductionStats._update_stats.
    destruct (status (result_of req)); cbn [ProductionStats.avg_confidence];
      [|exact Hs].
    apply running_average_between; [exact Hs|].
    unfold result_of.
    destruct (production_session_facts (ProductionStats.world req)
                (ProductionStats.requested_type req)
                (ProductionStats.custom_fields req)
                (ProductionStats.accuracy_mode req)) as [_ [_ [H _]]].
    exact H. }
  apply H. simpl. lra.
Qed.

End ProductionStatistics.

(** ** The sessions of the enterprise service *)

Section EnterpriseSessions.
Import EnterpriseService.

(** [s[n:]] *)
Fixpoint string_drop (n : nat) (s : string) : string :=
  match n, s with
  | O, _ => s
  | S n', String _ s' => string_drop n' s'
  | S _, EmptyString => EmptyString
  end.

Lemma regroup_aux_drops (s : string) :
  forall skip, regroup_aux skip s = string_drop skip s.
Proof.
  induction s as [|c s IH]; intros skip.
  - destruct skip; reflexivity.
  - destruct skip as [|n]; [|cbn [regroup_aux string_drop]; apply IH].
    cbn [regroup_aux string_drop].
    assert (Hplain : String c (regroup_aux 0 s) = String c s).
    { rewrite IH. reflexivity. }
    destruct s as [|c1 [|d1 [|d2 [|d3 rest]]]]; try exact Hplain.
    destruct (PyStr.is_digit c && Ascii.eqb c1 "," && PyStr.is_digit d1
              && PyStr.is_digit d2 && PyStr.is_digit d3) eqn:E; [|exact Hplain].
    rewrite IH. cbn [string_drop].
    repeat (apply andb_true_iff in E; destruct E as [E ?]).
    match goal with H : Ascii.eqb c1 _ = true |- _ => apply Ascii.eqb_eq in H; subst c1 end.
    reflexivity.
Qed.

(** X20.  The comma substitution of the currency cleaning replaces each
    match by itself: it changes no text.  The cleaning of a value under a
    name with a currency term, and no date or name term, therefore only
    strips it and joins its words with single spaces. *)
Theorem currency_cleaning_only_normalises_spaces :
  (forall s, regroup s = s)
  /\ (forall field_name v,
         PyStr.any_in currency_terms (PyStr.lower field_name) = true ->
         PyStr.any_in date_terms (PyStr.lower field_name) = false ->
         PyStr.any_in name_terms (PyStr.lower field_name) = false ->
         _clean_field_value field_name v
         = PyStr.join " " (PyStr.split_ws (PyStr.strip v))).
Proof.
  assert (Hregroup : forall s, regroup s = s).
  { intros s. unfold regroup. rewrite regroup_aux_drops. reflexivity. }
  split; [exact Hregroup|].
  intros field_name v Hc Hd Hn. unfold _clean_field_value.
  destruct v as [|c v]; [reflexivity|].
  cbn [PyStr.truthy negb]. cbv zeta. rewrite Hc, Hd, Hn. apply Hregroup.
Qed.

Lemma currency_cleaning_only_normalises_spaces_witness :
  _clean_field_value "total_amount" "  $1,234.56   USD "
  = PyStr.join " " (PyStr.split_ws (PyStr.strip "  $1,234.56   USD ")).
Proof.
  destruct currency_cleaning_only_normalises_spaces as [_ H].
  apply H; reflexivity.
Defined.

(** The field that post-processing makes of a field. *)
Definition processed_field (t : DocumentType) (field_name : string)
    (field : ExtractedField) : ExtractedField :=
  let cleaned_value := _clean_field_value field_name (value field) in
  let validation_errors := _validate_field_format field_name cleaned_value t in
  let adjusted_confidence :=
    match validation_errors with
    | [] => confidence field
    | _ => confidence field * 0.8
    end in
  mkField cleaned_value adjusted_confidence (_get_confidence_level adjusted_confidence)
    (location field) (original_text field) validation_errors.

Lemma post_process_field_ok (t : DocumentType) (field_name : string)
    (field : ExtractedField) :
  in_unit_range field ->
  post_process_field t field_name field = Ok (processed_field t field_name field).
Proof.
  unfold in_unit_range, post_process_field, processed_field, new_ExtractedField.
  intros [H0 H1]. cbv zeta.
  set (c := match _validate_field_format _ _ _ with
            | [] => confidence field
            | _ => confidence field * 0.8
            end).
  assert (Hc : 0 <= c <= 1).
  { unfold c. destruct (_validate_field_format _ _ _); lra. }
  destruct Hc as [Hc0 Hc1].
  apply Qleb_true in Hc0. apply Qleb_true in Hc1. rewrite Hc0, Hc1. reflexivity.
Qed.

Lemma set_fresh {V : Type} (k : string) (v : V) (d : PyDict.dict V) :
  ~ In k (PyDict.keys d) -> PyDict.set k v d = (d ++ [(k, v)])%list.
Proof.
  induction d as [|[k0 v0] d IH]; simpl; intros H; [reflexivity|].
  destruct (String.eqb k k0) eqn:E.
  - apply String.eqb_eq in E. subst. tauto.
  - rewrite IH by tauto. reflexivity.
Qed.

Lemma post_process_fields_ok (d : Fields) (t : DocumentType) :
  PyDict.wf d ->
  (forall k f, In (k, f) d -> in_unit_range f) ->
  _post_process_fields d t = Ok (PyDict.map_items (processed_field t) d).
Proof.
  unfold _post_process_fields, PyDict.wf.
  assert (H : forall items done,
             NoDup (PyDict.keys (done ++ items)%list) ->
             (forall k f, In (k, f) items -> in_unit_range f) ->
             fold_left
               (fun acc (item : string * ExtractedField) =>
                  processed_fields <- acc ;;
                  f <- post_process_field t (fst item) (snd item) ;;
                  Ok (PyDict.set (fst item) f processed_fields))
               items (Ok (PyDict.map_items (processed_field t) done))
             = Ok (PyDict.map_items (processed_field t) (done ++ items)%list)).
  { induction items as [|[k f] items IH]; intros done Hnd Hall; cbn [fold_left].
    - rewrite app_nil_r. reflexivity.
    - cbn [bind fst snd].
      rewrite post_process_field_ok by (apply (Hall k); left; reflexivity).
      cbn [bind]. rewrite set_fresh.
      + replace (done ++ (k, f) :: items)%list with ((done ++ [(k, f)]) ++ items)%list
          by (rewrite <- app_assoc; reflexivity).
        rewrite <- IH.
        * unfold PyDict.map_items. rewrite map_app. reflexivity.
        * rewrite <- app_assoc. exact Hnd.
        * intros k' f' Hin. apply (Hall k'). right. exact Hin.
      + rewrite keys_map_items. unfold PyDict.keys in *.
        rewrite map_app in Hnd. apply NoDup_remove_2 in Hnd.
        intros Hin. apply Hnd. apply in_or_app. left. exact Hin. }
  intros Hwf Hall. apply (H d [] Hwf Hall).
Qed.

Lemma mock_fields_in_range (t : DocumentType) (k : string) (f : ExtractedField) :
  In (k, f) (Gemini.mock_fields t) -> in_unit_range f.
Proof.
  assert (H : forallb (fun item : string * ExtractedField =>
                         Qleb 0 (confidence (snd item)) && Qleb (confidence (snd item)) 1)
                      (Gemini.mock_fields t) = true)
    by (destruct t; vm_compute; reflexivity).
  intros Hin. rewrite forallb_forall in H. specialize (H _ Hin).
  apply andb_true_iff in H. destruct H as [H0 H1].
  apply Qleb_true in H0. apply Qleb_true in H1. split; assumption.
Qed.

Lemma convert_fields_in_range (result : PyDict.dict RawEntry) (d : Fields) :
  Gemini._convert_to_extracted_fields result = Ok d ->
  forall k f, In (k, f) d -> in_unit_range f.
Proof.
  unfold Gemini._convert_to_extracted_fields.
  assert (Hraise : forall items e,
            fold_left Gemini.convert_entry items (Raise e) = Raise e).
  { induction items as [|item items IH]; intros e; simpl; [reflexivity|apply IH]. }
  assert (H : forall items (d0 : Fields),
            (forall k f, In (k, f) d0 -> in_unit_range f) ->
            fold_left Gemini.convert_entry items (Ok d0) = Ok d ->
            forall k f, In (k, f) d -> in_unit_range f).
  { induction items as [|item items IH]; intros d0 Hd0; cbn [fold_left].
    - intros E. injection E as <-. exact Hd0.
    - destruct (Gemini.convert_entry (Ok d0) item) as [d1|e] eqn:E1.
      + apply IH. unfold Gemini.convert_entry in E1. cbn [bind] in E1.
        destruct (match snd item with
                  | EntryDict v c _ =>
                      conf <- float_of_confidence c ;;
                      Ok (match v with Some s => s | None => EmptyString end, conf)
                  | EntryOther s => Ok (s, 0.7)
                  end) as [vc|e]; cbn [bind] in E1; [|discriminate].
        destruct (new_ExtractedField (fst vc) (snd vc) (_get_confidence_level (snd vc))
                    None (Some (fst vc)) []) as [f0|e] eqn:Ef; cbn [bind] in E1;
          [|discriminate].
        injection E1 as <-. intros k f Hin. apply in_set in Hin.
        destruct Hin as [[_ ->]|Hin]; [|apply (Hd0 k f Hin)].
        apply new_ExtractedField_ok in Ef. destruct Ef as [-> Hr]. exact Hr.
      + rewrite Hraise. discriminate. }
  apply H. intros k f [].
Qed.

Lemma extract_fields_in_range (w : World) (t : DocumentType) (log : Log) (d : Fields) :
  fst (Gemini.extract_fields w t log) = Ok d ->
  forall k f, In (k, f) d -> in_unit_range f.
Proof.
  unfold Gemini.extract_fields.
  destruct (use_real_api w);
    [|cbn [fst]; intros E; injection E as <-; apply mock_fields_in_range].
  destruct (image_opens w); [|cbn [fst]; intros E; injection E as <-; intros k f []].
  destruct (generate_content w (List.length log) (ExtractFieldsCall t))
    as [[[|item data]|body|[|]]|e]; cbn [fst]; intros E.
  - injection E as <-. apply mock_fields_in_range.
  - injection E as <-.
    destruct (Gemini._convert_to_extracted_fields (item :: data)) as [d'|e] eqn:E';
      cbn [try_except]; [apply (convert_fields_in_range _ _ E')|intros k f []].
  - injection E as <-. apply mock_fields_in_range.
  - injection E as <-. intros k f [].
  - injection E as <-. apply mock_fields_in_range.
  - injection E as <-. intros k f [].
Qed.

(** The enhanced pipeline gives the fields of the standard one. *)
Lemma enhanced_pipeline_fields (s : Enterprise.Service) (c : Enterprise.Collaborators)
    (w : World) (t : DocumentType) (quality_mode : string) (log : Log) :
  exists ocr_results log',
    Enterprise._process_with_enhanced_pipeline s c w t quality_mode log
    = (match fst (Gemini.extract_fields w t log) with
       | Ok fields => Ok (fields, ocr_results)
       | Raise e => Raise e
       end, log').
Proof.
  destruct (extract_fields_run w t log) as [fields Hfields].
  rewrite Hfields. cbn [fst].
  unfold Enterprise._process_with_enhanced_pipeline, try_M, Enterprise.enhanced_attempt,
    Enterprise._process_with_standard_pipeline.
  assert (Hcall : forall (body : M Fields),
             PyCall.call Enterprise.process_document_enhanced_signature 3
               ["accuracy_mode"] body log = (Raise "TypeError", log))
    by reflexivity.
  destruct (Enterprise.enhanced_ocr s).
  - destruct (Enterprise.extract_text_with_layout c) as [ocr|e] eqn:Hocr.
    + erewrite bindM_ok by reflexivity.
      destruct (Enterprise.enhanced_gemini s).
      * erewrite bindM_raise by apply Hcall.
        erewrite bindM_ok by exact Hfields. eexists. eexists. reflexivity.
      * erewrite bindM_ok by exact Hfields. eexists. eexists. reflexivity.
    + erewrite bindM_raise by reflexivity.
      erewrite bindM_ok by exact Hfields. eexists. eexists. reflexivity.
  - erewrite bindM_ok by reflexivity.
    destruct (Enterprise.enhanced_gemini s).
    + erewrite bindM_raise by apply Hcall.
      erewrite bindM_ok by exact Hfields. eexists. eexists. reflexivity.
    + erewrite bindM_ok by exact Hfields. eexists. eexists. reflexivity.
Qed.

(** The fields of the standard pipeline in a fresh session. *)
Definition standard_fields (w : World) (t : DocumentType) : Fields :=
  match fst (Gemini.extract_fields w t []) with
  | Ok fields => fields
  | Raise _ => []
  end.

(** The type of the document and its confidence. *)
Definition session_type (req : Request) : DocumentType * Q :=
  match document_type req with
  | Some t => (t, 0.95)
  | None => detected req
  end.

(** The result that depends on the oracle, the type and nothing else. *)
Definition standard_result (req : Request) : Production.DocumentProcessingResult :=
  let data :=
    PyDict.map_items (processed_field (fst (session_type req)))
      (standard_fields (world req) (fst (session_type req))) in
  Production.mkResult Production.COMPLETED (fst (session_type req))
    (snd (session_type req)) data (_calculate_overall_confidence data) None.

Lemma extraction_steps_standard (s : Enterprise.Service) (req : Request)
    (t : DocumentType) :
  fst (extraction_steps s req t [])
  = Ok (PyDict.map_items (processed_field t) (standard_fields (world req) t)).
Proof.
  unfold extraction_steps, standard_fields.
  destruct (extract_fields_run (world req) t []) as [fields Hfields].
  pose proof (extract_fields_wf (world req) t [] fields) as Hwf.
  pose proof (extract_fields_in_range (world req) t [] fields) as Hrange.
  rewrite Hfields in Hwf, Hrange |- *. cbn [fst] in *.
  specialize (Hwf eq_refl). specialize (Hrange eq_refl).
  destruct (use_enhanced s && PyStr.mem (quality_mode req) ["balanced"; "high_accuracy"]).
  - destruct (enhanced_pipeline_fields s (collaborators req) (world req) t
                (quality_mode req) []) as [ocr [log' E]].
    rewrite Hfields in E. cbn [fst] in E.
    erewrite bindM_ok; [|erewrite bindM_ok by exact E; reflexivity].
    unfold lift. cbn [fst]. apply post_process_fields_ok; assumption.
  - unfold Enterprise._process_with_standard_pipeline.
    erewrite bindM_ok by exact Hfields.
    unfold lift. cbn [fst]. apply post_process_fields_ok; assumption.
Qed.

Lemma enterprise_result (s : Enterprise.Service) (st : ServiceState) (req : Request) :
  process_document_enterprise s st req
  = (standard_result req,
     mkState (PyDict.set (document_id req) (standard_result req) (documents st))
             (_update_processing_stats (processing_stats st) (standard_result req)
                (processing_time req))).
Proof.
  unfold process_document_enterprise, standard_result, session_type.
  destruct (match document_type req with
            | Some t => (t, 0.95)
            | None => detected req
            end) as [t type_confidence].
  rewrite extraction_steps_standard. reflexivity.
Qed.

(** X21.  A session of the enterprise service always completes, and its
    result is made of the oracle's replies and the type of the document
    alone: the fields are those of the standard pipeline, post-processed,
    whatever the quality mode, the enhanced services and the OCR
    collaborators. *)
Theorem enterprise_session_is_standard (s : Enterprise.Service) (st : ServiceState)
    (req : Request) :
  let r := fst (process_document_enterprise s st req) in
  r = standard_result req
  /\ Production.status r = Production.COMPLETED
  /\ Production.error_message r = None
  /\ Production.extracted_data r
     = PyDict.map_items (processed_field (fst (session_type req)))
         (standard_fields (world req) (fst (session_type req))).
Proof.
  cbv zeta. rewrite enterprise_result. cbn [fst]. repeat split.
Qed.

(** X22.  Post-processing keeps the names of the fields and their order;
    of each field it keeps the location and the original text, gives the
    cleaned value, the errors of the format check of that value alone and
    the level of the new confidence, which is the old one, or 0.8 times
    it when the check found an error. *)
Theorem post_process_keeps_fields (d : Fields) (t : DocumentType) :
  PyDict.wf d ->
  (forall k f, In (k, f) d -> in_unit_range f) ->
  exists d',
    _post_process_fields d t = Ok d'
    /\ PyDict.keys d' = PyDict.keys d
    /\ forall k f', In (k, f') d' ->
         exists f,
           In (k, f) d
           /\ value f' = _clean_field_value k (value f)
           /\ validation_errors f' = _validate_field_format k (value f') t
           /\ location f' = location f
           /\ original_text f' = original_text f
           /\ level_consistent f'
           /\ in_unit_range f'
           /\ (validation_errors f' = [] -> confidence f' = confidence f)
           /\ (validation_errors f' <> [] -> confidence f' = confidence f * 0.8).
Proof.
  intros Hwf Hall. exists (PyDict.map_items (processed_field t) d).
  split; [apply post_process_fields_ok; assumption|].
  split; [apply keys_map_items|].
  intros k f' Hin. apply in_map_items in Hin. destruct Hin as [f [Hin ->]].
  exists f. split; [exact Hin|].
  pose proof (Hall k f Hin) as [H0 H1].
  unfold processed_field, level_consistent, in_unit_range. cbv zeta.
  cbn [value validation_errors location original_text confidence confidence_level].
  repeat split; try reflexivity.
  - destruct (_validate_field_format _ _ _); lra.
  - destruct (_validate_field_format _ _ _); lra.
  - intros ->. reflexivity.
  - destruct (_validate_field_format _ _ _); [congruence|reflexivity].
Qed.

Lemma post_process_keeps_fields_witness :
  exists d',
    _post_process_fields (Gemini.mock_fields INVOICE) INVOICE = Ok d'
    /\ PyDict.keys d' = PyDict.keys (Gemini.mock_fields INVOICE).
Proof.
  destruct (post_process_keeps_fields (Gemini.mock_fields INVOICE) INVOICE)
    as [d' [H1 [H2 _]]].
  - apply mock_fields_wf.
  - apply mock_fields_in_range.
  - exists d'. split; assumption.
Defined.

Lemma serve_stats_enterprise (s : Enterprise.Service) (requests : list Request)
    (st : ServiceState) :
  processing_stats (serve s requests st)
  = fold_left
      (fun stats req =>
         _update_processing_stats stats (standard_result req) (processing_time req))
      requests (processing_stats st).
Proof.
  unfold serve. revert st.
  induction requests as [|req requests IH]; intros st; cbn [fold_left]; [reflexivity|].
  rewrite IH, enterprise_result. reflexivity.
Qed.

(** X23.  After any sequence of calls of the enterprise service, started
    fresh, every call is counted as a success and none as a failure, and
    the failure rate is 0. *)
Theorem enterprise_stats_count_successes_only (s : Enterprise.Service)
    (requests : list Request) :
  let stats := processing_stats (serve s requests initial_state) in
  total_processed stats = List.length requests
  /\ successful stats = List.length requests
  /\ failed stats = O
  /\ failure_rate stats == 0.
Proof.
  cbv zeta. rewrite serve_stats_enterprise.
  cbn [processing_stats initial_state].
  assert (H : forall done stats,
             total_processed stats = List.length done ->
             successful stats = List.length done ->
             failed stats = O ->
             let stats' :=
               fold_left
                 (fun stats req =>
                    _update_processing_stats stats (standard_result req)
                      (processing_time req))
                 requests stats in
             total_processed stats' = List.length (done ++ requests)
             /\ successful stats' = List.length (done ++ requests)
             /\ failed stats' = O).
  { induction requests as [|req requests IH]; intros done stats Ht Hs Hf;
      cbv zeta; cbn [fold_left].
    - rewrite app_nil_r. auto.
    - replace (done ++ req :: requests)%list with ((done ++ [req]) ++ requests)%list
        by (rewrite <- app_assoc; reflexivity).
      apply IH; unfold _update_processing_stats;
        cbn [standard_result Production.status total_processed successful failed
             avg_confidence]; rewrite ?length_app; cbn [List.length]; lia. }
  destruct (H [] initial_stats) as [Ht [Hs Hf]]; try reflexivity.
  cbn [app] in *. split; [exact Ht|]. split; [exact Hs|]. split; [exact Hf|].
  unfold failure_rate. rewrite Hf.
  destruct (0 <? _)%nat; [|reflexivity].
  change (Production.Q_of_nat 0) with 0.
  unfold Qdiv. rewrite !Qmult_0_l. reflexivity.
Qed.

End EnterpriseSessions.

(** ** Detection of the document type *)

Section Detection.
Import GeminiDetection.

Definition type_values : list string :=
  ["invoice"; "receipt"; "business_card"; "form"; "contract"].

Lemma DocumentType_of_value_known (s : string) (t : DocumentType) :
  DocumentType_of_value s = Ok t -> t <> CUSTOM -> In s type_values.
Proof.
  unfold DocumentType_of_value, type_values.
  repeat match goal with
         | |- context [String.eqb s ?v] =>
             destruct (String.eqb s v) eqn:?E;
             [apply String.eqb_eq in E; subst s|clear E]
         end; intros H Ht; try (simpl; tauto); try discriminate.
  injection H as <-. congruence.
Qed.

(** X24.  The standard detection names a type other than CUSTOM only in
    two cases: without a usable reply it answers INVOICE with confidence
    0.85, and with a reply it answers the type whose lower-case value the
    reply gives.  A reply that names a type as the prompt spells it, in
    upper case, is therefore read as CUSTOM, with the confidence of the
    reply, whatever that number is. *)
Theorem detection_reads_lowercase_values_only :
  (forall use_real_api response t c,
      detect_document_type use_real_api response = (t, c) ->
      t <> CUSTOM ->
      (t = INVOICE /\ c = 0.85
       /\ (use_real_api = false \/ response = Ok None))
      \/ exists reply s,
           use_real_api = true /\ response = Ok (Some reply)
           /\ reply_document_type reply = Some s
           /\ In s type_values
           /\ DocumentType_of_value s = Ok t)
  /\ (forall name c,
         In name prompted_types ->
         detect_document_type true
           (Ok (Some (mkTypeReply (Some name) (ConfNumber c))))
         = (CUSTOM, c)).
Proof.
  split.
  - intros use_real_api response t c H Ht. unfold detect_document_type in H.
    destruct use_real_api.
    + destruct response as [[reply|]|e]; cbn [bind try_except] in H.
      * right. exists reply.
        destruct (reply_confidence reply) as [|q|]; cbn [bind try_except] in H;
          try (injection H as <- <-; congruence).
        all: destruct (reply_document_type reply) as [s|] eqn:Es;
          [|cbn in H; injection H as <- <-; congruence].
        all: destruct (DocumentType_of_value s) as [t'|e] eqn:Et;
          cbn [try_except] in H; injection H as <- <-; [|congruence].
        all: exists s; repeat split; try reflexivity; try exact Et;
          apply (DocumentType_of_value_known s t' Et Ht).
      * left. injection H as <- <-. auto.
      * injection H as <- <-. congruence.
    + left. cbn [bind try_except] in H. injection H as <- <-. auto.
  - intros name c Hin. unfold prompted_types in Hin.
    repeat destruct Hin as [<-|Hin]; try reflexivity. destruct Hin.
Qed.

Lemma detection_reads_lowercase_values_only_witness :
  detect_document_type true (Ok (Some (mkTypeReply (Some "INVOICE") (ConfNumber 0.95))))
  = (CUSTOM, 0.95)
  /\ exists reply s,
       Ok (Some (mkTypeReply (Some "receipt") (ConfNumber 0.9))) = Ok (Some reply)
       /\ reply_document_type reply = Some s
       /\ In s type_values.
Proof.
  destruct detection_reads_lowercase_values_only as [H1 H2].
  split.
  - apply H2. left. reflexivity.
  - destruct (H1 true (Ok (Some (mkTypeReply (Some "receipt") (ConfNumber 0.9))))
                RECEIPT 0.9) as [[Habs _]|[reply [s [_ [Hr [Hs [Hin _]]]]]]].
    + reflexivity.
    + discriminate.
    + discriminate Habs.
    + exists reply, s. auto.
Defined.

End Detection.

(** ** The layout elements of the OCR service *)

Section Layout.
Import EnhancedOCR.

Definition top (b : TextBlock) : Z := y1 (bounding_box b).

(** The top of the last block of [l], or [y] when there is none. *)
Definition last_top (y : Z) (l : list TextBlock) : Z :=
  fold_left (fun _ b => top b) l y.

(** Each block starts at most 30 pixels below the one before it, the
    first one below [y]. *)
Fixpoint chained_from (y : Z) (l : list TextBlock) : Prop :=
  match l with
  | [] => True
  | b :: l' => (top b - y <= 30)%Z /\ chained_from (top b) l'
  end.

Definition chained (l : list TextBlock) : Prop :=
  match l with
  | [] => True
  | b :: l' => chained_from (top b) l'
  end.

(** Each group starts more than 30 pixels below the end of the group
    before it, the first one below [y]. *)
Fixpoint separated_from (y : Z) (groups : list (list TextBlock)) : Prop :=
  match groups with
  | [] => True
  | g :: groups' =>
      match g with
      | b :: _ => (30 < top b - y)%Z
      | [] => True
      end
      /\ separated_from (last_top y g) groups'
  end.

Definition separated (groups : list (list TextBlock)) : Prop :=
  match groups with
  | [] => True
  | g :: groups' => separated_from (last_top 0 g) groups'
  end.

Definition in_range_block (b : TextBlock) : Prop := 0 <= block_confidence b <= 1.

(** What an element is to the blocks it is made of. *)
Definition element_of_blocks (e : LayoutElement) : Prop :=
  let box := element_bounding_box e in
  let blocks := element_text_blocks e in
  (forall b, In b blocks ->
     (x1 box <= x1 (bounding_box b))%Z /\ (y1 box <= y1 (bounding_box b))%Z
     /\ (x2 (bounding_box b) <= x2 box)%Z /\ (y2 (bounding_box b) <= y2 box)%Z)
  /\ In (x1 box) (map (fun b => x1 (bounding_box b)) blocks)
  /\ In (y1 box) (map (fun b => y1 (bounding_box b)) blocks)
  /\ In (x2 box) (map (fun b => x2 (bounding_box b)) blocks)
  /\ In (y2 box) (map (fun b => y2 (bounding_box b)) blocks)
  /\ 0 <= element_confidence e <= 1
  /\ element_text e = PyStr.join " " (map text blocks).

Definition element_types : list string :=
  ["header"; "table_row"; "list_item"; "amount"; "date"; "paragraph"].

Lemma min_of_spec (xs : list Z) (x : Z) :
  (min_of x xs <= x)%Z
  /\ (forall z, In z xs -> (min_of x xs <= z)%Z)
  /\ In (min_of x xs) (x :: xs).
Proof.
  unfold min_of. revert x. induction xs as [|y xs IH]; intros x; cbn [fold_left].
  - split; [lia|]. split; [intros z []|left; reflexivity].
  - destruct (IH (Z.min x y)) as [H1 [H2 H3]]. split; [lia|]. split.
    + intros z [<-|Hz]; [lia|apply H2; exact Hz].
    + destruct H3 as [H3|H3]; [|right; right; exact H3].
      rewrite <- H3. destruct (Z.min_spec x y) as [[_ ->]|[_ ->]];
        [left; reflexivity|right; left; reflexivity].
Qed.

Lemma max_of_spec (xs : list Z) (x : Z) :
  (x <= max_of x xs)%Z
  /\ (forall z, In z xs -> (z <= max_of x xs)%Z)
  /\ In (max_of x xs) (x :: xs).
Proof.
  unfold max_of. revert x. induction xs as [|y xs IH]; intros x; cbn [fold_left].
  - split; [lia|]. split; [intros z []|left; reflexivity].
  - destruct (IH (Z.max x y)) as [H1 [H2 H3]]. split; [lia|]. split.
    + intros z [<-|Hz]; [lia|apply H2; exact Hz].
    + destruct H3 as [H3|H3]; [|right; right; exact H3].
      rewrite <- H3. destruct (Z.max_spec x y) as [[_ ->]|[_ ->]];
        [right; left; reflexivity|left; reflexivity].
Qed.

Lemma confidence_sum_range (l : list Q) (a : Q) :
  (forall c, In c l -> 0 <= c <= 1) ->
  a <= fold_left Qplus l a <= a + Production.Q_of_nat (List.length l).
Proof.
  revert a. induction l as [|c l IH]; intros a Hall; cbn [fold_left List.length].
  - change (Production.Q_of_nat 0) with 0. lra.
  - destruct (IH (a + c)) as [H1 H2].
    { intros c' Hc'. apply Hall. right. exact Hc'. }
    destruct (Hall c (or_introl eq_refl)) as [Hc0 Hc1].
    assert (HS : Production.Q_of_nat (S (List.length l))
                 == Production.Q_of_nat (List.length l) + 1).
    { unfold Production.Q_of_nat. rewrite Nat2Z.inj_succ. unfold Z.succ.
      rewrite inject_Z_plus. reflexivity. }
    rewrite HS. lra.
Qed.

Lemma create_element_ok (blocks : list TextBlock) :
  blocks <> [] ->
  Forall in_range_block blocks ->
  exists e,
    _create_layout_element blocks = Ok e
    /\ element_text_blocks e = blocks
    /\ element_of_blocks e.
Proof.
  intros Hne Hall. destruct blocks as [|block rest]; [congruence|].
  unfold _create_layout_element. cbv zeta.
  set (avg := fold_left Qplus (map block_confidence (block :: rest)) 0
              / Production.Q_of_nat (List.length (block :: rest))).
  assert (Havg : 0 <= avg <= 1).
  { unfold avg.
    destruct (confidence_sum_range (map block_confidence (block :: rest)) 0) as [H1 H2].
    { intros c Hc. apply in_map_iff in Hc. destruct Hc as [b [<- Hb]].
      rewrite Forall_forall in Hall. apply (Hall b Hb). }
    rewrite length_map in H2.
    assert (Hpos : 0 < Production.Q_of_nat (List.length (block :: rest))).
    { apply (Q_of_nat_lt 0). simpl. lia. }
    split.
    - apply Qle_shift_div_l; [exact Hpos|]. lra.
    - apply Qle_shift_div_r; [exact Hpos|]. lra. }
  unfold new_LayoutElement.
  destruct Havg as [H0 H1].
  pose proof H0 as H0'. pose proof H1 as H1'.
  apply Qleb_true in H0'. apply Qleb_true in H1'. rewrite H0', H1'. cbn [andb].
  eexists. split; [reflexivity|]. split; [reflexivity|].
  unfold element_of_blocks.
  cbn [element_bounding_box element_text_blocks element_confidence element_text
       x1 y1 x2 y2].
  destruct (min_of_spec (map (fun b => x1 (bounding_box b)) rest) (x1 (bounding_box block)))
    as [Hx1 [Hx1' Hx1'']].
  destruct (min_of_spec (map (fun b => y1 (bounding_box b)) rest) (y1 (bounding_box block)))
    as [Hy1 [Hy1' Hy1'']].
  destruct (max_of_spec (map (fun b => x2 (bounding_box b)) rest) (x2 (bounding_box block)))
    as [Hx2 [Hx2' Hx2'']].
  destruct (max_of_spec (map (fun b => y2 (bounding_box b)) rest) (y2 (bounding_box block)))
    as [Hy2 [Hy2' Hy2'']].
  split.
  { intros b [<-|Hb]; [auto|].
    repeat split; [apply Hx1'|apply Hy1'|apply Hx2'|apply Hy2'];
      apply in_map_iff; exists b; auto. }
  cbn [map]. repeat split; assumption.
Qed.

Lemma chained_from_snoc (l : list TextBlock) (y : Z) (b : TextBlock) :
  chained_from y l -> (top b - last_top y l <= 30)%Z -> chained_from y (l ++ [b]).
Proof.
  unfold last_top. revert y. induction l as [|a l IH]; intros y Hl Hb; simpl in *.
  - auto.
  - destruct Hl as [Ha Hl]. split; [exact Ha|]. apply IH; assumption.
Qed.

Lemma last_top_snoc (l : list TextBlock) (y : Z) (b : TextBlock) :
  last_top y (l ++ [b]) = top b.
Proof. unfold last_top. rewrite fold_left_app. reflexivity. Qed.

Lemma last_top_app (l l' : list TextBlock) (y : Z) :
  last_top y (l ++ l') = last_top (last_top y l) l'.
Proof. unfold last_top. apply fold_left_app. Qed.

Lemma last_top_nonempty (l : list TextBlock) (y y' : Z) :
  l <> [] -> last_top y l = last_top y' l.
Proof.
  destruct l as [|a l]; [congruence|]. intros _. reflexivity.
Qed.

Lemma separated_from_snoc (groups : list (list TextBlock)) (y : Z) (g : list TextBlock) :
  separated_from y groups ->
  match g with
  | b :: _ => (30 < top b - last_top y (List.concat groups))%Z
  | [] => True
  end ->
  separated_from y (groups ++ [g]).
Proof.
  revert y. induction groups as [|g0 groups IH]; intros y Hs Hg; cbn [app separated_from].
  - simpl in Hg. auto.
  - destruct Hs as [H0 Hs]. split; [exact H0|].
    apply IH; [exact Hs|]. cbn [List.concat] in Hg. rewrite last_top_app in Hg. exact Hg.
Qed.

(** The state of the grouping loop after the blocks [done]. *)
Definition grouped (done : list TextBlock) (st : GroupState) : Prop :=
  let '(current_group, current_y, layout_elements) := st in
  let groups := map element_text_blocks layout_elements in
  (List.concat groups ++ current_group)%list = done
  /\ Forall element_of_blocks layout_elements
  /\ Forall (fun g => g <> []) groups
  /\ Forall chained groups
  /\ chained current_group
  /\ separated (groups ++ [current_group])
  /\ (done <> [] -> current_group <> [] /\ current_y = last_top 0 done).

Lemma separated_snoc_block (groups : list (list TextBlock)) (cur : list TextBlock)
    (b : TextBlock) :
  cur <> [] ->
  separated (groups ++ [cur]) -> separated (groups ++ [(cur ++ [b])%list]).
Proof.
  intros Hne.
  assert (H : forall gs y, separated_from y (gs ++ [cur]) ->
                           separated_from y (gs ++ [(cur ++ [b])%list])).
  { induction gs as [|g gs IH]; intros y; cbn [app separated_from].
    - destruct cur as [|a cur]; [congruence|]. cbn [app]. tauto.
    - intros [H0 Hs]. split; [exact H0|apply IH; exact Hs]. }
  destruct groups as [|g groups]; cbn [app separated]; [tauto|].
  destruct g as [|a g]; [apply H|].
  cbn [last_top fold_left]. apply H.
Qed.

Lemma separated_new_group (groups : list (list TextBlock)) (cur : list TextBlock)
    (b : TextBlock) :
  cur <> [] ->
  Forall (fun g => g <> []) groups ->
  separated (groups ++ [cur]) ->
  (30 < top b - last_top 0 (List.concat groups ++ cur))%Z ->
  separated ((groups ++ [cur]) ++ [[b]]).
Proof.
  intros Hne Hall Hs Hb.
  destruct groups as [|g groups]; cbn [app separated] in *.
  - cbn [separated_from]. cbn [List.concat app] in Hb. auto.
  - apply separated_from_snoc; [exact Hs|].
    rewrite concat_app. cbn [List.concat]. rewrite app_nil_r.
    cbn [List.concat] in Hb. rewrite <- app_assoc, last_top_app in Hb. exact Hb.
Qed.

Lemma group_step_grouped (done : list TextBlock) (st : GroupState) (block : TextBlock) :
  Forall in_range_block done ->
  grouped done st ->
  (done = [] -> snd (fst st) = top block) ->
  exists st', group_step (Ok st) block = Ok st' /\ grouped (done ++ [block]) st'.
Proof.
  intros Hrange Hst Hfirst. destruct st as [[cur y] els].
  unfold grouped in Hst. cbv zeta in Hst.
  destruct Hst as [Hdone [Hels [Hne [Hch [Hcur [Hsep Hlast]]]]]].
  unfold group_step. cbn [bind]. fold (top block).
  destruct (line_height_threshold <? top block - y)%Z eqn:Egap.
  - apply Z.ltb_lt in Egap. unfold line_height_threshold in Egap.
    destruct cur as [|c cur'] eqn:Ecur.
    + exfalso. destruct done as [|d done'].
      * cbn [fst snd] in Hfirst. specialize (Hfirst eq_refl). lia.
      * destruct Hlast as [Habs _]; [discriminate|congruence].
    + rewrite <- Ecur in *.
      assert (Hcne : cur <> []) by (rewrite Ecur; discriminate).
      destruct (create_element_ok cur Hcne) as [e [He [Hblocks Hok]]].
      { rewrite Forall_forall in Hrange |- *. intros b Hb. apply Hrange.
        rewrite <- Hdone. apply in_or_app. right. exact Hb. }
      rewrite He. cbn [bind fst snd app].
      eexists. split; [reflexivity|].
      unfold grouped. cbv zeta. rewrite map_app. cbn [map]. rewrite Hblocks.
      rewrite concat_app. cbn [List.concat]. rewrite app_nil_r.
      split; [rewrite Hdone; reflexivity|].
      split; [apply Forall_app; split; [exact Hels|constructor; [exact Hok|constructor]]|].
      split; [apply Forall_app; split; [exact Hne|constructor; [exact Hcne|constructor]]|].
      split; [apply Forall_app; split; [exact Hch|constructor; [exact Hcur|constructor]]|].
      split; [exact I|].
      split.
      * apply separated_new_group; try assumption.
        rewrite Hdone.
        destruct Hlast as [_ Hy].
        { rewrite <- Hdone. intros Habs. apply app_eq_nil in Habs. tauto. }
        rewrite <- Hy. exact Egap.
      * intros _. split; [discriminate|]. rewrite last_top_snoc. reflexivity.
  - apply Z.ltb_ge in Egap. unfold line_height_threshold in Egap.
    cbn [bind fst snd].
    eexists. split; [reflexivity|].
    unfold grouped. cbv zeta.
    split; [rewrite app_assoc, Hdone; reflexivity|].
    split; [exact Hels|]. split; [exact Hne|]. split; [exact Hch|].
    destruct cur as [|c cur'] eqn:Ecur.
    + split; [exact I|]. split.
      * destruct (map element_text_blocks els) as [|g groups] eqn:Eg.
        -- exact I.
        -- exfalso. destruct done as [|d done'].
           ++ rewrite app_nil_r in Hdone. inversion Hne as [|? ? Hg _]; subst.
              destruct g; [congruence|discriminate].
           ++ destruct Hlast as [Habs _]; [discriminate|congruence].
      * intros _. split; [discriminate|]. rewrite last_top_snoc. reflexivity.
    + rewrite <- Ecur in *.
      assert (Hcne : cur <> []) by (rewrite Ecur; discriminate).
      assert (Hy : y = last_top 0 cur).
      { destruct Hlast as [_ Hy].
        { rewrite <- Hdone. intros Habs. apply app_eq_nil in Habs. tauto. }
        rewrite Hy, <- Hdone, last_top_app.
        apply last_top_nonempty. exact Hcne. }
      split.
      * rewrite Ecur in *. cbn [app chained]. apply chained_from_snoc; [exact Hcur|].
        cbn [last_top fold_left] in Hy. unfold last_top. rewrite <- Hy. exact Egap.
      * split; [apply separated_snoc_block; assumption|].
        intros _. split; [rewrite Ecur; discriminate|].
        rewrite last_top_snoc. reflexivity.
Qed.

Lemma grouping_loop (blocks done : list TextBlock) (st : GroupState) :
  Forall in_range_block (done ++ blocks) ->
  grouped done st ->
  (done = [] -> match blocks with b :: _ => snd (fst st) = top b | [] => True end) ->
  exists st', fold_left group_step blocks (Ok st) = Ok st'
              /\ grouped (done ++ blocks) st'.
Proof.
  revert done st. induction blocks as [|block blocks IH]; intros done st Hrange Hst Hfirst.
  - exists st. rewrite app_nil_r. auto.
  - cbn [fold_left].
    destruct (group_step_grouped done st block) as [st1 [E1 H1]].
    + rewrite Forall_app in Hrange. tauto.
    + exact Hst.
    + exact Hfirst.
    + rewrite E1.
      replace (done ++ block :: blocks)%list with ((done ++ [block]) ++ blocks)%list
        by (rewrite <- app_assoc; reflexivity).
      apply IH.
      * rewrite <- app_assoc. exact Hrange.
      * exact H1.
      * intros Habs. apply app_eq_nil in Habs. destruct Habs. discriminate.
Qed.

Lemma classify_all_ok (elements : list LayoutElement) :
  Forall (fun g => g <> []) (map element_text_blocks elements) ->
  exists elements',
    classify_all elements = Ok elements'
    /\ map element_text_blocks elements' = map element_text_blocks elements
    /\ (Forall element_of_blocks elements -> Forall element_of_blocks elements')
    /\ Forall (fun e => In (element_type e) element_types) elements'.
Proof.
  induction elements as [|e elements IH]; intros Hne; cbn [classify_all map].
  - exists []. repeat split; auto.
  - cbn [map] in Hne. inversion Hne as [|? ? He Hrest]; subst.
    destruct (IH Hrest) as [elements' [E [Hb [Hok Hty]]]].
    assert (Hc : exists ty, _classify_layout_element e = Ok ty /\ In ty element_types).
    { unfold _classify_layout_element, element_types. cbv zeta.
      destruct (element_text_blocks e) as [|b bs]; [congruence|].
      repeat match goal with
             | |- context [if ?c then _ else _] => destruct c
             end; eexists; (split; [reflexivity|simpl; tauto]). }
    destruct Hc as [ty [Ety Hin]]. rewrite Ety, E. cbn [bind].
    eexists. split; [reflexivity|]. cbn [map element_text_blocks].
    split; [rewrite Hb; reflexivity|]. split.
    + intros Hall. inversion Hall as [|? ? H1 H2]; subst.
      constructor; [exact H1|apply Hok; exact H2].
    + constructor; [exact Hin|exact Hty].
Qed.

Lemma insert_sorted_permutation {A : Type} (leb : A -> A -> bool) (x : A) (l : list A) :
  Permutation (Universal.insert_sorted leb x l) (x :: l).
Proof.
  induction l as [|y l IH]; simpl; [reflexivity|].
  destruct (leb y x); [|reflexivity].
  rewrite IH. apply perm_swap.
Qed.

Lemma sorted_permutation {A : Type} (leb : A -> A -> bool) (l : list A) :
  Permutation (Universal.sorted leb l) l.
Proof.
  unfold Universal.sorted.
  assert (H : forall acc,
             Permutation (fold_left (fun acc x => Universal.insert_sorted leb x acc) l acc)
                         (l ++ acc)).
  { induction l as [|x l IH]; intros acc; simpl; [reflexivity|].
    rewrite IH, insert_sorted_permutation. symmetry. apply Permutation_middle. }
  rewrite H, app_nil_r. reflexivity.
Qed.

(** The layout of blocks with confidences in [0,1]. *)
Lemma layout_structure (text_blocks : list TextBlock) :
  Forall in_range_block text_blocks ->
  let elements := _detect_layout_structure text_blocks in
  let groups := map element_text_blocks elements in
  List.concat groups = Universal.sorted top_leb text_blocks
  /\ Forall (fun g => g <> []) groups
  /\ Forall chained groups
  /\ separated groups
  /\ Forall element_of_blocks elements
  /\ Forall (fun e => In (element_type e) element_types) elements.
Proof.
  intros Hrange. cbv zeta. unfold _detect_layout_structure.
  destruct text_blocks as [|b0 bs] eqn:Eb.
  { cbn. repeat split; constructor. }
  cbv iota. rewrite <- Eb in *. clear Eb b0 bs.
  unfold detect_layout_body. cbv zeta.
  set (sorted_blocks := Universal.sorted top_leb text_blocks).
  assert (Hsrange : Forall in_range_block sorted_blocks).
  { rewrite Forall_forall in Hrange |- *. intros b Hb. apply Hrange.
    apply (in_sorted top_leb). exact Hb. }
  destruct (grouping_loop sorted_blocks []
              ([], match sorted_blocks with
                   | block :: _ => y1 (bounding_box block)
                   | [] => 0%Z
                   end, []))
    as [[[cur y] els] [E Hst]].
  - exact Hsrange.
  - unfold grouped. cbn. repeat split; try constructor; congruence.
  - intros _. destruct sorted_blocks; [exact I|reflexivity].
  - unfold GroupState in *. rewrite E. cbn [bind app] in *.
    unfold grouped in Hst. cbv zeta in Hst.
    destruct Hst as [Hdone [Hels [Hne [Hch [Hcur [Hsep Hlast]]]]]].
    destruct cur as [|c cur'] eqn:Ecur.
    + cbn [bind]. rewrite app_nil_r in Hdone.
      destruct (classify_all_ok els Hne) as [els' [Ec [Hb [Hok Hty]]]].
      rewrite Ec. cbn [try_except]. rewrite Hb.
      split; [exact Hdone|]. split; [exact Hne|]. split; [exact Hch|].
      split; [|split; [apply Hok; exact Hels|exact Hty]].
      destruct (map element_text_blocks els) as [|g groups]; [exact I|].
      cbn [app separated] in *.
      clear - Hsep. revert Hsep. generalize (last_top 0 g).
      induction groups as [|g' groups IH]; intros y0; cbn [app separated_from]; [tauto|].
      intros [H0 Hs]. split; [exact H0|apply IH; exact Hs].
    + rewrite <- Ecur in *.
      assert (Hcne : cur <> []) by (rewrite Ecur; discriminate).
      destruct (create_element_ok cur Hcne) as [e [He [Hblocks Hok]]].
      { rewrite Forall_forall in Hsrange |- *. intros b Hb. apply Hsrange.
        rewrite <- Hdone. apply in_or_app. right. exact Hb. }
      rewrite Ecur in He |- *. rewrite He. rewrite <- Ecur in *. cbn [bind].
      assert (Hne' : Forall (fun g => g <> [])
                       (map element_text_blocks (els ++ [e])%list)).
      { rewrite map_app. apply Forall_app. split; [exact Hne|].
        cbn [map]. rewrite Hblocks. constructor; [exact Hcne|constructor]. }
      destruct (classify_all_ok (els ++ [e])%list Hne') as [els' [Ec [Hb [Hok' Hty]]]].
      rewrite Ec. cbn [try_except]. rewrite Hb, map_app. cbn [map]. rewrite Hblocks.
      split; [rewrite concat_app; cbn [List.concat]; rewrite app_nil_r; exact Hdone|].
      split; [rewrite map_app in Hne'; cbn [map] in Hne'; rewrite Hblocks in Hne';
              exact Hne'|].
      split; [apply Forall_app; split; [exact Hch|constructor; [exact Hcur|constructor]]|].
      split; [exact Hsep|].
      split; [|exact Hty].
      apply Hok'. apply Forall_app. split; [exact Hels|constructor; [exact Hok|constructor]].
Qed.

(** X25.  The layout detection loses no block and repeats none: the
    blocks of the elements, taken in order, are the blocks sorted by their
    top edge.  No element is empty; within an element each block starts at
    most 30 pixels below the block before it, and each element starts more
    than 30 pixels below the last block of the element before it. *)
Theorem layout_groups_partition_blocks (text_blocks : list TextBlock) :
  Forall in_range_block text_blocks ->
  let groups := map element_text_blocks (_detect_layout_structure text_blocks) in
  List.concat groups = Universal.sorted top_leb text_blocks
  /\ Permutation (List.concat groups) text_blocks
  /\ Forall (fun g => g <> []) groups
  /\ Forall chained groups
  /\ separated groups.
Proof.
  intros Hrange. cbv zeta.
  destruct (layout_structure text_blocks Hrange) as [H1 [H2 [H3 [H4 _]]]].
  split; [exact H1|]. split; [rewrite H1; apply sorted_permutation|].
  split; [exact H2|]. split; [exact H3|exact H4].
Qed.

Definition two_lines : list TextBlock :=
  [ block_at "Total" 100 200 180 220;
    block_at "Invoice" 100 50 300 80;
    block_at "$10.00" 400 205 480 225 ].

Lemma layout_groups_partition_blocks_witness :
  map (map text) (map element_text_blocks (_detect_layout_structure two_lines))
  = [["Invoice"]; ["Total"; "$10.00"]]
  /\ separated (map element_text_blocks (_detect_layout_structure two_lines)).
Proof.
  split; [vm_compute; reflexivity|].
  destruct (layout_groups_partition_blocks two_lines) as [_ [_ [_ [_ H]]]].
  - repeat constructor; vm_compute; discriminate.
  - exact H.
Defined.

(** X26.  The box of a layout element is the smallest box that encloses
    the boxes of its blocks; its text is the texts of the blocks joined by
    spaces, its confidence is in [0,1], and its type is one of header,
    table_row, list_item, amount, date and paragraph. *)
Theorem layout_element_encloses_blocks (text_blocks : list TextBlock) :
  Forall in_range_block text_blocks ->
  forall e, In e (_detect_layout_structure text_blocks) ->
    element_of_blocks e /\ In (element_type e) element_types.
Proof.
  intros Hrange e He.
  destruct (layout_structure text_blocks Hrange) as [_ [_ [_ [_ [H5 H6]]]]].
  rewrite Forall_forall in H5, H6. split; [apply H5|apply H6]; exact He.
Qed.

Lemma layout_element_encloses_blocks_witness :
  exists e,
    In e (_detect_layout_structure two_lines)
    /\ element_bounding_box e = mkBBox 100 200 480 225
    /\ element_of_blocks e.
Proof.
  destruct (_detect_layout_structure two_lines) as [|e1 [|e2 rest]] eqn:E;
    try (vm_compute in E; discriminate E).
  exists e2. split; [right; left; reflexivity|].
  split.
  - vm_compute in E. injection E as _ E2 _. rewrite <- E2. reflexivity.
  - apply (layout_element_encloses_blocks two_lines).
    + repeat constructor; vm_compute; discriminate.
    + rewrite E. right. left. reflexivity.
Defined.

End Layout.

(** ** The locations assigned by the enhanced Gemini service *)

Section AssignedLocations.
Import EnhancedOCR EnhancedGeminiSpatial.

Variable ratio : string -> string -> Q.

(** The block matches the value: its text holds the value, or is similar
    enough to it. *)
Definition matches_value (v : string) (block : TextBlock) : Prop :=
  let value_clean := PyStr.lower (PyStr.strip v) in
  let block_text := PyStr.lower (PyStr.strip (text block)) in
  PyStr.contains value_clean block_text = true \/ 0.7 < ratio value_clean block_text.

(** The box found for a value. *)
Definition found_box (blocks : list TextBlock) (v : string) : option BoundingBox :=
  if negb (PyStr.truthy v) then None
  else match _find_exact_match blocks v with
       | Some location => Some location
       | None => _find_fuzzy_match ratio blocks v
       end.

Lemma found_box_matches (blocks : list TextBlock) (v : string) (box : BoundingBox) :
  found_box blocks v = Some box ->
  PyStr.truthy v = true
  /\ exists block, In block blocks /\ box = bounding_box block /\ matches_value v block.
Proof.
  unfold found_box. destruct (PyStr.truthy v); [|discriminate]. cbn [negb].
  intros H. split; [reflexivity|].
  destruct (_find_exact_match blocks v) as [location|] eqn:Ex.
  - injection H as <-. unfold _find_exact_match in Ex. cbv zeta in Ex.
    match type of Ex with
    | option_map _ (find ?p blocks) = _ => destruct (find p blocks) as [block|] eqn:Ef
    end; [|discriminate].
    apply find_some in Ef. destruct Ef as [Hin Hc].
    injection Ex as <-. exists block. split; [exact Hin|]. split; [reflexivity|].
    left. exact Hc.
  - unfold _find_fuzzy_match in H.
    assert (Hfold : forall l st,
               (forall b, In b l -> In b blocks) ->
               (forall bx, fst st = Some bx ->
                  exists block, In block blocks /\ bx = bounding_box block
                                /\ matches_value v block) ->
               forall bx,
                 fst (fold_left (fuzzy_step ratio (PyStr.lower (PyStr.strip v))) l st)
                 = Some bx ->
                 exists block, In block blocks /\ bx = bounding_box block
                               /\ matches_value v block).
    { induction l as [|b l IH]; intros st Hl Hst bx; cbn [fold_left]; [apply Hst|].
      apply IH.
      - intros b' Hb'. apply Hl. right. exact Hb'.
      - intros bx'. unfold fuzzy_step.
        destruct (Qltb (snd st) _ && Qltb 0.7 _) eqn:E; [|apply Hst].
        cbn [fst]. intros Hbx. injection Hbx as <-.
        exists b. split; [apply Hl; left; reflexivity|]. split; [reflexivity|].
        right. apply andb_true_iff in E. destruct E as [_ E].
        apply Qltb_true in E. exact E. }
    apply (Hfold blocks (None, 0)); [auto|discriminate|exact H].
Qed.

Lemma find_field_locations_get (ocr_results : OcrResults)
    (field_values : PyDict.dict string) (k : string) :
  PyDict.wf field_values ->
  PyDict.get k (find_field_locations ratio ocr_results field_values)
  = match PyDict.get k field_values with
    | Some v => found_box (text_blocks ocr_results) v
    | None => None
    end.
Proof.
  unfold find_field_locations, PyDict.wf.
  assert (H : forall items acc,
             NoDup (PyDict.keys items) ->
             (forall k', In k' (PyDict.keys items) -> PyDict.get k' acc = None) ->
             PyDict.get k
               (fold_left
                  (fun field_locations (item : string * string) =>
                     if negb (PyStr.truthy (snd item)) then field_locations
                     else
                       match
                         match _find_exact_match (text_blocks ocr_results) (snd item) with
                         | Some location => Some location
                         | None =>
                             _find_fuzzy_match ratio (text_blocks ocr_results) (snd item)
                         end
                       with
                       | Some location => PyDict.set (fst item) location field_locations
                       | None => field_locations
                       end) items acc)
             = match PyDict.get k items with
               | Some v => found_box (text_blocks ocr_results) v
               | None => PyDict.get k acc
               end).
  { induction items as [|[k0 v0] items IH]; intros acc Hnd Hfresh; cbn [fold_left].
    - reflexivity.
    - cbn [PyDict.keys map fst] in Hnd. inversion Hnd as [|? ? Hk0 Hnd']; subst.
      cbn [fst snd PyDict.get].
      assert (Hget0 : PyDict.get k0 items = None).
      { apply get_none_not_key. exact Hk0. }
      rewrite IH; [|exact Hnd'|].
      + destruct (String.eqb k k0) eqn:Ek.
        * apply String.eqb_eq in Ek. subst k0. rewrite Hget0.
          unfold found_box.
          destruct (negb (PyStr.truthy v0)).
          -- apply Hfresh. left. reflexivity.
          -- destruct (match _find_exact_match (text_blocks ocr_results) v0 with
                       | Some location => Some location
                       | None => _find_fuzzy_match ratio (text_blocks ocr_results) v0
                       end) as [location|].
             ++ rewrite get_set, String.eqb_refl. reflexivity.
             ++ apply Hfresh. left. reflexivity.
        * destruct (PyDict.get k items); [reflexivity|].
          destruct (negb (PyStr.truthy v0)); [reflexivity|].
          destruct (match _find_exact_match (text_blocks ocr_results) v0 with
                    | Some location => Some location
                    | None => _find_fuzzy_match ratio (text_blocks ocr_results) v0
                    end); [|reflexivity].
          rewrite get_set, Ek. reflexivity.
      + intros k' Hk'.
        assert (Hne : String.eqb k' k0 = false).
        { apply String.eqb_neq. intros ->. exact (Hk0 Hk'). }
        assert (Hacc : PyDict.get k' acc = None).
        { apply Hfresh. right. exact Hk'. }
        destruct (negb (PyStr.truthy v0)); [exact Hacc|].
        destruct (match _find_exact_match (text_blocks ocr_results) v0 with
                  | Some location => Some location
                  | None => _find_fuzzy_match ratio (text_blocks ocr_results) v0
                  end); [|exact Hacc].
        rewrite get_set, Hne. exact Hacc. }
  intros Hwf. rewrite (H field_values [] Hwf); [|reflexivity].
  destruct (PyDict.get k field_values); reflexivity.
Qed.

Lemma convert_is_block_location (block : TextBlock) (ocr_results : OcrResults)
    (loc : FieldLocation) :
  _convert_bbox_to_location (bounding_box block) ocr_results = Some loc ->
  Universal.block_location block (image_dimensions ocr_results) = Ok loc.
Proof.
  unfold _convert_bbox_to_location, Universal.block_location.
  destruct (image_dimensions ocr_results) as [w h]. cbn [fst snd].
  destruct ((w =? 0)%Z || (h =? 0)%Z); [discriminate|].
  intros H. injection H as <-. reflexivity.
Qed.

(** The field that the assignment makes of a field. *)
Definition located_field (ocr_results : OcrResults) (field : ExtractedField)
    : ExtractedField :=
  mkField (value field) (confidence field) (confidence_level field)
    (match found_box (text_blocks ocr_results) (value field) with
     | Some location => _convert_bbox_to_location location ocr_results
     | None => None
     end)
    (original_text field) (validation_errors field).

Lemma assign_spatial_run (extracted_fields : Fields) (ocr_results : OcrResults) :
  PyDict.wf extracted_fields ->
  (forall k f, In (k, f) extracted_fields -> in_unit_range f) ->
  _assign_spatial_coordinates ratio extracted_fields ocr_results
  = Ok (PyDict.map_items (fun _ f => located_field ocr_results f) extracted_fields).
Proof.
  intros Hwf Hall. unfold _assign_spatial_coordinates. cbv zeta.
  set (locations := find_field_locations ratio ocr_results
                      (PyDict.map_items (fun _ field => value field) extracted_fields)).
  assert (Hloc : forall k f,
             In (k, f) extracted_fields ->
             PyDict.get k locations = found_box (text_blocks ocr_results) (value f)).
  { intros k f Hin. unfold locations.
    rewrite find_field_locations_get by (apply map_items_wf; exact Hwf).
    assert (Hget : PyDict.get k
                     (PyDict.map_items (fun _ field => value field) extracted_fields)
                   = Some (value f)).
    { apply in_get; [apply map_items_wf; exact Hwf|].
      unfold PyDict.map_items. apply in_map_iff. exists (k, f). auto. }
    rewrite Hget. reflexivity. }
  clearbody locations.
  assert (H : forall items done,
             NoDup (PyDict.keys (done ++ items)%list) ->
             (forall k f, In (k, f) items -> in_unit_range f) ->
             (forall k f, In (k, f) items ->
                PyDict.get k locations
                = found_box (text_blocks ocr_results) (value f)) ->
             fold_left
               (fun acc (item : string * ExtractedField) =>
                  updated_fields <- acc ;;
                  f <- new_ExtractedField (value (snd item)) (confidence (snd item))
                         (confidence_level (snd item))
                         (match PyDict.get (fst item) locations with
                          | Some location => _convert_bbox_to_location location ocr_results
                          | None => None
                          end)
                         (original_text (snd item)) (validation_errors (snd item)) ;;
                  Ok (PyDict.set (fst item) f updated_fields))
               items
               (Ok (PyDict.map_items (fun _ f => located_field ocr_results f) done))
             = Ok (PyDict.map_items (fun _ f => located_field ocr_results f)
                     (done ++ items)%list)).
  { induction items as [|[k f] items IH]; intros done Hnd Hr Hl; cbn [fold_left].
    - rewrite app_nil_r. reflexivity.
    - cbn [bind fst snd].
      destruct (Hr k f (or_introl eq_refl)) as [H0 H1].
      unfold new_ExtractedField.
      apply Qleb_true in H0. apply Qleb_true in H1. rewrite H0, H1. cbn [andb bind].
      rewrite (Hl k f (or_introl eq_refl)). rewrite set_fresh.
      + replace (done ++ (k, f) :: items)%list with ((done ++ [(k, f)]) ++ items)%list
          by (rewrite <- app_assoc; reflexivity).
        rewrite <- IH.
        * unfold PyDict.map_items. rewrite map_app. reflexivity.
        * rewrite <- app_assoc. exact Hnd.
        * intros k' f' Hin. apply (Hr k'). right. exact Hin.
        * intros k' f' Hin. apply Hl. right. exact Hin.
      + rewrite keys_map_items. unfold PyDict.keys in *.
        rewrite map_app in Hnd. apply NoDup_remove_2 in Hnd.
        intros Hin. apply Hnd. apply in_or_app. left. exact Hin. }
  apply (H extracted_fields [] Hwf Hall Hloc).
Qed.

(** X27.  On fields with distinct names and confidences in [0,1], the
    assignment of locations raises no exception and changes nothing but
    the locations, which it sets anew: a field with an empty value gets
    none, and a location, when there is one, is the box of an OCR block
    that matches the value, divided by the image dimensions. *)
Theorem assigned_locations_are_block_boxes (extracted_fields : Fields)
    (ocr_results : OcrResults) :
  PyDict.wf extracted_fields ->
  (forall k f, In (k, f) extracted_fields -> in_unit_range f) ->
  exists updated_fields,
    _assign_spatial_coordinates ratio extracted_fields ocr_results = Ok updated_fields
    /\ PyDict.keys updated_fields = PyDict.keys extracted_fields
    /\ forall k f', In (k, f') updated_fields ->
         exists f,
           In (k, f) extracted_fields
           /\ value f' = value f /\ confidence f' = confidence f
           /\ confidence_level f' = confidence_level f
           /\ original_text f' = original_text f
           /\ validation_errors f' = validation_errors f
           /\ (PyStr.truthy (value f) = false -> location f' = None)
           /\ (forall loc, location f' = Some loc ->
                 exists block,
                   In block (text_blocks ocr_results)
                   /\ matches_value (value f) block
                   /\ Universal.block_location block (image_dimensions ocr_results)
                      = Ok loc).
Proof.
  intros Hwf Hall. eexists. split; [apply assign_spatial_run; assumption|].
  split; [apply keys_map_items|].
  intros k f' Hin. apply in_map_items in Hin. destruct Hin as [f [Hin ->]].
  exists f. split; [exact Hin|]. unfold located_field.
  cbn [value confidence confidence_level original_text validation_errors location].
  repeat split.
  - intros Hempty. unfold found_box. rewrite Hempty. reflexivity.
  - intros loc Hloc.
    destruct (found_box (text_blocks ocr_results) (value f)) as [box|] eqn:Eb;
      [|discriminate].
    apply found_box_matches in Eb. destruct Eb as [_ [block [Hb [-> Hm]]]].
    exists block. split; [exact Hb|]. split; [exact Hm|].
    apply convert_is_block_location. exact Hloc.
Qed.

End AssignedLocations.

Lemma assigned_locations_are_block_boxes_witness :
  exists updated_fields,
    EnhancedGeminiSpatial._assign_spatial_coordinates no_similarity
      [("invoice_number", mkField "inv-2025" 0.9 HIGH None None [])] invoice_page
    = Ok updated_fields
    /\ PyDict.keys updated_fields = ["invoice_number"].
Proof.
  destruct (assigned_locations_are_block_boxes no_similarity
              [("invoice_number", mkField "inv-2025" 0.9 HIGH None None [])] invoice_page)
    as [d [H1 [H2 _]]].
  - repeat constructor. simpl. tauto.
  - intros k f [H|[]]. injection H as <- <-. unfold in_unit_range. simpl. lra.
  - exists d. split; [exact H1|exact H2].
Defined.

(** ** What the patterns accept *)

Section Patterns.
Import Re.

(** The texts that a pattern matches in full. *)
Inductive matches : regex -> string -> Prop :=
| MEps : matches Eps EmptyString
| MChr (cls : ascii -> bool) (c : ascii) :
    cls c = true -> matches (Chr cls) (String c EmptyString)
| MCat (r s : regex) (a b : string) :
    matches r a -> matches s b -> matches (Cat r s) (a ++ b)
| MAltL (r s : regex) (a : string) : matches r a -> matches (Alt r s) a
| MAltR (r s : regex) (a : string) : matches s a -> matches (Alt r s) a
| MStarNil (r : regex) : matches (Star r) EmptyString
| MStarApp (r : regex) (a b : string) :
    matches r a -> matches (Star r) b -> matches (Star r) (a ++ b).

Lemma append_empty (a b : string) :
  (a ++ b)%string = EmptyString -> a = EmptyString /\ b = EmptyString.
Proof. destruct a; simpl; [auto|discriminate]. Qed.

Lemma append_nil_r (a : string) : (a ++ EmptyString)%string = a.
Proof. induction a as [|c a IH]; simpl; [reflexivity|]. rewrite IH. reflexivity. Qed.

Lemma append_assoc (a b c : string) : ((a ++ b) ++ c)%string = (a ++ (b ++ c))%string.
Proof. induction a as [|x a IH]; simpl; [reflexivity|]. rewrite IH. reflexivity. Qed.

Lemma nullable_matches (r : regex) : nullable r = true <-> matches r EmptyString.
Proof.
  induction r as [| |cls|r IHr s IHs|r IHr s IHs|r IHr]; cbn [nullable].
  - split; [discriminate|]. intros H. inversion H.
  - split; [constructor|reflexivity].
  - split; [discriminate|]. intros H. inversion H.
  - rewrite andb_true_iff, IHr, IHs. split.
    + intros [Hr Hs]. apply (MCat r s EmptyString EmptyString Hr Hs).
    + intros H. inversion H as [| |? ? a b Ha Hb| | | |]; subst.
      match goal with
      | E : (a ++ b)%string = EmptyString |- _ =>
          apply append_empty in E; destruct E as [-> ->]
      end.
      auto.
  - rewrite orb_true_iff, IHr, IHs. split.
    + intros [H|H]; [apply MAltL|apply MAltR]; exact H.
    + intros H. inversion H; subst; auto.
  - split; [constructor|reflexivity].
Qed.

Lemma cat_matches (r s : regex) (x : string) :
  matches (cat r s) x <-> matches (Cat r s) x.
Proof.
  assert (Hvoid : forall y, ~ matches Void y) by (intros y H; inversion H).
  assert (Heps_l : forall t y, matches (Cat Eps t) y <-> matches t y).
  { intros t y. split.
    - intros H. inversion H as [| |? ? a b Ha Hb| | | |]; subst.
      inversion Ha; subst. exact Hb.
    - intros H. apply (MCat Eps t EmptyString y MEps H). }
  assert (Heps_r : forall t y, matches (Cat t Eps) y <-> matches t y).
  { intros t y. split.
    - intros H. inversion H as [| |? ? a b Ha Hb| | | |]; subst.
      inversion Hb; subst. rewrite append_nil_r. exact Ha.
    - intros H. rewrite <- (append_nil_r y). apply (MCat t Eps y EmptyString H MEps). }
  assert (Hvoid_l : forall t y, ~ matches (Cat Void t) y).
  { intros t y H. inversion H as [| |? ? a b Ha Hb| | | |]; subst. inversion Ha. }
  assert (Hvoid_r : forall t y, ~ matches (Cat t Void) y).
  { intros t y H. inversion H as [| |? ? a b Ha Hb| | | |]; subst. inversion Hb. }
  destruct r; destruct s; cbn [cat];
    try reflexivity;
    try (split; intros H; exfalso;
         first [exact (Hvoid _ H)|exact (Hvoid_l _ _ H)|exact (Hvoid_r _ _ H)]);
    try (symmetry; apply Heps_l);
    try (symmetry; apply Heps_r).
Qed.

Lemma alt_matches (r s : regex) (x : string) :
  matches (alt r s) x <-> matches (Alt r s) x.
Proof.
  assert (Hl : forall t y, matches (Alt Void t) y <-> matches t y).
  { intros t y. split.
    - intros H. inversion H as [| | |? ? ? Ha|? ? ? Hb| |]; subst; [inversion Ha|exact Hb].
    - apply MAltR. }
  assert (Hr : forall t y, matches (Alt t Void) y <-> matches t y).
  { intros t y. split.
    - intros H. inversion H as [| | |? ? ? Ha|? ? ? Hb| |]; subst; [exact Ha|inversion Hb].
    - apply MAltL. }
  destruct r; destruct s; cbn [alt];
    try reflexivity; try (symmetry; apply Hl); try (symmetry; apply Hr).
Qed.

Lemma star_cons_aux (sr : regex) (s : string) :
  matches sr s ->
  forall r, sr = Star r ->
  forall c x, s = String c x ->
    exists a b, x = (a ++ b)%string /\ matches r (String c a) /\ matches (Star r) b.
Proof.
  intros H.
  induction H as [|cls0 c0 Hc0|r1 s1 a b Ha IHa Hb IHb|r1 s1 a Ha IHa|r1 s1 a Ha IHa
                 |r1|r1 a b Ha IHa Hb IHb];
    intros r Esr c x E; try discriminate.
  injection Esr as ->.
  destruct a as [|c' a].
  - simpl in E. apply (IHb r eq_refl c x E).
  - simpl in E. injection E as -> <-. exists a, b. auto.
Qed.

Lemma star_cons (r : regex) (c : ascii) (x : string) :
  matches (Star r) (String c x) ->
  exists a b, x = (a ++ b)%string /\ matches r (String c a) /\ matches (Star r) b.
Proof.
  intros H. apply (star_cons_aux (Star r) (String c x) H r eq_refl c x eq_refl).
Qed.

Lemma deriv_matches (r : regex) :
  forall (c : ascii) (x : string), matches (deriv c r) x <-> matches r (String c x).
Proof.
  induction r as [| |cls|r IHr s IHs|r IHr s IHs|r IHr]; intros c x; cbn [deriv].
  - split; intros H; inversion H.
  - split; intros H; inversion H.
  - destruct (cls c) eqn:E; split; intros H.
    + inversion H; subst. constructor. exact E.
    + inversion H; subst. constructor.
    + inversion H.
    + inversion H; subst. congruence.
  - assert (Hcat : matches (Cat (deriv c r) s) x
                   <-> exists a b, x = (a ++ b)%string /\ matches r (String c a)
                                   /\ matches s b).
    { split.
      - intros H. inversion H as [| |? ? a b Ha Hb| | | |]; subst.
        exists a, b. rewrite <- IHr. auto.
      - intros [a [b [-> [Ha Hb]]]]. apply MCat; [apply IHr; exact Ha|exact Hb]. }
    assert (Hsplit : matches (Cat r s) (String c x)
                     <-> (exists a b, x = (a ++ b)%string /\ matches r (String c a)
                                      /\ matches s b)
                         \/ (matches r EmptyString /\ matches s (String c x))).
    { split.
      - intros H. inversion H as [| |? ? a b Ha Hb| | | |]; subst.
        match goal with
        | E : (a ++ b)%string = String c x |- _ => rename E into Hab
        end.
        destruct a as [|c' a].
        + right. simpl in Hab. subst b. auto.
        + left. simpl in Hab. injection Hab as -> <-. exists a, b. auto.
      - intros [[a [b [-> [Ha Hb]]]]|[Ha Hb]].
        + apply (MCat r s (String c a) b Ha Hb).
        + apply (MCat r s EmptyString (String c x) Ha Hb). }
    rewrite Hsplit. destruct (nullable r) eqn:En.
    + rewrite alt_matches. split.
      * intros H. inversion H as [| | |? ? ? Ha|? ? ? Hb| |]; subst.
        -- left. apply Hcat. apply cat_matches. exact Ha.
        -- right. split; [apply nullable_matches; exact En|apply IHs; exact Hb].
      * intros [H|[_ H]].
        -- apply MAltL. apply cat_matches. apply Hcat. exact H.
        -- apply MAltR. apply IHs. exact H.
    + rewrite cat_matches, Hcat. split; [auto|].
      intros [H|[H _]]; [exact H|]. apply nullable_matches in H. congruence.
  - rewrite alt_matches. split.
    + intros H. inversion H; subst; [apply MAltL; apply IHr|apply MAltR; apply IHs];
        assumption.
    + intros H. inversion H; subst; [apply MAltL; apply IHr|apply MAltR; apply IHs];
        assumption.
  - rewrite cat_matches. split.
    + intros H. inversion H as [| |? ? a b Ha Hb| | | |]; subst.
      apply (MStarApp r (String c a) b); [apply IHr; exact Ha|exact Hb].
    + intros H. destruct (star_cons r c x H) as [a [b [-> [Ha Hb]]]].
      apply MCat; [apply IHr; exact Ha|exact Hb].
Qed.

(** The matcher decides the texts of the pattern. *)
Lemma fullmatch_matches (s : string) :
  forall r, fullmatch r s = true <-> matches r s.
Proof.
  induction s as [|c s IH]; intros r; cbn [fullmatch].
  - apply nullable_matches.
  - rewrite IH. apply deriv_matches.
Qed.

Lemma any_star_matches (s : string) : matches (Star any_char) s.
Proof.
  induction s as [|c s IH]; [constructor|].
  apply (MStarApp any_char (String c EmptyString) s); [|exact IH].
  constructor. reflexivity.
Qed.

(** [re.search] finds a part of the text that the pattern matches. *)
Lemma search_matches (r : regex) (s : string) :
  search r s = true
  <-> exists a m b, s = (a ++ m ++ b)%string /\ matches r m.
Proof.
  unfold search. rewrite fullmatch_matches. split.
  - intros H. inversion H as [| |? ? a mb _ Hmb| | | |]; subst.
    inversion Hmb as [| |? ? m b Hm _| | | |]; subst.
    exists a, m, b. auto.
  - intros [a [m [b [-> Hm]]]].
    apply MCat; [apply any_star_matches|].
    apply MCat; [exact Hm|apply any_star_matches].
Qed.

(** [any(cls(c) for c in s)] *)
Fixpoint has_char (cls : ascii -> bool) (s : string) : bool :=
  match s with
  | EmptyString => false
  | String c s' => cls c || has_char cls s'
  end.

Lemma has_char_app (cls : ascii -> bool) (a b : string) :
  has_char cls (a ++ b) = has_char cls a || has_char cls b.
Proof.
  induction a as [|c a IH]; simpl; [reflexivity|]. rewrite IH, orb_assoc. reflexivity.
Qed.

Lemma has_char_split (cls : ascii -> bool) (s : string) :
  has_char cls s = true ->
  exists a c b, s = (a ++ String c b)%string /\ cls c = true.
Proof.
  induction s as [|c s IH]; simpl; [discriminate|].
  destruct (cls c) eqn:E.
  - intros _. exists EmptyString, c, s. auto.
  - intros H. destruct (IH H) as [a [c' [b [-> Hc]]]].
    exists (String c a), c', b. auto.
Qed.

Definition amount_char (c : ascii) : bool := PyStr.is_digit c || Ascii.eqb c ",".

Lemma amount_re_search (s : string) :
  search Production.amount_re s = has_char amount_char s.
Proof.
  apply eq_true_iff_eq. rewrite search_matches. split.
  - intros [a [m [b [-> Hm]]]].
    unfold Production.amount_re, plus in Hm.
    inversion Hm as [| |? ? p q Hp _| | | |]; subst.
    inversion Hp as [| |? ? p1 p2 Hp1 _| | | |]; subst.
    inversion Hp1 as [|? c Hc| | | | |]; subst.
    assert (Hc' : amount_char c = true) by exact Hc.
    rewrite !has_char_app. cbn [has_char]. rewrite Hc'.
    destruct (has_char amount_char a); reflexivity.
  - intros H. destruct (has_char_split _ _ H) as [a [c [b [-> Hc]]]].
    exists a, (String c EmptyString), b. split; [reflexivity|].
    unfold Production.amount_re, plus.
    apply (MCat _ _ (String c EmptyString) EmptyString).
    + apply (MCat _ _ (String c EmptyString) EmptyString).
      * constructor. exact Hc.
      * constructor.
    + apply (MCat _ _ EmptyString EmptyString).
      * apply MAltL. constructor.
      * constructor.
Qed.

(** X28.  The amount pattern is searched, not matched in full, so the
    amount checks of the production and of the enterprise service accept
    every value that holds one digit or one comma, whatever else it holds:
    under a name with a currency term the production check reports an
    error exactly for the non-empty values without a digit and without a
    comma, and the enterprise check reports its currency error exactly for
    those as well. *)
Theorem amount_checks_accept_any_digit :
  (forall s, search Production.amount_re s = has_char amount_char s)
  /\ (forall field_name v t,
         PyStr.any_in Production.currency_terms (PyStr.lower field_name) = true ->
         Production._validate_field_content field_name v t
         = if PyStr.truthy v && negb (has_char amount_char (PyStr.strip v))
           then [Production.err_amount] else [])
  /\ (forall field_name v t,
         PyStr.any_in EnterpriseService.currency_terms (PyStr.lower field_name) = true ->
         (In (ErrText "Invalid currency format")
             (EnterpriseService._validate_field_format field_name v t)
          <-> PyStr.truthy v = true /\ has_char amount_char (PyStr.strip v) = false)).
Proof.
  split; [exact amount_re_search|]. split.
  - intros field_name v t Hc. unfold Production._validate_field_content.
    destruct (PyStr.truthy v); [|reflexivity]. cbn [negb andb]. cbv zeta.
    rewrite Hc, amount_re_search. reflexivity.
  - intros field_name v t Hc. unfold EnterpriseService._validate_field_format.
    destruct (PyStr.truthy v).
    + cbn [negb]. cbv zeta. rewrite Hc, amount_re_search. cbn [andb].
      destruct (has_char amount_char (PyStr.strip v)); cbn [negb app].
      * split; [|intros [_ H]; discriminate].
        intros Hin. exfalso. apply in_app_or in Hin.
        destruct Hin as [Hin|Hin];
          [destruct (PyStr.contains "email" _ && _) in Hin
          |destruct (PyStr.contains "phone" _ && _) in Hin];
          simpl in Hin; try tauto;
          destruct Hin as [Hin|[]]; discriminate Hin.
      * split; [auto|]. intros _. left. reflexivity.
    + cbn [negb]. split; [intros []|intros [H _]; discriminate].
Qed.

Lemma amount_checks_accept_any_digit_witness :
  Production._validate_field_content "total_amount" "about 5 apples" INVOICE = []
  /\ In (ErrText "Invalid currency format")
        (EnterpriseService._validate_field_format "total_amount" "n/a" INVOICE).
Proof.
  destruct amount_checks_accept_any_digit as [_ [H1 H2]].
  split.
  - rewrite H1; reflexivity.
  - apply H2; [reflexivity|]. split; reflexivity.
Defined.

End Patterns.

(** ** The fields of an enterprise session *)

Section EnterpriseFields.
Import EnterpriseService.

(** A field fresh from the standard pipeline. *)
Definition unlocated (f : ExtractedField) : Prop :=
  in_unit_range f /\ location f = None.

Lemma mock_fields_unlocated (t : DocumentType) (k : string) (f : ExtractedField) :
  In (k, f) (Gemini.mock_fields t) -> unlocated f.
Proof.
  intros Hin. split; [apply (mock_fields_in_range t k f Hin)|].
  revert Hin. unfold Gemini.mock_fields.
  assert (H : forall items (d : Fields),
             (forall k' f', In (k', f') d -> location f' = None) ->
             forall k' f',
               In (k', f')
                 (fold_left
                    (fun acc (item : string * (string * Q)) =>
                       PyDict.set (fst item)
                         (mkField (fst (snd item)) (snd (snd item))
                                  (_get_confidence_level (snd (snd item))) None
                                  (Some (fst (snd item))) [])
                         acc) items d) ->
               location f' = None).
  { induction items as [|item items IH]; intros d Hd k' f'; cbn [fold_left].
    - apply Hd.
    - apply IH. intros k'' f'' Hin. apply in_set in Hin.
      destruct Hin as [[_ ->]|Hin]; [reflexivity|apply (Hd k'' f'' Hin)]. }
  apply H. intros k' f' [].
Qed.

Lemma convert_fields_unlocated (result : PyDict.dict RawEntry) (d : Fields) :
  Gemini._convert_to_extracted_fields result = Ok d ->
  forall k f, In (k, f) d -> unlocated f.
Proof.
  intros Hd k f Hin. split; [apply (convert_fields_in_range result d Hd k f Hin)|].
  revert Hd k f Hin. unfold Gemini._convert_to_extracted_fields.
  assert (Hraise : forall items e,
            fold_left Gemini.convert_entry items (Raise e) = Raise e).
  { induction items as [|item items IH]; intros e; simpl; [reflexivity|apply IH]. }
  assert (H : forall items (d0 : Fields),
            (forall k f, In (k, f) d0 -> location f = None) ->
            fold_left Gemini.convert_entry items (Ok d0) = Ok d ->
            forall k f, In (k, f) d -> location f = None).
  { induction items as [|item items IH]; intros d0 Hd0; cbn [fold_left].
    - intros E. injection E as <-. exact Hd0.
    - destruct (Gemini.convert_entry (Ok d0) item) as [d1|e] eqn:E1.
      + apply IH. unfold Gemini.convert_entry in E1. cbn [bind] in E1.
        destruct (match snd item with
                  | EntryDict v c _ =>
                      conf <- float_of_confidence c ;;
                      Ok (match v with Some s => s | None => EmptyString end, conf)
                  | EntryOther s => Ok (s, 0.7)
                  end) as [vc|e]; cbn [bind] in E1; [|discriminate].
        destruct (new_ExtractedField (fst vc) (snd vc) (_get_confidence_level (snd vc))
                    None (Some (fst vc)) []) as [f0|e] eqn:Ef; cbn [bind] in E1;
          [|discriminate].
        injection E1 as <-. intros k f Hin. apply in_set in Hin.
        destruct Hin as [[_ ->]|Hin]; [|apply (Hd0 k f Hin)].
        apply new_ExtractedField_ok in Ef. destruct Ef as [-> _]. reflexivity.
      + rewrite Hraise. discriminate. }
  apply H. intros k f [].
Qed.

Lemma standard_fields_unlocated (w : World) (t : DocumentType) (k : string)
    (f : ExtractedField) :
  In (k, f) (standard_fields w t) -> unlocated f.
Proof.
  unfold standard_fields, Gemini.extract_fields.
  destruct (use_real_api w); [|cbn [fst]; apply mock_fields_unlocated].
  destruct (image_opens w); [|cbn [fst]; intros []].
  destruct (generate_content w (List.length []) (ExtractFieldsCall t))
    as [[[|item data]|body|[|]]|e]; cbn [fst].
  - apply mock_fields_unlocated.
  - destruct (Gemini._convert_to_extracted_fields (item :: data)) as [d'|e] eqn:E';
      cbn [try_except]; [apply (convert_fields_unlocated _ _ E')|intros []].
  - apply mock_fields_unlocated.
  - intros [].
  - apply mock_fields_unlocated.
  - intros [].
Qed.

Lemma standard_fields_wf (w : World) (t : DocumentType) :
  PyDict.wf (standard_fields w t).
Proof.
  unfold standard_fields.
  destruct (fst (Gemini.extract_fields w t [])) as [fields|e] eqn:E; [|constructor].
  apply (extract_fields_wf w t [] fields E).
Qed.

Lemma plain_mean_range (d : Fields) :
  (forall k f, In (k, f) d -> in_unit_range f) ->
  0 <= _calculate_overall_confidence d <= 1.
Proof.
  intros Hall. unfold _calculate_overall_confidence.
  destruct d as [|item d'] eqn:Ed; [lra|]. rewrite <- Ed in *.
  destruct (confidence_sum_range (map (fun item => confidence (snd item)) d) 0)
    as [H1 H2].
  { intros c Hc. apply in_map_iff in Hc. destruct Hc as [[k f] [<- Hin]].
    apply (Hall k f Hin). }
  rewrite length_map in H2.
  assert (Hpos : 0 < Production.Q_of_nat (List.length d)).
  { apply (Q_of_nat_lt 0). rewrite Ed. simpl. lia. }
  split.
  - apply Qle_shift_div_l; [exact Hpos|]. lra.
  - apply Qle_shift_div_r; [exact Hpos|]. lra.
Qed.

(** X29.  Whatever the oracle, the services and the arguments, the fields
    of the result of an enterprise session have pairwise distinct names, a
    confidence in [0,1] with its level, and no location: the enterprise
    service never grounds a field in the page.  The document-level
    confidence is the plain mean of the confidences and lies in [0,1]. *)
Theorem enterprise_fields_have_no_location (s : Enterprise.Service) (st : ServiceState)
    (req : Request) :
  let r := fst (process_document_enterprise s st req) in
  PyDict.wf (Production.extracted_data r)
  /\ (forall k f, In (k, f) (Production.extracted_data r) ->
        in_unit_range f /\ level_consistent f /\ location f = None)
  /\ Production.overall_confidence r
     = _calculate_overall_confidence (Production.extracted_data r)
  /\ 0 <= Production.overall_confidence r <= 1.
Proof.
  cbv zeta. rewrite enterprise_result. cbn [fst].
  unfold standard_result.
  cbn [Production.extracted_data Production.overall_confidence].
  assert (Hall : forall k f,
             In (k, f)
               (PyDict.map_items (processed_field (fst (session_type req)))
                  (standard_fields (world req) (fst (session_type req)))) ->
             in_unit_range f /\ level_consistent f /\ location f = None).
  { intros k f' Hin. apply in_map_items in Hin. destruct Hin as [f [Hin ->]].
    destruct (standard_fields_unlocated _ _ _ _ Hin) as [[H0 H1] Hloc].
    unfold processed_field, in_unit_range, level_consistent. cbv zeta.
    cbn [confidence confidence_level location].
    split; [|split; [reflexivity|exact Hloc]].
    destruct (_validate_field_format _ _ _); lra. }
  split; [apply map_items_wf, standard_fields_wf|].
  split; [exact Hall|]. split; [reflexivity|].
  apply plain_mean_range. intros k f Hin. apply (Hall k f Hin).
Qed.

End EnterpriseFields.
